(** * Baycation backend: discussion, chat and rating controllers

    A shallow embedding of the Express/Mongoose controllers
    ([discussionController.js], [chatController.js], [ratingController.js])
    over an explicit document store.  Every controller method is a
    function from the request and the store to an HTTP response and the
    store after the request.

    Conventions.
    - Collections are lists of documents in natural (insertion) order;
      [findOne] returns the first match.
    - Identifiers (ObjectIds, uuids, enum tags) are [string]s; free text
      (message content, reviews, answers) is a sequence of UTF-16 code
      units, as JavaScript's [length] and [trim] see it.
    - [new Date()] and [uuidv4()] are read from the request environment.
    - Body fields are either absent or strings, as the client sends them.
    - Socket emission ([io.to(...).emit]) writes to no store and does not
      shape the response; it is outside the model. *)

From Stdlib Require Import QArith Qround Qcanon.
From stdpp Require Import base numbers list strings gmap sorting.

Local Open Scope string_scope.
Local Open Scope list_scope.
Local Open Scope Z_scope.

(** ** JavaScript values the controllers compute with *)

Module Js.

(** A string as a sequence of UTF-16 code units (values below 2^16). *)
Definition jsstring := list N.

Definition of_string (s : string) : jsstring :=
  Ascii.N_of_ascii <$> String.list_ascii_of_string s.

(** WhiteSpace and LineTerminator code units of ECMA-262, the ones
    [String.prototype.trim] strips. *)
Definition isWhiteSpace (c : N) : bool :=
  bool_decide (c ∈ [9; 10; 11; 12; 13; 32; 160; 5760; 8232; 8233;
                    8239; 8287; 12288; 65279]%N)
  || ((8192 <=? c)%N && (c <=? 8202)%N).

Fixpoint trimStart (s : jsstring) : jsstring :=
  match s with
  | c :: s' => if isWhiteSpace c then trimStart s' else s
  | [] => []
  end.

Definition trimEnd (s : jsstring) : jsstring :=
  reverse (trimStart (reverse s)).

Definition trim (s : jsstring) : jsstring := trimEnd (trimStart s).

(** [Array.prototype.slice(start, end)]: a negative index counts from
    the end, both indices are clamped to the array. *)
Definition relativeIndex (len k : Z) : Z :=
  if bool_decide (k < 0) then Z.max (len + k) 0 else Z.min k len.

Definition slice {A} (l : list A) (start stop : Z) : list A :=
  let len := Z.of_nat (length l) in
  let k := relativeIndex len start in
  let final := relativeIndex len stop in
  take (Z.to_nat (final - k)) (drop (Z.to_nat k) l).

(** [Array.prototype.sort(comparefn)]: a stable sort; [x] is placed
    before the first element it does not compare greater than. *)
Fixpoint insertBy {A} (cmp : A → A → Z) (x : A) (l : list A) : list A :=
  match l with
  | [] => [x]
  | y :: l' =>
      if bool_decide (cmp x y ≤ 0) then x :: l else y :: insertBy cmp x l'
  end.

Definition sort {A} (cmp : A → A → Z) (l : list A) : list A :=
  foldr (insertBy cmp) [] l.

(** [Math.ceil(a / b)] on integers; [None] stands for the non-finite
    quotient of a division by zero. *)
Definition ceilDiv (a b : Z) : option Z :=
  if bool_decide (b = 0) then None else Some (- ((- a) `div` b)).

End Js.

(** ** The HTTP response envelope *)

Record response (A : Type) := mkResponse {
  status : Z;
  success : bool;
  message : option string;
  data : option A
}.
Arguments mkResponse {A} _ _ _ _.
Arguments status {A} _.
Arguments success {A} _.
Arguments message {A} _.
Arguments data {A} _.

Definition fail {A} (code : Z) (msg : string) : response A :=
  mkResponse code false (Some msg) None.

Definition ok {A} (code : Z) (msg : option string) (d : A) : response A :=
  mkResponse code true msg (Some d).

(** What a request reads from its surroundings: the identifier
    [uuidv4()] returns, the ObjectId the driver assigns to a new
    document, and the successive readings of [new Date()] in
    milliseconds. *)
Record env := mkEnv {
  uuid : string;
  objectId : string;
  date : nat → Z
}.

(** Query parameters after [parseInt], with the handler's defaults. *)
Definition param (p : option Z) (dflt : Z) : Z := default dflt p.

(** ** Cursor operations of the store *)

Module Mongo.

(** [cursor.skip(n)]: the server rejects a negative skip. *)
Definition skip {A} (n : Z) (l : list A) : option (list A) :=
  if bool_decide (n < 0) then None else Some (drop (Z.to_nat n) l).

(** [cursor.limit(n)]: 0 means no limit, a negative limit is taken in
    absolute value. *)
Definition limit {A} (n : Z) (l : list A) : list A :=
  if bool_decide (n = 0) then l else take (Z.to_nat (Z.abs n)) l.

(** [find(q).sort(s).skip(k).limit(n)]: filter, sort, then window.
    Documents that compare equal are kept in natural order. *)
Definition find {A} (q : A → bool) (cmp : A → A → Z) (k n : Z)
    (l : list A) : option (list A) :=
  limit n <$> skip k (Js.sort cmp (List.filter q l)).

Definition countDocuments {A} (q : A → bool) (l : list A) : Z :=
  Z.of_nat (length (List.filter q l)).

(** [updateMany(q, u)]. *)
Definition updateMany {A} (q : A → bool) (u : A → A) (l : list A) : list A :=
  (λ d, if q d then u d else d) <$> l.

(** Replace the first document matching [q] by its image under [u]. *)
Fixpoint updateOne {A} (q : A → bool) (u : A → A) (l : list A) : list A :=
  match l with
  | [] => []
  | d :: l' => if q d then u d :: l' else d :: updateOne q u l'
  end.

End Mongo.

(** ** Documents *)

Module User.

(** Modelled from the spec: the User schema is not in src; these are the
    fields the controllers read, populate or write. *)
Record t := mk {
  _id : string;
  name : string;
  email : string;
  isOnline : bool;
  role : string;
  ratingAverage : Qc;    (* guideInfo.rating.average *)
  ratingCount : Z        (* guideInfo.rating.count *)
}.

Definition findById (id : string) (l : list t) : option t :=
  List.find (λ u, bool_decide (_id u = id)) l.

End User.

Module Trip.

(** Modelled from the spec: the Trip schema is not in src; these are the
    fields of the spec's data model that the discussion and rating
    controllers read or write. *)
Record participant := mkParticipant {
  user : string;
  status : string
}.

Record features := mkFeatures {
  allowDiscussions : bool;
  allowItineraryEditing : bool;
  lastActivity : Z
}.

Record t := mk {
  _id : string;
  title : string;
  organizer : string;
  participants : list participant;
  collaborativeFeatures : features
}.

Definition findById (id : string) (l : list t) : option t :=
  List.find (λ d, bool_decide (_id d = id)) l.

Definition setLastActivity (now : Z) (d : t) : t :=
  mk (_id d) (title d) (organizer d) (participants d)
     (mkFeatures (allowDiscussions (collaborativeFeatures d))
                 (allowItineraryEditing (collaborativeFeatures d)) now).

(** [Trip.findByIdAndUpdate(id, {'collaborativeFeatures.lastActivity': now})] *)
Definition touch (id : string) (now : Z) (l : list t) : list t :=
  Mongo.updateOne (λ d, bool_decide (_id d = id)) (setLastActivity now) l.

End Trip.

Module Discussion.

(** [discussionSchema.messages]; [metadata] and [editedAt], like the
    discussion's [settings], are read and written by none of the
    handlers below and are left out. *)
Record message := mkMessage {
  messageId : string;
  author : string;
  content : Js.jsstring;
  messageType : string;
  timestamp : Z;
  isEdited : bool
}.

(** An entry of [activeUsers], addressed by user id as the update
    paths [activeUsers.<userId>.lastSeen] and [.isTyping] do. *)
Record presence := mkPresence {
  lastSeen : Z;
  isTyping : bool
}.

Record t := mk {
  trip : string;
  messages : list message;
  activeUsers : gmap string presence
}.

(** [maxlength: [1000, 'Message cannot exceed 1000 characters']] *)
Definition maxlength : nat := 1000.

(** The schema's validators for one message: [content] is required
    and, after the [trim] setter, at most [maxlength] code units. *)
Definition validMessage (m : message) : bool :=
  let c := Js.trim (content m) in
  bool_decide (c ≠ []) && bool_decide (length c ≤ maxlength)%nat.

(** Options of a query, absent ones being [false]. *)
Record options := mkOptions {
  new : bool;
  upsert : bool;
  runValidators : bool
}.

Definition hasMessageId (id : string) (d : t) : bool :=
  bool_decide (id ∈ messageId <$> messages d).

(** [findOne({ trip })] *)
Definition findOne (tripId : string) (l : list t) : option t :=
  List.find (λ d, bool_decide (trip d = tripId)) l.

(** The unique index on [messages.messageId] holds across documents:
    a key may enter a document only if no other document has it. *)
Definition indexAdmits (tripId : string) (id : string) (l : list t) : bool :=
  match list_find (λ d, trip d = tripId) l with
  | Some (i, _) => bool_decide (Forall (λ d, hasMessageId id d = false) (delete i l))
  | None => bool_decide (Forall (λ d, hasMessageId id d = false) l)
  end.

Definition pushMessage (m : message) (u : string) (seen : Z) (typing : bool)
    (d : t) : t :=
  mk (trip d) (messages d ++ [m])
     (<[u := mkPresence seen typing]> (activeUsers d)).

(** [findOneAndUpdate({ trip }, { $push: { messages: m }, $set: {
    activeUsers.<u>.lastSeen, activeUsers.<u>.isTyping } }, opts)].
    [None] is a thrown error; otherwise the collection after the
    update and the document handed back ([new] selects the updated
    one, [upsert] inserts when nothing matches).  Schema validators
    run only under [runValidators]. *)
Definition findOneAndUpdate (opts : options) (tripId : string)
    (m : message) (u : string) (seen : Z) (typing : bool) (l : list t)
    : option (list t * option t) :=
  if runValidators opts && negb (validMessage m) then None
  else if negb (indexAdmits tripId (messageId m) l) then None
  else
    match findOne tripId l with
    | Some d =>
        let d' := pushMessage m u seen typing d in
        Some (Mongo.updateOne (λ x, bool_decide (trip x = tripId))
                (pushMessage m u seen typing) l,
              Some (if new opts then d' else d))
    | None =>
        if upsert opts then
          let d' := pushMessage m u seen typing (mk tripId [] ∅) in
          Some (l ++ [d'], if new opts then Some d' else None)
        else Some (l, None)
    end.

(** [new Discussion(d).save()]: document validation, then the index. *)
Definition save (d : t) (l : list t) : option (list t) :=
  if negb (forallb validMessage (messages d)) then None
  else if bool_decide (Forall (λ m, Forall (λ x, hasMessageId (messageId m) x = false) l)
                         (messages d))
  then Some (l ++ [d]) else None.

End Discussion.

Module Chat.

(** Modelled from the spec: the Chat schema is not in src; a chat holds
    participants (user and role) and a back-reference to its most
    recent message, and no uniqueness constraint covers the
    participant pair. *)
Record member := mkMember {
  user : string;
  role : string
}.

Record t := mk {
  _id : string;
  chat_id : string;
  chatType : string;
  participants : list member;
  lastMessage : option string;
  lastActivity : option Z
}.

Definition findById (id : string) (l : list t) : option t :=
  List.find (λ c, bool_decide (_id c = id)) l.

(** [chat.participants.some(p => p.user.toString() === userId)] *)
Definition isParticipant (userId : string) (c : t) : bool :=
  existsb (λ p, bool_decide (user p = userId)) (participants c).

(** The filter [{ chatType: 'direct', 'participants.user': { $all:
    [a, b] } }]: each listed user occurs among the participants. *)
Definition directBetween (a b : string) (c : t) : bool :=
  bool_decide (chatType c = "direct")
  && forallb (λ x, isParticipant x c) [a; b].

End Chat.

Module Message.

(** Modelled from the spec: the Message schema is not in src; a message
    holds sender, content, type, read-by set, soft-delete flag and
    timestamp, and for questions an answer with answerer and
    timestamp; [chat], [trip] and [createdAt] are the fields the
    controller filters and sorts on.  Saving a chat or a message is
    taken to succeed: no validator of the absent schemas is assumed. *)
Record t := mk {
  _id : string;
  message_id : string;
  chat : option string;
  trip : option string;
  sender : string;
  content : Js.jsstring;
  messageType : string;
  readBy : gset string;
  isDeleted : bool;
  deletedAt : option Z;
  answer : option Js.jsstring;
  answeredBy : option string;
  answeredAt : option Z;
  isAnswered : bool;
  createdAt : Z
}.

Definition findById (id : string) (l : list t) : option t :=
  List.find (λ m, bool_decide (_id m = id)) l.

Definition hasId (id : string) (m : t) : bool := bool_decide (_id m = id).

(** [message.isDeleted = true; message.deletedAt = now] *)
Definition markDeleted (now : Z) (m : t) : t :=
  mk (_id m) (message_id m) (chat m) (trip m) (sender m) (content m)
     (messageType m) (readBy m) true (Some now)
     (answer m) (answeredBy m) (answeredAt m) (isAnswered m) (createdAt m).

(** [message.answer = a; message.answeredBy = u; message.answeredAt =
    now; message.isAnswered = true] *)
Definition setAnswer (a : Js.jsstring) (u : string) (now : Z) (m : t) : t :=
  mk (_id m) (message_id m) (chat m) (trip m) (sender m) (content m)
     (messageType m) (readBy m) (isDeleted m) (deletedAt m)
     (Some a) (Some u) (Some now) true (createdAt m).

(** [$addToSet: { readBy: u }] *)
Definition addReader (u : string) (m : t) : t :=
  mk (_id m) (message_id m) (chat m) (trip m) (sender m) (content m)
     (messageType m) ({[u]} ∪ readBy m) (isDeleted m) (deletedAt m)
     (answer m) (answeredBy m) (answeredAt m) (isAnswered m) (createdAt m).

(** [sort({ createdAt: -1 })] *)
Definition newestFirst (a b : t) : Z := createdAt b - createdAt a.

End Message.

Module Rating.

(** [ratingSchema], with the [createdAt]/[updatedAt] pair that
    [timestamps: true] maintains. *)
Record t := mk {
  _id : string;
  rating_id : string;
  reviewer : string;
  targetType : string;
  targetId : string;
  rating : Qc;
  review : option Js.jsstring;
  isVerified : bool;
  helpfulVotes : Z;
  reportCount : Z;
  isHidden : bool;
  createdAt : Z;
  updatedAt : Z
}.

Definition findById (id : string) (l : list t) : option t :=
  List.find (λ r, bool_decide (_id r = id)) l.

Definition hasId (id : string) (r : t) : bool := bool_decide (_id r = id).

(** The key of the compound unique index
    [{ reviewer: 1, targetType: 1, targetId: 1 }]. *)
Definition hasKey (who ty target : string) (r : t) : bool :=
  bool_decide (reviewer r = who) && bool_decide (targetType r = ty)
  && bool_decide (targetId r = target).

(** [findOne({ reviewer, targetType, targetId })] *)
Definition findOne (who ty target : string) (l : list t) : option t :=
  List.find (hasKey who ty target) l.

(** [rating: { required, min: 1, max: 5 }] *)
Definition validScore (v : option Qc) : bool :=
  match v with
  | Some q => bool_decide (Qc_of_Z 1 ≤ q)%Qc && bool_decide (q ≤ Qc_of_Z 5)%Qc
  | None => false
  end.

(** [review: { maxlength: 1000 }] *)
Definition validReview (v : option Js.jsstring) : bool :=
  match v with
  | Some s => bool_decide (length s ≤ 1000)%nat
  | None => true
  end.

(** [targetType: { enum: ['guide', 'trip', 'destination'] }] *)
Definition validTargetType (ty : string) : bool :=
  bool_decide (ty ∈ ["guide"; "trip"; "destination"]).

(** [new Rating({...}).save()]: the schema's validators, then the
    unique indexes on [_id], on [rating_id] and on the compound key. *)
Definition create (e : env) (who ty target : string) (score : option Qc)
    (text : option Js.jsstring) (l : list t) : option (t * list t) :=
  match score with
  | Some q =>
      if validScore score && validReview text && validTargetType ty then
        if existsb (hasKey who ty target) l
           || existsb (λ r, bool_decide (rating_id r = uuid e)) l
           || existsb (hasId (objectId e)) l
        then None
        else
          let r := mk (objectId e) (uuid e) who ty target q text
                      false 0 0 false (date e 0) (date e 0) in
          Some (r, l ++ [r])
      else None
  | None => None
  end.

(** [existing.rating = score; existing.review = text; existing.save()]:
    only the paths whose value changed are validated and written, and
    [updatedAt] moves when one did. *)
Definition update (e : env) (old : t) (score : option Qc)
    (text : option Js.jsstring) (l : list t) : option (t * list t) :=
  let scoreModified := bool_decide (score ≠ Some (rating old)) in
  let textModified := bool_decide (text ≠ review old) in
  if (scoreModified && negb (validScore score))
     || (textModified && negb (validReview text)) then None
  else
    let r := mk (_id old) (rating_id old) (reviewer old) (targetType old)
                (targetId old) (default (rating old) score) text
                (isVerified old) (helpfulVotes old) (reportCount old)
                (isHidden old) (createdAt old)
                (if scoreModified || textModified then date e 0
                 else updatedAt old) in
    Some (r, Mongo.updateOne (hasId (_id old)) (λ _, r) l).

(** [rating.reportCount += 1; if (rating.reportCount >= 5)
    rating.isHidden = true] *)
Definition report (now : Z) (r : t) : t :=
  let n := reportCount r + 1 in
  mk (_id r) (rating_id r) (reviewer r) (targetType r) (targetId r)
     (rating r) (review r) (isVerified r) (helpfulVotes r) n
     (if bool_decide (5 ≤ n) then true else isHidden r)
     (createdAt r) now.

End Rating.

(** ** The store *)

Record db := mkDb {
  Users : list User.t;
  Trips : list Trip.t;
  Discussions : list Discussion.t;
  Chats : list Chat.t;
  Messages : list Message.t;
  Ratings : list Rating.t
}.

Definition withTrips (ts : list Trip.t) (s : db) : db :=
  mkDb (Users s) ts (Discussions s) (Chats s) (Messages s) (Ratings s).
Definition withDiscussions (ds : list Discussion.t) (s : db) : db :=
  mkDb (Users s) (Trips s) ds (Chats s) (Messages s) (Ratings s).
Definition withUsers (us : list User.t) (s : db) : db :=
  mkDb us (Trips s) (Discussions s) (Chats s) (Messages s) (Ratings s).
Definition withChats (cs : list Chat.t) (s : db) : db :=
  mkDb (Users s) (Trips s) (Discussions s) cs (Messages s) (Ratings s).
Definition withMessages (ms : list Message.t) (s : db) : db :=
  mkDb (Users s) (Trips s) (Discussions s) (Chats s) ms (Ratings s).
Definition withRatings (rs : list Rating.t) (s : db) : db :=
  mkDb (Users s) (Trips s) (Discussions s) (Chats s) (Messages s) rs.

(** ** discussionController.js *)

Module DiscussionController.

Definition isOrganizer (t : Trip.t) (userId : string) : bool :=
  bool_decide (Trip.organizer t = userId).

(** [trip.participants.some(p => p.user.toString() === userId &&
    p.status === 'confirmed')] *)
Definition isParticipant (t : Trip.t) (userId : string) : bool :=
  existsb (λ p, bool_decide (Trip.user p = userId)
                && bool_decide (Trip.status p = "confirmed"))
          (Trip.participants t).

(** [(a, b) => new Date(a.timestamp) - new Date(b.timestamp)] *)
Definition byTimestamp (a b : Discussion.message) : Z :=
  Discussion.timestamp a - Discussion.timestamp b.

Record tripInfo := mkTripInfo {
  info_id : string;
  info_title : string;
  info_collaborativeFeatures : Trip.features
}.

Record view := mkView {
  discussion : Discussion.t;
  trip : tripInfo
}.

Definition getDiscussion (e : env) (s : db) (userId tripId : string)
    (page limit : option Z) : response view * db :=
  let page := param page 1 in
  let limit := param limit 50 in
  match Trip.findById tripId (Trips s) with
  | None => (fail 404 "Trip not found", s)
  | Some t =>
      if negb (isOrganizer t userId) && negb (isParticipant t userId) then
        (fail 403 "Only trip organizer or participants can access discussions", s)
      else
        let found :=
          match Discussion.findOne tripId (Discussions s) with
          | Some d => Some (d, s)
          | None =>
              let d := Discussion.mk tripId
                [Discussion.mkMessage (uuid e) userId
                   (Js.of_string "Discussion started for this trip!")
                   "system" (date e 0) false] ∅ in
              (λ ds, (d, withDiscussions ds s)) <$> Discussion.save d (Discussions s)
          end in
        match found with
        | None => (fail 500 "Server error while fetching discussion", s)
        | Some (d, s') =>
            let skip := (page - 1) * limit in
            let paginatedMessages :=
              Js.slice (Js.sort byTimestamp (Discussion.messages d))
                       skip (skip + limit) in
            (ok 200 None
               (mkView (Discussion.mk (Discussion.trip d) paginatedMessages
                          (Discussion.activeUsers d))
                       (mkTripInfo (Trip._id t) (Trip.title t)
                          (Trip.collaborativeFeatures t))),
             s')
        end
  end.

Definition sendMessage (e : env) (s : db) (userId tripId : string)
    (content : option Js.jsstring) (messageType : option string)
    : response Discussion.message * db :=
  let messageType := default "text" messageType in
  match content with
  | None => (fail 400 "Message content is required", s)
  | Some content =>
      if bool_decide (length (Js.trim content) = 0%nat) then
        (fail 400 "Message content is required", s)
      else
        match Trip.findById tripId (Trips s) with
        | None => (fail 404 "Trip not found", s)
        | Some t =>
            if negb (Trip.allowDiscussions (Trip.collaborativeFeatures t)) then
              (fail 403 "Discussions are disabled for this trip", s)
            else if negb (isOrganizer t userId) && negb (isParticipant t userId) then
              (fail 403 "Only trip organizer or participants can send messages", s)
            else
              let messageData :=
                Discussion.mkMessage (uuid e) userId (Js.trim content)
                  messageType (date e 0) false in
              match Discussion.findOneAndUpdate
                      (Discussion.mkOptions true true false) tripId
                      messageData userId (date e 1) false (Discussions s) with
              | None => (fail 500 "Server error while sending message", s)
              | Some (ds, d) =>
                  let s' := withTrips (Trip.touch tripId (date e 2) (Trips s))
                              (withDiscussions ds s) in
                  match d with
                  | None => (fail 500 "Server error while sending message", s')
                  | Some discussion =>
                      let newMessage := last (Discussion.messages discussion) in
                      (mkResponse 201 true (Some "Message sent successfully")
                         newMessage, s')
                  end
              end
        end
  end.

End DiscussionController.

(** ** chatController.js *)

Module ChatController.

(** A chat with [participants.user] populated from the users.
    [selected] holds the paths of the call's select string: of each
    user in [participantUsers] the response shows [_id] and these paths
    only.  A participant whose user no longer exists is populated with
    [null] ([None]).  The paths [bio] and [location] belong to the User
    schema, which is not in src: they are recorded as selected, their
    values are not modelled. *)
Record chatView := mkChatView {
  chat : Chat.t;
  selected : list string;
  participantUsers : list (option User.t)
}.

(** [populate('participants.user', select)] *)
Definition populateSelect (select : list string) (s : db) (c : Chat.t)
    : chatView :=
  mkChatView c select
    ((λ p, User.findById (Chat.user p) (Users s)) <$> Chat.participants c).

(** [populate('participants.user', 'name email isOnline')], the call of
    [createDirectChat]. *)
Definition populate (s : db) (c : Chat.t) : chatView :=
  populateSelect ["name"; "email"; "isOnline"] s c.

(** [populate('participants.user', 'name email isOnline bio location')],
    the call of [getChatDetails]. *)
Definition populateDetails (s : db) (c : Chat.t) : chatView :=
  populateSelect ["name"; "email"; "isOnline"; "bio"; "location"] s c.

Definition createDirectChat (e : env) (s : db) (userId : string)
    (participantId : option string) : response chatView * db :=
  match participantId with
  | None => (fail 400 "Participant ID is required", s)
  | Some participantId =>
      if bool_decide (participantId = "") then
        (fail 400 "Participant ID is required", s)
      else
        match User.findById participantId (Users s) with
        | None => (fail 404 "User not found", s)
        | Some _ =>
            match List.find (Chat.directBetween userId participantId) (Chats s) with
            | Some c => (ok 200 (Some "Chat already exists") (populate s c), s)
            | None =>
                let c := Chat.mk (objectId e) (uuid e) "direct"
                           [Chat.mkMember userId "member";
                            Chat.mkMember participantId "member"]
                           None None in
                (ok 201 (Some "Chat created successfully") (populate s c),
                 withChats (Chats s ++ [c]) s)
            end
        end
  end.

Record pagination := mkPagination {
  current : Z;
  total : option Z;
  count : Z;
  totalMessages : Z
}.

Record messagePage := mkPage {
  messages : list Message.t;
  paging : pagination
}.

Definition inChat (chatId : string) (m : Message.t) : bool :=
  bool_decide (Message.chat m = Some chatId).

Definition getChatMessages (s : db) (userId chatId : string)
    (page limit : option Z) : response messagePage * db :=
  let page := param page 1 in
  let limit := param limit 50 in
  match Chat.findById chatId (Chats s) with
  | None => (fail 404 "Chat not found", s)
  | Some c =>
      if negb (Chat.isParticipant userId c) then
        (fail 403 "Access denied", s)
      else
        let skip := (page - 1) * limit in
        match Mongo.find (inChat chatId) Message.newestFirst skip limit
                (Messages s) with
        | None => (fail 500 "Server error while fetching messages", s)
        | Some messages =>
            let total := Mongo.countDocuments (inChat chatId) (Messages s) in
            (ok 200 None
               (mkPage (reverse messages)
                  (mkPagination page (Js.ceilDiv total limit)
                     (Z.of_nat (length messages)) total)),
             s)
        end
  end.

Definition sendMessage (e : env) (s : db) (senderId chatId : string)
    (content : option Js.jsstring) (messageType : option string)
    : response Message.t * db :=
  let messageType := default "text" messageType in
  match content with
  | None => (fail 400 "Message content is required", s)
  | Some content =>
      if bool_decide (length (Js.trim content) = 0%nat) then
        (fail 400 "Message content is required", s)
      else
        match Chat.findById chatId (Chats s) with
        | None => (fail 404 "Chat not found", s)
        | Some c =>
            if negb (Chat.isParticipant senderId c) then
              (fail 403 "Access denied", s)
            else
              let m := Message.mk (objectId e) (uuid e) (Some chatId) None
                         senderId (Js.trim content) messageType ∅ false None
                         None None None false (date e 0) in
              let touch (c : Chat.t) :=
                Chat.mk (Chat._id c) (Chat.chat_id c) (Chat.chatType c)
                  (Chat.participants c) (Some (Message._id m))
                  (Some (date e 1)) in
              (ok 201 (Some "Message sent successfully") m,
               withChats
                 (Mongo.updateOne (λ x, bool_decide (Chat._id x = chatId)) touch (Chats s))
                 (withMessages (Messages s ++ [m]) s))
        end
  end.

(** The filter [{ chat: chatId, sender: { $ne: userId }, readBy: {
    $ne: userId } }]. *)
Definition unreadBy (userId chatId : string) (m : Message.t) : bool :=
  inChat chatId m
  && bool_decide (Message.sender m ≠ userId)
  && bool_decide (userId ∉ Message.readBy m).

Definition markAsRead (s : db) (userId chatId : string) : response unit * db :=
  (mkResponse 200 true (Some "Messages marked as read") None,
   withMessages
     (Mongo.updateMany (unreadBy userId chatId) (Message.addReader userId)
        (Messages s)) s).

Definition deleteMessage (e : env) (s : db) (userId messageId : string)
    : response unit * db :=
  match Message.findById messageId (Messages s) with
  | None => (fail 404 "Message not found", s)
  | Some m =>
      if bool_decide (Message.sender m ≠ userId) then
        (fail 403 "Only the sender can delete this message", s)
      else
        (mkResponse 200 true (Some "Message deleted successfully") None,
         withMessages
           (Mongo.updateOne (Message.hasId messageId)
              (Message.markDeleted (date e 0)) (Messages s)) s)
  end.

Definition answerQuestion (e : env) (s : db) (userId messageId : string)
    (answer : option Js.jsstring) : response Message.t * db :=
  match answer with
  | None => (fail 400 "Answer is required", s)
  | Some answer =>
      if bool_decide (length (Js.trim answer) = 0%nat) then
        (fail 400 "Answer is required", s)
      else
        match Message.findById messageId (Messages s) with
        | None => (fail 404 "Question not found", s)
        | Some m =>
            if bool_decide (Message.messageType m ≠ "question") then
              (fail 400 "This message is not a question", s)
            else if Message.isAnswered m then
              (fail 400 "This question has already been answered", s)
            else
              let m' := Message.setAnswer (Js.trim answer) userId (date e 0) m in
              (ok 200 (Some "Question answered successfully") m',
               withMessages
                 (Mongo.updateOne (Message.hasId messageId) (λ _, m')
                    (Messages s)) s)
        end
  end.

(** [chat.participants.some(p => p.user._id.toString() === userId)]
    over the populated participants, in order: reading [_id] of a
    participant whose user no longer exists throws ([None]). *)
Fixpoint somePopulated (userId : string) (l : list (option User.t))
    : option bool :=
  match l with
  | [] => Some false
  | None :: _ => None
  | Some u :: l' =>
      if bool_decide (User._id u = userId) then Some true
      else somePopulated userId l'
  end.

Definition getChatDetails (s : db) (userId chatId : string)
    : response chatView * db :=
  match Chat.findById chatId (Chats s) with
  | None => (fail 404 "Chat not found", s)
  | Some c =>
      let v := populateDetails s c in
      match somePopulated userId (participantUsers v) with
      | None => (fail 500 "Server error while fetching chat details", s)
      | Some false => (fail 403 "Access denied to this chat", s)
      | Some true => (ok 200 None v, s)
      end
  end.

(** The filter of [getQAMessages]: [{ trip, messageType: 'question' }],
    and unless [answered] is ['all'], [isAnswered: answered === 'true']. *)
Definition qaQuery (tripId answered : string) (m : Message.t) : bool :=
  bool_decide (Message.trip m = Some tripId)
  && bool_decide (Message.messageType m = "question")
  && (bool_decide (answered = "all")
      || bool_decide (Message.isAnswered m = bool_decide (answered = "true"))).

Definition getQAMessages (s : db) (tripId : string)
    (page limit : option Z) (answered : option string)
    : response messagePage * db :=
  let page := param page 1 in
  let limit := param limit 20 in
  let answered := default "all" answered in
  let skip := (page - 1) * limit in
  match Mongo.find (qaQuery tripId answered) Message.newestFirst skip limit
          (Messages s) with
  | None => (fail 500 "Server error while fetching Q&A messages", s)
  | Some messages =>
      let total := Mongo.countDocuments (qaQuery tripId answered) (Messages s) in
      (ok 200 None
         (mkPage messages
            (mkPagination page (Js.ceilDiv total limit)
               (Z.of_nat (length messages)) total)),
       s)
  end.

End ChatController.

(** ** ratingController.js *)

Module RatingController.

Definition sumScores (l : list Rating.t) : Qc :=
  foldr (λ r acc, Rating.rating r + acc)%Qc (Qc_of_Z 0) l.

(** [Math.round(x * 10) / 10], Number arithmetic taken over the
    rationals. *)
Definition roundTenth (x : Qc) : Qc :=
  (Qc_of_Z (Qfloor (x * Qc_of_Z 10 + Q2Qc (1 # 2))%Qc) / Qc_of_Z 10)%Qc.

Definition visibleFor (ty target : string) (r : Rating.t) : bool :=
  bool_decide (Rating.targetType r = ty)
  && bool_decide (Rating.targetId r = target)
  && bool_decide (Rating.isHidden r = false).

Definition updateGuideRating (guideId : string) (s : db) : db :=
  let ratings := List.filter (visibleFor "guide" guideId) (Ratings s) in
  if bool_decide (0 < length ratings)%nat then
    let n := Z.of_nat (length ratings) in
    let avgRating := roundTenth (sumScores ratings / Qc_of_Z n)%Qc in
    withUsers
      (Mongo.updateOne (λ u, bool_decide (User._id u = guideId))
         (λ u, User.mk (User._id u) (User.name u) (User.email u)
                 (User.isOnline u) (User.role u) avgRating n)
         (Users s)) s
  else s.

(** The [switch (targetType)] that validates the target: the status
    and message of the early return, if any. *)
Definition targetError (s : db) (ty target : string) : option (Z * string) :=
  if bool_decide (ty = "guide") then
    match User.findById target (Users s) with
    | Some u => if bool_decide (User.role u ≠ "guide")
                then Some (404, "Guide not found") else None
    | None => Some (404, "Guide not found")
    end
  else if bool_decide (ty = "trip") then
    match Trip.findById target (Trips s) with
    | Some _ => None
    | None => Some (404, "Trip not found")
    end
  else Some (400, "Invalid target type").

Definition createRating (e : env) (s : db) (reviewerId : string)
    (targetType targetId : string) (rating : option Qc)
    (review : option Js.jsstring) : response Rating.t * db :=
  match targetError s targetType targetId with
  | Some (code, msg) => (fail code msg, s)
  | None =>
      match Rating.findOne reviewerId targetType targetId (Ratings s) with
      | Some existingRating =>
          match Rating.update e existingRating rating review (Ratings s) with
          | None => (fail 500 "Server error while creating rating", s)
          | Some (r, rs) =>
              (ok 200 (Some "Rating updated successfully") r, withRatings rs s)
          end
      | None =>
          match Rating.create e reviewerId targetType targetId rating review
                  (Ratings s) with
          | None => (fail 500 "Server error while creating rating", s)
          | Some (r, rs) =>
              let s' := withRatings rs s in
              (ok 201 (Some "Rating created successfully") r,
               if bool_decide (targetType = "guide")
               then updateGuideRating targetId s' else s')
          end
      end
  end.

Definition compareQc (a b : Qc) : Z :=
  match (a ?= b)%Qc with Lt => -1 | Eq => 0 | Gt => 1 end.

(** [sortQuery]: the comparator each [sort] option selects; any other
    value leaves the natural order. *)
Definition sortQuery (sort : string) (a b : Rating.t) : Z :=
  if bool_decide (sort = "newest") then Rating.createdAt b - Rating.createdAt a
  else if bool_decide (sort = "helpful") then
    Rating.helpfulVotes b - Rating.helpfulVotes a
  else if bool_decide (sort = "rating-high") then
    compareQc (Rating.rating b) (Rating.rating a)
  else if bool_decide (sort = "rating-low") then
    compareQc (Rating.rating a) (Rating.rating b)
  else 0.

(** [stats] of the response: [$avg] and [$sum: 1] over the matching
    ratings (the per-score histogram is not modelled). *)
Record stats := mkStats {
  average : Qc;
  totalStat : Z
}.

Record listing := mkListing {
  ratings : list Rating.t;
  statistics : stats;
  current : Z;
  total : option Z;
  count : Z;
  totalRatings : Z
}.

Definition getRatings (s : db) (targetType targetId : string)
    (page limit : option Z) (sort : option string) : response listing * db :=
  let page := param page 1 in
  let limit := param limit 10 in
  let sort := default "newest" sort in
  let query := visibleFor targetType targetId in
  let skip := (page - 1) * limit in
  match Mongo.find query (sortQuery sort) skip limit (Ratings s) with
  | None => (fail 500 "Server error while fetching ratings", s)
  | Some ratings =>
      let total := Mongo.countDocuments query (Ratings s) in
      let matched := List.filter query (Ratings s) in
      let average :=
        if bool_decide (matched = []) then Qc_of_Z 0
        else (sumScores matched / Qc_of_Z total)%Qc in
      (ok 200 None
         (mkListing ratings (mkStats average total) page
            (Js.ceilDiv total limit) (Z.of_nat (length ratings)) total),
       s)
  end.

Definition reportRating (e : env) (s : db) (ratingId : string)
    : response unit * db :=
  match Rating.findById ratingId (Ratings s) with
  | None => (fail 404 "Rating not found", s)
  | Some _ =>
      (mkResponse 200 true (Some "Rating reported successfully") None,
       withRatings
         (Mongo.updateOne (Rating.hasId ratingId) (Rating.report (date e 0))
            (Ratings s)) s)
  end.

(** [if (isHelpful) votes += 1; else if (votes > 0) votes -= 1], then
    [save()], which writes (and moves [updatedAt]) only when the count
    changed. *)
Definition vote (isHelpful : bool) (now : Z) (r : Rating.t) : Rating.t :=
  let votes :=
    if isHelpful then Rating.helpfulVotes r + 1
    else if bool_decide (0 < Rating.helpfulVotes r)
         then Rating.helpfulVotes r - 1 else Rating.helpfulVotes r in
  Rating.mk (Rating._id r) (Rating.rating_id r) (Rating.reviewer r)
    (Rating.targetType r) (Rating.targetId r) (Rating.rating r)
    (Rating.review r) (Rating.isVerified r) votes (Rating.reportCount r)
    (Rating.isHidden r) (Rating.createdAt r)
    (if bool_decide (votes = Rating.helpfulVotes r) then Rating.updatedAt r
     else now).

(** [isHelpful] is the truthiness of the body field. *)
Definition voteHelpful (e : env) (s : db) (ratingId : string)
    (isHelpful : bool) : response Z * db :=
  match Rating.findById ratingId (Ratings s) with
  | None => (fail 404 "Rating not found", s)
  | Some r =>
      (ok 200 (Some "Vote recorded successfully")
         (Rating.helpfulVotes (vote isHelpful (date e 0) r)),
       withRatings
         (Mongo.updateOne (Rating.hasId ratingId) (vote isHelpful (date e 0))
            (Ratings s)) s)
  end.

Record userListing := mkUserListing {
  userRatings : list Rating.t;
  userCurrent : Z;
  userTotal : option Z;
  userCount : Z;
  userTotalRatings : Z
}.

Definition byReviewer (userId : string) (r : Rating.t) : bool :=
  bool_decide (Rating.reviewer r = userId).

Definition getUserRatings (s : db) (userId : string)
    (page limit : option Z) : response userListing * db :=
  let page := param page 1 in
  let limit := param limit 10 in
  let skip := (page - 1) * limit in
  match Mongo.find (byReviewer userId) (sortQuery "newest") skip limit
          (Ratings s) with
  | None => (fail 500 "Server error while fetching user ratings", s)
  | Some ratings =>
      let total := Mongo.countDocuments (byReviewer userId) (Ratings s) in
      (ok 200 None
         (mkUserListing ratings page (Js.ceilDiv total limit)
            (Z.of_nat (length ratings)) total),
       s)
  end.

End RatingController.

(** ** Order.js and orderController.js *)

Module Order.

(** [orderSchema.items] *)
Record item := mkItem {
  gear : string;
  quantity : Qc;
  priceAmount : Qc;
  priceCurrency : string
}.

(** [orderSchema.refundAmount] *)
Record refund := mkRefund {
  amount : Qc;
  currency : string;
  reason : option Js.jsstring;
  processedAt : Z
}.

(** [orderSchema] with the [createdAt]/[updatedAt] pair of
    [timestamps: true]; the addresses, tracking and return fields, which
    the handlers below neither read nor write, are left out.  [status]
    is [None] when the stored document has no such field; a loaded
    document shows the schema default instead ([statusOf]), a query
    does not. *)
Record t := mk {
  _id : string;
  order_id : string;
  buyer : string;
  seller : string;
  items : list item;
  totalAmount : Qc;
  totalCurrency : string;
  status : option string;
  paymentStatus : string;
  paymentMethod : string;
  deliveryMethod : string;
  notes : option Js.jsstring;
  cancellationReason : option Js.jsstring;
  refundAmount : option refund;
  deliveryDate : option Z;
  createdAt : Z;
  updatedAt : Z
}.

(** [status: { default: 'pending' }] as a loaded document shows it. *)
Definition statusOf (o : t) : string := default "pending" (status o).

(** [status: { enum: [...] }] *)
Definition statuses : list string :=
  ["pending"; "confirmed"; "shipped"; "delivered"; "completed";
   "cancelled"; "refunded"].

(** [paymentStatus: { enum: [...] }] *)
Definition paymentStatuses : list string :=
  ["pending"; "paid"; "failed"; "refunded"].

(** [paymentMethod: { enum: [...] }] *)
Definition paymentMethods : list string :=
  ["credit_card"; "debit_card"; "paypal"; "stripe"; "bank_transfer"; "cash"].

(** [deliveryMethod: { enum: [...] }] *)
Definition deliveryMethods : list string :=
  ["pickup"; "delivery"; "shipping"].

(** The validators of [orderSchema] on the paths above, as they read a
    loaded document: the required strings are not empty, every quantity
    is at least 1, the total is not negative, and the enumerated paths
    hold one of their values. *)
Definition valid (o : t) : bool :=
  bool_decide (order_id o ≠ "")
  && forallb (λ i, bool_decide (Qc_of_Z 1 ≤ quantity i)%Qc) (items o)
  && bool_decide (Qc_of_Z 0 ≤ totalAmount o)%Qc
  && bool_decide (totalCurrency o ≠ "")
  && bool_decide (statusOf o ∈ statuses)
  && bool_decide (paymentStatus o ∈ paymentStatuses)
  && bool_decide (paymentMethod o ∈ paymentMethods)
  && bool_decide (deliveryMethod o ∈ deliveryMethods).

Definition findById (id : string) (l : list t) : option t :=
  List.find (λ o, bool_decide (_id o = id)) l.

Definition hasId (id : string) (o : t) : bool := bool_decide (_id o = id).

(** [sort({ createdAt: -1 })] *)
Definition newestFirst (a b : t) : Z := createdAt b - createdAt a.

End Order.

Module OrderController.

(** [populate('buyer')] and [populate('seller')]: the referenced users,
    [None] where the user no longer exists. *)
Record orderView := mkOrderView {
  order : Order.t;
  buyerUser : option User.t;
  sellerUser : option User.t
}.

Definition populate (s : db) (o : Order.t) : orderView :=
  mkOrderView o (User.findById (Order.buyer o) (Users s))
    (User.findById (Order.seller o) (Users s)).

(** [order.buyer._id.toString() !== userId && order.seller._id.toString()
    !== userId]: [None] when the operand that is evaluated reads [_id]
    of a missing user. *)
Definition isStranger (userId : string) (v : orderView) : option bool :=
  match buyerUser v with
  | None => None
  | Some b =>
      if bool_decide (User._id b ≠ userId) then
        match sellerUser v with
        | None => None
        | Some x => Some (bool_decide (User._id x ≠ userId))
        end
      else Some false
  end.

Definition getOrder (s : db) (os : list Order.t) (userId orderId : string)
    : response orderView * list Order.t :=
  match Order.findById orderId os with
  | None => (fail 404 "Order not found", os)
  | Some o =>
      match isStranger userId (populate s o) with
      | None => (fail 500 "Server error while fetching order", os)
      | Some true => (fail 403 "Access denied", os)
      | Some false => (ok 200 None (populate s o), os)
      end
  end.

(** [user && user.role === 'admin'] *)
Definition isAdmin (s : db) (userId : string) : bool :=
  match User.findById userId (Users s) with
  | Some u => bool_decide (User.role u = "admin")
  | None => false
  end.

Definition isSeller (o : Order.t) (userId : string) : bool :=
  bool_decide (Order.seller o = userId).

Definition isBuyer (o : Order.t) (userId : string) : bool :=
  bool_decide (Order.buyer o = userId).

(** [if (notes) order.notes = notes] *)
Definition assignNotes (notes : option Js.jsstring) (o : Order.t)
    : option Js.jsstring :=
  match notes with
  | Some n => if bool_decide (n = []) then Order.notes o else Some n
  | None => Order.notes o
  end.

(** The assignments of [updateOrderStatus] on the loaded document and
    what [save()] writes: the status as assigned, the field being
    removed when [undefined] was assigned; [updatedAt] moves when a
    path changed. *)
Definition setStatus (status : option string) (notes : option Js.jsstring)
    (now stamp : Z) (o : Order.t) : Order.t :=
  let status' := status in
  let notes' := assignNotes notes o in
  let delivery' := if bool_decide (status = Some "delivered") then Some now
                   else Order.deliveryDate o in
  let modified := bool_decide (status' ≠ Order.status o)
                  || bool_decide (notes' ≠ Order.notes o)
                  || bool_decide (delivery' ≠ Order.deliveryDate o) in
  Order.mk (Order._id o) (Order.order_id o) (Order.buyer o) (Order.seller o)
    (Order.items o) (Order.totalAmount o) (Order.totalCurrency o)
    status' (Order.paymentStatus o) (Order.paymentMethod o)
    (Order.deliveryMethod o) notes'
    (Order.cancellationReason o) (Order.refundAmount o) delivery'
    (Order.createdAt o) (if modified then stamp else Order.updatedAt o).

(** [order.save()] after [updateOrderStatus]: the enum validator runs
    on [status] when the assignment changed the loaded value and the
    new value is not [undefined]; [false] is the thrown
    ValidationError. *)
Definition statusAccepted (status : option string) (o : Order.t) : bool :=
  match status with
  | Some st =>
      bool_decide (st = Order.statusOf o) || bool_decide (st ∈ Order.statuses)
  | None => true
  end.

Definition updateOrderStatus (e : env) (s : db) (os : list Order.t)
    (userId orderId : string) (status : option string)
    (notes : option Js.jsstring) : response Order.t * list Order.t :=
  match Order.findById orderId os with
  | None => (fail 404 "Order not found", os)
  | Some o =>
      if negb (isSeller o userId) && negb (isAdmin s userId) then
        (fail 403 "Only seller or admin can update order status", os)
      else if negb (statusAccepted status o) then
        (fail 500 "Server error while updating order status", os)
      else
        let stamp := if bool_decide (status = Some "delivered")
                     then date e 1 else date e 0 in
        let o' := setStatus status notes (date e 0) stamp o in
        (ok 200 (Some "Order status updated successfully") o',
         Mongo.updateOne (Order.hasId orderId) (λ _, o') os)
  end.

Definition cancel (reason : option Js.jsstring) (stamp : Z) (o : Order.t)
    : Order.t :=
  Order.mk (Order._id o) (Order.order_id o) (Order.buyer o) (Order.seller o)
    (Order.items o) (Order.totalAmount o) (Order.totalCurrency o)
    (Some "cancelled") (Order.paymentStatus o) (Order.paymentMethod o)
    (Order.deliveryMethod o) (Order.notes o) reason (Order.refundAmount o)
    (Order.deliveryDate o) (Order.createdAt o) stamp.

Definition cancelOrder (e : env) (os : list Order.t)
    (userId orderId : string) (reason : option Js.jsstring)
    : response Order.t * list Order.t :=
  match Order.findById orderId os with
  | None => (fail 404 "Order not found", os)
  | Some o =>
      if negb (isBuyer o userId) && negb (isSeller o userId) then
        (fail 403 "Access denied", os)
      else if negb (bool_decide (Order.statusOf o ∈ ["pending"; "confirmed"])) then
        (fail 400 "Order cannot be cancelled at this stage", os)
      else
        let o' := cancel reason (date e 0) o in
        (ok 200 (Some "Order cancelled successfully") o',
         Mongo.updateOne (Order.hasId orderId) (λ _, o') os)
  end.

(** [amount || order.totalAmount.amount]: an absent or zero amount
    falls back to the order's total. *)
Definition refundOf (amount : option Qc) (o : Order.t) : Qc :=
  match amount with
  | Some a => if bool_decide (a = Qc_of_Z 0) then Order.totalAmount o else a
  | None => Order.totalAmount o
  end.

Definition refunded (amount : option Qc) (reason : option Js.jsstring)
    (now stamp : Z) (o : Order.t) : Order.t :=
  Order.mk (Order._id o) (Order.order_id o) (Order.buyer o) (Order.seller o)
    (Order.items o) (Order.totalAmount o) (Order.totalCurrency o)
    (Some "refunded") "refunded" (Order.paymentMethod o)
    (Order.deliveryMethod o) (Order.notes o) (Order.cancellationReason o)
    (Some (Order.mkRefund (refundOf amount o) (Order.totalCurrency o)
             reason now))
    (Order.deliveryDate o) (Order.createdAt o) stamp.

Definition processRefund (e : env) (s : db) (os : list Order.t)
    (userId orderId : string) (amount : option Qc)
    (reason : option Js.jsstring) : response Order.t * list Order.t :=
  match Order.findById orderId os with
  | None => (fail 404 "Order not found", os)
  | Some o =>
      if negb (isSeller o userId) && negb (isAdmin s userId) then
        (fail 403 "Only seller or admin can process refunds", os)
      else
        let o' := refunded amount reason (date e 0) (date e 1) o in
        (ok 200 (Some "Refund processed successfully") o',
         Mongo.updateOne (Order.hasId orderId) (λ _, o') os)
  end.

(** The filter of [getUserOrders]: [$or: [{ buyer }, { seller }]], and
    [status] when the parameter is a non-empty string. *)
Definition ordersQuery (userId : string) (status : option string)
    (o : Order.t) : bool :=
  (bool_decide (Order.buyer o = userId) || bool_decide (Order.seller o = userId))
  && match status with
     | Some st =>
         bool_decide (st = "") || bool_decide (Order.status o = Some st)
     | None => true
     end.

Record orderPage := mkOrderPage {
  orders : list orderView;
  current : Z;
  total : option Z;
  count : Z;
  totalOrders : Z
}.

Definition getUserOrders (s : db) (os : list Order.t) (userId : string)
    (page limit : option Z) (status : option string)
    : response orderPage * list Order.t :=
  let page := param page 1 in
  let limit := param limit 10 in
  let skip := (page - 1) * limit in
  match Mongo.find (ordersQuery userId status) Order.newestFirst skip limit os with
  | None => (fail 500 "Server error while fetching orders", os)
  | Some found =>
      let orders := populate s <$> found in
      let total := Mongo.countDocuments (ordersQuery userId status) os in
      (ok 200 None
         (mkOrderPage orders page (Js.ceilDiv total limit)
            (Z.of_nat (length orders)) total),
       os)
  end.

End OrderController.

(** ** Vocabulary of the statements *)

(** Messages in non-decreasing, resp. increasing, timestamp order. *)
Definition ascending (l : list Discussion.message) : Prop :=
  StronglySorted (λ a b, Discussion.timestamp a ≤ Discussion.timestamp b) l.

Definition strictlyAscending (l : list Discussion.message) : Prop :=
  StronglySorted (λ a b, Discussion.timestamp a < Discussion.timestamp b) l.

(** The messages a [getDiscussion] response carries. *)
Definition returnedMessages (r : response DiscussionController.view)
    : list Discussion.message :=
  from_option (λ v, Discussion.messages (DiscussionController.discussion v))
              [] (data r).

(** The messages stored in the discussion of a trip. *)
Definition storedMessages (tripId : string) (s : db) : list Discussion.message :=
  from_option Discussion.messages [] (Discussion.findOne tripId (Discussions s)).

(** Chat messages from oldest to newest. *)
Definition chronological (l : list Message.t) : Prop :=
  StronglySorted (λ a b, Message.createdAt a ≤ Message.createdAt b) l.

(** The messages a [getChatMessages] response carries. *)
Definition returnedPage (r : response ChatController.messagePage)
    : list Message.t :=
  from_option ChatController.messages [] (data r).

(** Two messages agree on identity, routing, sender, content and type. *)
Definition sameEnvelope (m m' : Message.t) : Prop :=
  Message._id m' = Message._id m
  ∧ Message.message_id m' = Message.message_id m
  ∧ Message.chat m' = Message.chat m
  ∧ Message.trip m' = Message.trip m
  ∧ Message.sender m' = Message.sender m
  ∧ Message.content m' = Message.content m
  ∧ Message.messageType m' = Message.messageType m
  ∧ Message.createdAt m' = Message.createdAt m.

Definition sameAnswer (m m' : Message.t) : Prop :=
  Message.answer m' = Message.answer m
  ∧ Message.answeredBy m' = Message.answeredBy m
  ∧ Message.answeredAt m' = Message.answeredAt m
  ∧ Message.isAnswered m' = Message.isAnswered m.

Definition sameDeletion (m m' : Message.t) : Prop :=
  Message.isDeleted m' = Message.isDeleted m
  ∧ Message.deletedAt m' = Message.deletedAt m.

Definition sameReaders (m m' : Message.t) : Prop :=
  Message.readBy m' = Message.readBy m.

(** The ratings a [getRatings] response lists. *)
Definition listedRatings (r : response RatingController.listing)
    : list Rating.t :=
  from_option RatingController.ratings [] (data r).

(** What the store's indexes guarantee about the ratings of one
    (reviewer, targetType, targetId) key: document ids are distinct and
    at most one rating carries the key. *)
Definition ratingsIndexed (who ty target : string) (l : list Rating.t) : Prop :=
  NoDup (Rating._id <$> l)
  ∧ (length (List.filter (Rating.hasKey who ty target) l) ≤ 1)%nat.

(** ** Sample stores *)

Module Sample.

Definition clock (t : Z) : nat → Z := λ _, t.

Definition alice := User.mk "alice" "Alice" "alice@bay.test" true "user" (Qc_of_Z 0) 0.
Definition bob := User.mk "bob" "Bob" "bob@bay.test" false "user" (Qc_of_Z 0) 0.
Definition carol := User.mk "carol" "Carol" "carol@bay.test" false "guide" (Qc_of_Z 0) 0.

(** A trip organised by alice with bob confirmed, discussions on. *)
Definition openTrip : Trip.t :=
  Trip.mk "t1" "Bay walk" "alice" [Trip.mkParticipant "bob" "confirmed"]
    (Trip.mkFeatures true true 0).

(** The same trip with discussions switched off. *)
Definition mutedTrip : Trip.t :=
  Trip.mk "t2" "Quiet bay" "alice" [Trip.mkParticipant "bob" "confirmed"]
    (Trip.mkFeatures false true 0).

Definition store : db :=
  mkDb [alice; bob; carol] [openTrip; mutedTrip] [] [] [] [].

Definition letters (n : nat) : Js.jsstring := replicate n 97%N.

(** The store after alice and bob each sent a message to trip t1
    within the same millisecond. *)
Definition sameInstant : db :=
  (DiscussionController.sendMessage (mkEnv "m2" "o2" (clock 7))
     (DiscussionController.sendMessage (mkEnv "m1" "o1" (clock 7)) store
        "alice" "t1" (Some (Js.of_string "first")) None).2
     "bob" "t1" (Some (Js.of_string "second")) None).2.

(** The store after alice opened a direct chat with bob (document
    "chat1") and three messages were exchanged: a text by alice, a
    question by bob, a text by alice. *)
Definition chatting : db :=
  let s1 := (ChatController.createDirectChat (mkEnv "c1" "chat1" (clock 1))
               store "alice" (Some "bob")).2 in
  let s2 := (ChatController.sendMessage (mkEnv "u1" "msg1" (clock 10)) s1
               "alice" "chat1" (Some (Js.of_string "hello bob")) None).2 in
  let s3 := (ChatController.sendMessage (mkEnv "u2" "msg2" (clock 20)) s2
               "bob" "chat1" (Some (Js.of_string "where do we meet?"))
               (Some "question")).2 in
  (ChatController.sendMessage (mkEnv "u3" "msg3" (clock 30)) s3
     "alice" "chat1" (Some (Js.of_string "at the pier")) None).2.

(** The store after alice rated the guide carol with 4 (document
    "r1"), and after that rating was reported [n] times. *)
Definition rated : db :=
  (RatingController.createRating (mkEnv "k1" "r1" (clock 50)) store "alice"
     "guide" "carol" (Some (Qc_of_Z 4)) (Some (Js.of_string "great walk"))).2.

Definition reported (n : nat) : db :=
  Nat.iter n
    (λ s, (RatingController.reportRating (mkEnv "x" "y" (clock 60)) s "r1").2)
    rated.

End Sample.

(** ** Further vocabulary *)

(** Content that the emptiness guard of [sendMessage] refuses: absent,
    or made of white space only. *)
Definition blank (c : option Js.jsstring) : Prop :=
  match c with
  | None => True
  | Some c0 => Forall (λ x, Js.isWhiteSpace x = true) c0
  end.

(** A string with no white space at either end. *)
Definition trimmed (c : Js.jsstring) : Prop :=
  (∀ x, head c = Some x → Js.isWhiteSpace x = false)
  ∧ (∀ x, last c = Some x → Js.isWhiteSpace x = false).

(** The ratings a [getUserRatings] response lists. *)
Definition listedUserRatings (r : response RatingController.userListing)
    : list Rating.t :=
  from_option RatingController.userRatings [] (data r).

(** The orders a [getUserOrders] response lists. *)
Definition listedOrders (r : response OrderController.orderPage)
    : list Order.t :=
  OrderController.order <$> from_option OrderController.orders [] (data r).

(** A rating that satisfies the validators of [ratingSchema]. *)
Definition validRating (r : Rating.t) : Prop :=
  Rating.validScore (Some (Rating.rating r)) = true
  ∧ Rating.validReview (Rating.review r) = true.

(** Two orders agree on identity, parties, line items, total and the
    payment and delivery methods. *)
Definition sameDeal (o o' : Order.t) : Prop :=
  Order._id o' = Order._id o
  ∧ Order.order_id o' = Order.order_id o
  ∧ Order.buyer o' = Order.buyer o
  ∧ Order.seller o' = Order.seller o
  ∧ Order.items o' = Order.items o
  ∧ Order.totalAmount o' = Order.totalAmount o
  ∧ Order.totalCurrency o' = Order.totalCurrency o
  ∧ Order.paymentMethod o' = Order.paymentMethod o
  ∧ Order.deliveryMethod o' = Order.deliveryMethod o
  ∧ Order.createdAt o' = Order.createdAt o.


(** ** Sample questions and orders *)

Module Scenario.

(** A question asked about trip t1, stored with its trip. *)
Definition question : Message.t :=
  Message.mk "q1" "uq1" None (Some "t1") "bob"
    (Js.of_string "what should I pack?") "question" ∅ false None None None
    None false 15.

Definition asked : db := withMessages [question] Sample.store.

Definition dave := User.mk "dave" "Dave" "dave@bay.test" true "admin" (Qc_of_Z 0) 0.

Definition staffed : db := withUsers (Users Sample.store ++ [dave]) Sample.store.

(** Bob rents a tent from carol: a pending, unpaid order. *)
Definition tent : Order.t :=
  Order.mk "o1" "ord-1" "bob" "carol"
    [Order.mkItem "g1" (Qc_of_Z 2) (Qc_of_Z 15) "USD"]
    (Qc_of_Z 30) "USD" (Some "pending") "pending" "cash" "pickup"
    None None None None 5 5.

(** An order whose buyer's account is gone. *)
Definition orphan : Order.t :=
  Order.mk "o2" "ord-2" "zoe" "carol" [] (Qc_of_Z 10) "USD" (Some "shipped")
    "paid" "paypal" "shipping" None None None None 6 6.

Definition book : list Order.t := [tent; orphan].

End Scenario.

(** * Properties *)

(** ** Lists as collections *)

Section Collection.
Context {A : Type}.
Implicit Types (q : A → bool) (u : A → A) (l : list A).

Lemma find_updateOne q u l :
  (∀ d, q d = true → q (u d) = true) →
  List.find q (Mongo.updateOne q u l) = u <$> List.find q l.
Proof.
  intros Hq. induction l as [|d l IH]; simpl; [done|].
  destruct (q d) eqn:E; simpl.
  - by rewrite (Hq d E).
  - by rewrite E.
Qed.

Lemma find_snoc q l d :
  List.find q l = None → q d = true → List.find q (l ++ [d]) = Some d.
Proof.
  intros Hn Hd. induction l as [|x l IH]; simpl in *.
  - by rewrite Hd.
  - destruct (q x); [done|auto].
Qed.

Lemma find_filter_nil q l : List.find q l = None → List.filter q l = [].
Proof.
  induction l as [|x l IH]; simpl; [done|].
  destruct (q x); [done|auto].
Qed.

Lemma updateOne_insert q u l m :
  List.find q l = Some m →
  ∃ i, l !! i = Some m ∧ Mongo.updateOne q u l = <[i := u m]> l.
Proof.
  induction l as [|x l IH]; simpl; [done|].
  destruct (q x) eqn:E.
  - intros [= ->]. by exists 0%nat.
  - intros Hf. destruct (IH Hf) as (i & Hi & Hu).
    exists (S i). simpl. by rewrite Hu.
Qed.


Lemma find_Some_elem q l m : List.find q l = Some m → m ∈ l ∧ q m = true.
Proof.
  intros H. apply find_some in H as [H1 H2]. split; [|done].
  by apply list_elem_of_In.
Qed.

End Collection.

(** ** [Array.prototype.slice] and [sort] *)

Lemma slice_window {A} (l : list A) (a n : Z) :
  0 ≤ a → 0 ≤ n →
  Js.slice l a (a + n) = take (Z.to_nat n) (drop (Z.to_nat a) l).
Proof.
  intros Ha Hn. unfold Js.slice, Js.relativeIndex.
  rewrite !bool_decide_eq_false_2 by lia.
  destruct (decide (Z.of_nat (length l) ≤ a)) as [Hle|Hlt].
  - rewrite (drop_ge l (Z.to_nat a)) by lia.
    rewrite Z.min_r by lia.
    by rewrite take_nil, drop_ge, take_nil by lia.
  - rewrite (Z.min_l a) by lia.
    destruct (decide (a + n ≤ Z.of_nat (length l))).
    + rewrite Z.min_l by lia. f_equal. lia.
    + rewrite Z.min_r by lia.
      rewrite !take_ge; [done| |]; rewrite length_drop; lia.
Qed.

(** What a window of a list holds: the elements at its positions. *)
Lemma elem_of_window {A} (l : list A) (k n : nat) x :
  x ∈ take n (drop k l) ↔ ∃ i, l !! i = Some x ∧ (k ≤ i < k + n)%nat.
Proof.
  rewrite list_elem_of_lookup. split.
  - intros [j Hj]. apply lookup_take_Some in Hj as [Hj Hlt].
    rewrite lookup_drop in Hj. exists (k + j)%nat. split; [done|lia].
  - intros (i & Hi & Hk). exists (i - k)%nat.
    apply lookup_take_Some. split; [|lia].
    rewrite lookup_drop. by replace (k + (i - k))%nat with i by lia.
Qed.

Section Sorting.
Context {A : Type} (cmp : A → A → Z) (key : A → Z).
Hypothesis cmp_key : ∀ a b, cmp a b ≤ 0 ↔ key a ≤ key b.

Lemma insertBy_perm x l : Js.insertBy cmp x l ≡ₚ x :: l.
Proof.
  induction l as [|y l IH]; simpl; [done|].
  case_bool_decide; [done|].
  rewrite IH. apply Permutation_swap.
Qed.

Lemma sort_perm l : Js.sort cmp l ≡ₚ l.
Proof.
  induction l as [|x l IH]; simpl; [done|].
  fold (Js.sort cmp l). by rewrite insertBy_perm, IH.
Qed.

Lemma insertBy_sorted x l :
  StronglySorted (λ a b, key a ≤ key b) l → StronglySorted (λ a b, key a ≤ key b) (Js.insertBy cmp x l).
Proof.
  induction 1 as [|y l Hs IH Hy]; simpl.
  - repeat constructor.
  - case_bool_decide as Hc.
    + apply cmp_key in Hc. constructor; [by constructor|].
      constructor; [done|].
      eapply Forall_impl; [exact Hy|].
      simpl. intros; lia.
    + constructor; [done|].
      rewrite insertBy_perm. constructor; [|done].
      rewrite cmp_key in Hc. lia.
Qed.

Lemma sort_sorted l : StronglySorted (λ a b, key a ≤ key b) (Js.sort cmp l).
Proof.
  induction l as [|x l IH]; simpl; [constructor|].
  by apply insertBy_sorted.
Qed.

(** Stability: elements with the same key keep their order. *)
Lemma insertBy_stable k x l :
  List.filter (λ a, bool_decide (key a = k)) (Js.insertBy cmp x l)
  = List.filter (λ a, bool_decide (key a = k)) (x :: l).
Proof.
  induction l as [|y l IH]; [done|].
  cbn [Js.insertBy]. case_bool_decide as Hc; [done|].
  rewrite cmp_key in Hc.
  cbn [List.filter] in *. rewrite IH.
  repeat case_bool_decide; try done; lia.
Qed.

Lemma sort_stable k l :
  List.filter (λ a, bool_decide (key a = k)) (Js.sort cmp l)
  = List.filter (λ a, bool_decide (key a = k)) l.
Proof.
  induction l as [|x l IH]; [done|].
  cbn [Js.sort foldr]. fold (Js.sort cmp l).
  rewrite insertBy_stable. cbn [List.filter]. by rewrite IH.
Qed.

End Sorting.

(** ** Discussion service *)

Section DiscussionFacts.
Import DiscussionController.

(** What a 201 from [sendMessage] says about the request and the
    store it leaves. *)
Lemma sendMessage_created e s u tid c mt r s1 :
  sendMessage e s u tid c mt = (r, s1) → status r = 201 →
  ∃ c0 t,
    c = Some c0 ∧ Js.trim c0 ≠ [] ∧
    Trip.findById tid (Trips s) = Some t ∧
    Trip.allowDiscussions (Trip.collaborativeFeatures t) = true ∧
    (isOrganizer t u || isParticipant t u) = true ∧
    let m := Discussion.mkMessage (uuid e) u (Js.trim c0)
               (default "text" mt) (date e 0) false in
    data r = Some m ∧
    Trips s1 = Trip.touch tid (date e 2) (Trips s) ∧
    storedMessages tid s1 = storedMessages tid s ++ [m].
Proof.
  unfold sendMessage. destruct c as [c0|]; [|by intros [= <- <-]].
  case_bool_decide as Hlen; [by intros [= <- <-]|].
  destruct (Trip.findById tid (Trips s)) as [t|] eqn:Ht; [|by intros [= <- <-]].
  destruct (Trip.allowDiscussions _) eqn:Hallow; [|by intros [= <- <-]].
  destruct (negb (isOrganizer t u) && negb (isParticipant t u)) eqn:Hacc;
    [by intros [= <- <-]|].
  cbn [negb]. unfold Discussion.findOneAndUpdate.
  cbn [Discussion.runValidators Discussion.new Discussion.upsert andb].
  destruct (Discussion.indexAdmits _ _ _); cbn [negb]; [|by intros [= <- <-]].
  assert (Hne : Js.trim c0 ≠ []) by (by destruct (Js.trim c0)).
  assert (Hok : (isOrganizer t u || isParticipant t u) = true)
    by (destruct (isOrganizer t u), (isParticipant t u); done).
  unfold storedMessages.
  destruct (Discussion.findOne tid (Discussions s)) as [d|] eqn:Hd;
    cbv zeta; cbn [Discussion.pushMessage Discussion.messages];
    rewrite last_snoc; intros [= <- <-] _;
    exists c0, t; repeat (split; [done|]); cbn [Discussions withTrips withDiscussions].
  - unfold Discussion.findOne in *. rewrite find_updateOne, Hd; [done|].
    by intros x Hx.
  - unfold Discussion.findOne in *. erewrite find_snoc; [done|done|].
    by apply bool_decide_eq_true_2.
Qed.

(** Content of any length is accepted once it is non-empty after
    trimming: the only checks are the emptiness guard, the trip and
    access guards and the store's index on message ids. *)
Lemma sendMessage_accepts e s u tid t c mt :
  Js.trim c ≠ [] →
  Trip.findById tid (Trips s) = Some t →
  Trip.allowDiscussions (Trip.collaborativeFeatures t) = true →
  (isOrganizer t u || isParticipant t u) = true →
  Discussion.indexAdmits tid (uuid e) (Discussions s) = true →
  let m := Discussion.mkMessage (uuid e) u (Js.trim c)
             (default "text" mt) (date e 0) false in
  ∃ s1,
    sendMessage e s u tid (Some c) mt
    = (mkResponse 201 true (Some "Message sent successfully") (Some m), s1)
    ∧ storedMessages tid s1 = storedMessages tid s ++ [m].
Proof.
  intros Hc Ht Hallow Hacc Hidx m. unfold sendMessage.
  rewrite bool_decide_eq_false_2 by (by destruct (Js.trim c)).
  rewrite Ht, Hallow. cbn [negb].
  replace (negb (isOrganizer t u) && negb (isParticipant t u)) with false
    by (destruct (isOrganizer t u), (isParticipant t u); done).
  unfold Discussion.findOneAndUpdate. cbv zeta.
  cbn [Discussion.runValidators Discussion.new Discussion.upsert
       Discussion.messageId andb].
  rewrite Hidx. cbn [negb]. unfold storedMessages.
  destruct (Discussion.findOne tid (Discussions s)) as [d|] eqn:Hd;
    cbn [Discussion.pushMessage Discussion.messages];
    rewrite last_snoc; eexists; (split; [reflexivity|]);
    cbn [Discussions withTrips withDiscussions].
  - unfold Discussion.findOne in *. rewrite find_updateOne, Hd; [done|].
    by intros x Hx.
  - unfold Discussion.findOne in *. erewrite find_snoc; [done|done|].
    by apply bool_decide_eq_true_2.
Qed.

Lemma byTimestamp_key a b :
  byTimestamp a b ≤ 0 ↔ Discussion.timestamp a ≤ Discussion.timestamp b.
Proof. unfold byTimestamp. lia. Qed.

(** C1: a 1001-character message is answered 201 and stored in full,
    although the schema caps [content] at 1000 characters; the
    1000-character message is accepted as well. *)
Theorem sendMessage_accepts_overlong :
  let r := sendMessage (mkEnv "m1" "o1" (Sample.clock 5)) Sample.store
             "alice" "t1" (Some (Sample.letters 1001)) None in
  let r' := sendMessage (mkEnv "m1" "o1" (Sample.clock 5)) Sample.store
              "alice" "t1" (Some (Sample.letters 1000)) None in
  status r.1 = 201
  ∧ (length ∘ Discussion.content) <$> storedMessages "t1" r.2 = [1001%nat]
  ∧ Discussion.validMessage <$> storedMessages "t1" r.2 = [false]
  ∧ status r'.1 = 201
  ∧ (length ∘ Discussion.content) <$> storedMessages "t1" r'.2 = [1000%nat].
Proof. vm_compute. done. Qed.

(** C2, as stated, fails: on a trip with discussions off, a request
    without content is answered 400, not 403. *)
Lemma sendMessage_muted_empty_is_400 :
  Trip.allowDiscussions (Trip.collaborativeFeatures Sample.mutedTrip) = false
  ∧ Trip.findById "t2" (Trips Sample.store) = Some Sample.mutedTrip
  ∧ status (sendMessage (mkEnv "m1" "o1" (Sample.clock 5)) Sample.store
              "alice" "t2" (Some (Js.of_string "   ")) None).1 = 400
  ∧ status (sendMessage (mkEnv "m1" "o1" (Sample.clock 5)) Sample.store
              "alice" "t2" (Some (Js.of_string "   ")) None).1 ≠ 403.
Proof. vm_compute. done. Qed.

(** C2, amended: on a trip with discussions off, every request whose
    content is non-empty after trimming is answered 403, whoever sends
    it, and the store is left as it was. *)
Theorem sendMessage_muted_forbidden e s u tid t c mt :
  Trip.findById tid (Trips s) = Some t →
  Trip.allowDiscussions (Trip.collaborativeFeatures t) = false →
  Js.trim c ≠ [] →
  sendMessage e s u tid (Some c) mt
  = (fail 403 "Discussions are disabled for this trip", s).
Proof.
  intros Ht Hoff Hc. unfold sendMessage.
  rewrite bool_decide_eq_false_2 by (by destruct (Js.trim c)).
  by rewrite Ht, Hoff.
Qed.

Lemma sendMessage_muted_forbidden_witness :
  sendMessage (mkEnv "m1" "o1" (Sample.clock 5)) Sample.store "alice" "t2"
    (Some (Js.of_string " hello ")) None
  = (fail 403 "Discussions are disabled for this trip", Sample.store).
Proof.
  apply (sendMessage_muted_forbidden _ _ _ _ Sample.mutedTrip);
    [reflexivity|reflexivity|by vm_compute].
Defined.

End DiscussionFacts.

Section DiscussionRoundTrip.
Import DiscussionController.

(** C3, as stated, fails twice over: two messages sent at the same
    clock reading are both returned, and their timestamps are equal,
    not increasing; and the same [getDiscussion] with page 1 and limit
    1 answers 200 with the first message only, a sequence that does
    not contain the message just sent. *)
Lemma getDiscussion_not_strictly_ascending :
  status (sendMessage (mkEnv "m2" "o2" (Sample.clock 7))
            (sendMessage (mkEnv "m1" "o1" (Sample.clock 7)) Sample.store
               "alice" "t1" (Some (Js.of_string "first")) None).2
            "bob" "t1" (Some (Js.of_string "second")) None).1 = 201
  ∧ Discussion.timestamp
      <$> returnedMessages
            (getDiscussion (mkEnv "m3" "o3" (Sample.clock 9)) Sample.sameInstant
               "alice" "t1" None None).1 = [7; 7]
  ∧ ¬ strictlyAscending
        (returnedMessages
           (getDiscussion (mkEnv "m3" "o3" (Sample.clock 9)) Sample.sameInstant
              "alice" "t1" None None).1)
  ∧ status (getDiscussion (mkEnv "m3" "o3" (Sample.clock 9)) Sample.sameInstant
              "alice" "t1" (Some 1) (Some 1)).1 = 200
  ∧ (∀ m, data (sendMessage (mkEnv "m2" "o2" (Sample.clock 7))
                  (sendMessage (mkEnv "m1" "o1" (Sample.clock 7)) Sample.store
                     "alice" "t1" (Some (Js.of_string "first")) None).2
                  "bob" "t1" (Some (Js.of_string "second")) None).1 = Some m →
          m ∈ storedMessages "t1" Sample.sameInstant
          ∧ m ∉ returnedMessages
                  (getDiscussion (mkEnv "m3" "o3" (Sample.clock 9))
                     Sample.sameInstant "alice" "t1" (Some 1) (Some 1)).1).
Proof.
  split; [by vm_compute|]. split; [by vm_compute|].
  split; [|split; [by vm_compute|]].
  2:{ intros m Hm. vm_compute in Hm. injection Hm as <-. split.
      - apply list_elem_of_In. vm_compute. auto.
      - intros Hin.
        apply (list_elem_of_fmap_2 Discussion.messageId) in Hin.
        vm_compute in Hin. apply list_elem_of_singleton in Hin. done. }
  intros H.
  assert (Hts : StronglySorted Z.lt
            (Discussion.timestamp
               <$> returnedMessages
                     (getDiscussion (mkEnv "m3" "o3" (Sample.clock 9))
                        Sample.sameInstant "alice" "t1" None None).1)).
  { unfold strictlyAscending in H. revert H.
    generalize (returnedMessages
                  (getDiscussion (mkEnv "m3" "o3" (Sample.clock 9))
                     Sample.sameInstant "alice" "t1" None None).1).
    induction 1 as [|x l Hs IH Hx]; simpl; constructor; [done|].
    apply Forall_fmap. eapply Forall_impl; [exact Hx|]. by intros. }
  assert (E : Discussion.timestamp
            <$> returnedMessages
                  (getDiscussion (mkEnv "m3" "o3" (Sample.clock 9))
                     Sample.sameInstant "alice" "t1" None None).1 = [7; 7])
    by (by vm_compute).
  rewrite E in Hts. inversion Hts as [|? ? _ Hall]; subst.
  inversion Hall; subst. lia.
Qed.

(** C3, amended: after a successful [sendMessage], [getDiscussion] by
    an authorised requester answers 200 with the window
    [(page-1)*limit, +limit] of the stored messages sorted by
    timestamp; that sorted sequence contains the new message, is in
    non-decreasing timestamp order, and keeps messages of equal
    timestamp in their stored order.  The response contains the new
    message exactly when the window covers a position of it in the
    sorted sequence; it does so on page 1 whenever the limit is at
    least the number of stored messages, and the response is then the
    whole sorted sequence. *)
Theorem getDiscussion_after_sendMessage
    e s u tid c mt r s1 e' v t (page limit : Z) :
  sendMessage e s u tid c mt = (r, s1) → status r = 201 →
  Trip.findById tid (Trips s1) = Some t →
  (isOrganizer t v || isParticipant t v) = true →
  1 ≤ page → 0 ≤ limit →
  ∃ m r',
    data r = Some m
    ∧ getDiscussion e' s1 v tid (Some page) (Some limit) = (r', s1)
    ∧ status r' = 200
    ∧ let sorted := Js.sort byTimestamp (storedMessages tid s1) in
      m ∈ sorted
      ∧ sorted ≡ₚ storedMessages tid s1
      ∧ ascending sorted
      ∧ (∀ k, List.filter (λ x, bool_decide (Discussion.timestamp x = k)) sorted
             = List.filter (λ x, bool_decide (Discussion.timestamp x = k))
                 (storedMessages tid s1))
      ∧ returnedMessages r'
        = take (Z.to_nat limit) (drop (Z.to_nat ((page - 1) * limit)) sorted)
      ∧ (m ∈ returnedMessages r'
         ↔ ∃ i : nat, sorted !! i = Some m
                      ∧ (page - 1) * limit ≤ Z.of_nat i < page * limit)
      ∧ (page = 1 → Z.of_nat (length (storedMessages tid s1)) ≤ limit →
         returnedMessages r' = sorted ∧ m ∈ returnedMessages r').
Proof.
  intros Hsend H201 Ht Hacc Hpage Hlimit.
  destruct (sendMessage_created _ _ _ _ _ _ _ _ Hsend H201)
    as (c0 & t0 & -> & Hc0 & _ & _ & _ & Hdata & _ & Hstored).
  set (m := Discussion.mkMessage _ _ _ _ _ _) in *.
  assert (Hd : ∃ d, Discussion.findOne tid (Discussions s1) = Some d).
  { apply (f_equal length) in Hstored. rewrite length_app in Hstored.
    unfold storedMessages at 1 in Hstored.
    destruct (Discussion.findOne tid (Discussions s1)) as [d|]; [by eexists|].
    simpl in Hstored. lia. }
  destruct Hd as [d Hd].
  assert (Hsm : storedMessages tid s1 = Discussion.messages d)
    by (unfold storedMessages; by rewrite Hd).
  exists m. eexists. split; [done|]. split.
  { unfold getDiscussion. rewrite Ht.
    replace (negb (isOrganizer t v) && negb (isParticipant t v)) with false
      by (destruct (isOrganizer t v), (isParticipant t v); done).
    rewrite Hd. reflexivity. }
  split; [done|]. cbn zeta. rewrite Hsm.
  assert (Hoff : 0 ≤ (page - 1) * limit) by (apply Z.mul_nonneg_nonneg; lia).
  assert (Hin : m ∈ Js.sort byTimestamp (Discussion.messages d)).
  { rewrite (sort_perm byTimestamp), <- Hsm, Hstored.
    apply elem_of_app. right. by apply list_elem_of_singleton. }
  split; [exact Hin|].
  split; [apply sort_perm|].
  split; [apply (sort_sorted byTimestamp Discussion.timestamp byTimestamp_key)|].
  split; [intros k; apply (sort_stable byTimestamp Discussion.timestamp byTimestamp_key)|].
  unfold returnedMessages, param. cbn [data ok from_option default
    DiscussionController.discussion Discussion.messages].
  rewrite (slice_window _ _ _ Hoff Hlimit).
  split; [done|]. split.
  - rewrite elem_of_window. split.
    + intros (i & Hi & Hk). exists i. split; [done|]. nia.
    + intros (i & Hi & Hk). exists i. split; [done|]. nia.
  - intros -> Hcover.
    replace ((1 - 1) * limit) with 0 by lia.
    change (Z.to_nat 0) with 0%nat. rewrite drop_0.
    pose proof (Permutation_length
                  (sort_perm byTimestamp (Discussion.messages d))) as Hlen.
    rewrite take_ge by lia. done.
Qed.

Lemma getDiscussion_after_sendMessage_witness :
  ∃ m r',
    data (sendMessage (mkEnv "m2" "o2" (Sample.clock 7))
            (sendMessage (mkEnv "m1" "o1" (Sample.clock 7)) Sample.store
               "alice" "t1" (Some (Js.of_string "first")) None).2
            "bob" "t1" (Some (Js.of_string "second")) None).1 = Some m
    ∧ getDiscussion (mkEnv "m3" "o3" (Sample.clock 9)) Sample.sameInstant
        "alice" "t1" (Some 1) (Some 2) = (r', Sample.sameInstant)
    ∧ status r' = 200
    ∧ ascending (returnedMessages r')
    ∧ m ∈ returnedMessages r'.
Proof.
  destruct (getDiscussion_after_sendMessage
           (mkEnv "m2" "o2" (Sample.clock 7))
           (sendMessage (mkEnv "m1" "o1" (Sample.clock 7)) Sample.store
              "alice" "t1" (Some (Js.of_string "first")) None).2
           "bob" "t1" (Some (Js.of_string "second")) None
           (sendMessage (mkEnv "m2" "o2" (Sample.clock 7))
              (sendMessage (mkEnv "m1" "o1" (Sample.clock 7)) Sample.store
                 "alice" "t1" (Some (Js.of_string "first")) None).2
              "bob" "t1" (Some (Js.of_string "second")) None).1
           Sample.sameInstant
           (mkEnv "m3" "o3" (Sample.clock 9)) "alice"
           (Trip.setLastActivity 7 Sample.openTrip) 1 2)
    as (m & r' & Hm & Hget & Hok & _ & _ & Hasc & _ & _ & _ & Hcover);
    [by apply surjective_pairing | by vm_compute | by vm_compute
    | by vm_compute | lia | lia |].
  destruct (Hcover eq_refl ltac:(by vm_compute)) as [Hall Hin].
  exists m, r'. split; [exact Hm|]. split; [exact Hget|].
  split; [exact Hok|]. split; [by rewrite Hall|exact Hin].
Defined.

End DiscussionRoundTrip.

(** ** Chat service *)

Section ChatFacts.
Import ChatController.

Lemma find_ext {A} (f g : A → bool) l :
  (∀ x, f x = g x) → List.find f l = List.find g l.
Proof.
  intros E. induction l as [|x l IH]; simpl; [done|].
  by rewrite E, IH.
Qed.

Lemma directBetween_sym a b c :
  Chat.directBetween a b c = Chat.directBetween b a c.
Proof.
  unfold Chat.directBetween. simpl.
  destruct (bool_decide _), (Chat.isParticipant a c), (Chat.isParticipant b c); done.
Qed.

Lemma directBetween_new a b oid cid :
  Chat.directBetween a b
    (Chat.mk oid cid "direct"
       [Chat.mkMember a "member"; Chat.mkMember b "member"] None None) = true.
Proof.
  unfold Chat.directBetween, Chat.isParticipant. simpl.
  rewrite !(bool_decide_eq_true_2 (a = a)), !(bool_decide_eq_true_2 (b = b)) by done.
  by rewrite !orb_true_r.
Qed.

(** C4: creating the direct chat of [a] and [b] and then of [b] and
    [a] answers both times with the same chat record; the second call
    creates nothing; if a direct chat of the pair existed, the first
    call returns it and creates nothing, otherwise it creates the one
    direct chat of the pair that the store then holds. *)
Theorem createDirectChat_idempotent_symmetric e1 e2 s a b r1 s1 r2 s2 :
  a ≠ "" → b ≠ "" →
  is_Some (User.findById a (Users s)) →
  is_Some (User.findById b (Users s)) →
  createDirectChat e1 s a (Some b) = (r1, s1) →
  createDirectChat e2 s1 b (Some a) = (r2, s2) →
  ∃ c,
    data r1 = Some (populate s c)
    ∧ data r2 = data r1
    ∧ status r2 = 200
    ∧ s2 = s1
    ∧ c ∈ Chats s2
    ∧ Chat.directBetween a b c = true
    ∧ ((List.find (Chat.directBetween a b) (Chats s) = Some c
        ∧ status r1 = 200 ∧ s1 = s)
       ∨ (List.find (Chat.directBetween a b) (Chats s) = None
          ∧ status r1 = 201
          ∧ Chats s1 = Chats s ++ [c]
          ∧ List.filter (Chat.directBetween a b) (Chats s1) = [c])).
Proof.
  intros Ha Hb [ua Hua] [ub Hub] H1 H2.
  unfold createDirectChat in H1.
  rewrite bool_decide_eq_false_2, Hub in H1 by done.
  destruct (List.find (Chat.directBetween a b) (Chats s)) as [c|] eqn:Hf.
  - injection H1 as <- <-.
    unfold createDirectChat in H2.
    rewrite bool_decide_eq_false_2, Hua in H2 by done.
    rewrite (find_ext _ (Chat.directBetween a b)), Hf in H2
      by (intros; apply directBetween_sym).
    injection H2 as <- <-.
    destruct (find_Some_elem _ _ _ Hf) as [Hin Hq].
    exists c. repeat (split; [done|]). by left.
  - injection H1 as <- <-.
    set (c := Chat.mk _ _ _ _ _ _) in *.
    assert (Hc : Chat.directBetween a b c = true) by apply directBetween_new.
    unfold createDirectChat in H2.
    rewrite bool_decide_eq_false_2 in H2 by done.
    cbn [Users Chats withChats] in H2. rewrite Hua in H2.
    rewrite (find_ext _ (Chat.directBetween a b)) in H2
      by (intros; apply directBetween_sym).
    rewrite (find_snoc _ _ c Hf Hc) in H2.
    injection H2 as <- <-.
    exists c. cbn [data ok status Chats withChats].
    repeat (split; [done|]).
    split; [apply elem_of_app; right; by apply list_elem_of_singleton|].
    split; [done|]. right. repeat (split; [done|]).
    rewrite List.filter_app, (find_filter_nil _ _ Hf). simpl. by rewrite Hc.
Qed.

Lemma createDirectChat_idempotent_symmetric_witness :
  ∃ c,
    data (createDirectChat (mkEnv "c1" "o1" (Sample.clock 1)) Sample.store
            "alice" (Some "bob")).1 = Some (populate Sample.store c)
    ∧ data (createDirectChat (mkEnv "c2" "o2" (Sample.clock 2))
              (createDirectChat (mkEnv "c1" "o1" (Sample.clock 1)) Sample.store
                 "alice" (Some "bob")).2 "bob" (Some "alice")).1
      = data (createDirectChat (mkEnv "c1" "o1" (Sample.clock 1)) Sample.store
                "alice" (Some "bob")).1
    ∧ status (createDirectChat (mkEnv "c2" "o2" (Sample.clock 2))
                (createDirectChat (mkEnv "c1" "o1" (Sample.clock 1)) Sample.store
                   "alice" (Some "bob")).2 "bob" (Some "alice")).1 = 200
    ∧ (createDirectChat (mkEnv "c2" "o2" (Sample.clock 2))
         (createDirectChat (mkEnv "c1" "o1" (Sample.clock 1)) Sample.store
            "alice" (Some "bob")).2 "bob" (Some "alice")).2
      = (createDirectChat (mkEnv "c1" "o1" (Sample.clock 1)) Sample.store
           "alice" (Some "bob")).2
    ∧ c ∈ Chats (createDirectChat (mkEnv "c2" "o2" (Sample.clock 2))
                   (createDirectChat (mkEnv "c1" "o1" (Sample.clock 1)) Sample.store
                      "alice" (Some "bob")).2 "bob" (Some "alice")).2
    ∧ Chat.directBetween "alice" "bob" c = true
    ∧ ((List.find (Chat.directBetween "alice" "bob") (Chats Sample.store) = Some c
        ∧ status (createDirectChat (mkEnv "c1" "o1" (Sample.clock 1)) Sample.store
                    "alice" (Some "bob")).1 = 200
        ∧ (createDirectChat (mkEnv "c1" "o1" (Sample.clock 1)) Sample.store
             "alice" (Some "bob")).2 = Sample.store)
       ∨ (List.find (Chat.directBetween "alice" "bob") (Chats Sample.store) = None
          ∧ status (createDirectChat (mkEnv "c1" "o1" (Sample.clock 1)) Sample.store
                      "alice" (Some "bob")).1 = 201
          ∧ Chats (createDirectChat (mkEnv "c1" "o1" (Sample.clock 1)) Sample.store
                     "alice" (Some "bob")).2 = Chats Sample.store ++ [c]
          ∧ List.filter (Chat.directBetween "alice" "bob")
              (Chats (createDirectChat (mkEnv "c1" "o1" (Sample.clock 1)) Sample.store
                        "alice" (Some "bob")).2) = [c])).
Proof.
  apply (createDirectChat_idempotent_symmetric
           (mkEnv "c1" "o1" (Sample.clock 1)) (mkEnv "c2" "o2" (Sample.clock 2))
           Sample.store "alice" "bob");
    [done | done | eexists; reflexivity | eexists; reflexivity
    | by apply surjective_pairing | by apply surjective_pairing].
Defined.

End ChatFacts.

Section SortedFacts.
Context {A : Type}.

Lemma StronglySorted_mono (R R' : relation A) l :
  (∀ a b, R a b → R' a b) → StronglySorted R l → StronglySorted R' l.
Proof.
  intros HR. induction 1 as [|x l Hs IH Hx]; constructor; [done|].
  eapply Forall_impl; [exact Hx|]. auto.
Qed.

Lemma StronglySorted_window (R : relation A) l k n :
  StronglySorted R l → StronglySorted R (take n (drop k l)).
Proof.
  intros Hs. rewrite <- (take_drop k l) in Hs.
  apply StronglySorted_app_1_r in Hs.
  rewrite <- (take_drop n (drop k l)) in Hs.
  by apply StronglySorted_app_1_l in Hs.
Qed.

Lemma StronglySorted_reverse (R : relation A) l :
  StronglySorted R l → StronglySorted (flip R) (reverse l).
Proof.
  induction 1 as [|x l Hs IH Hx]; [constructor|].
  rewrite reverse_cons. apply StronglySorted_app_2.
  - intros a b Ha Hb. apply list_elem_of_singleton in Hb as ->.
    rewrite elem_of_reverse in Ha. unfold flip.
    by apply (proj1 (list.Forall_forall _ _) Hx).
  - done.
  - repeat constructor.
Qed.

End SortedFacts.

Section ChatMessages.
Import ChatController.

Lemma newestFirst_key a b :
  Message.newestFirst a b ≤ 0 ↔ - Message.createdAt a ≤ - Message.createdAt b.
Proof. unfold Message.newestFirst. lia. Qed.

Lemma newestFirst_sorted l :
  StronglySorted (λ a b, Message.createdAt b ≤ Message.createdAt a)
    (Js.sort Message.newestFirst l).
Proof.
  eapply StronglySorted_mono;
    [|apply (sort_sorted _ (λ m, - Message.createdAt m) newestFirst_key)].
  simpl. intros. lia.
Qed.

(** C8: a requester who is not a participant of the chat is answered
    403; a participant is answered 200 with the reverse of the window
    [(page-1)*limit, +limit] of the chat's messages sorted newest
    first, which is in chronological order, and on page 1 no message
    left out is newer than a returned one. *)
Theorem getChatMessages_page s u cid c :
  Chat.findById cid (Chats s) = Some c →
  (Chat.isParticipant u c = false →
   ∀ page limit,
     getChatMessages s u cid page limit = (fail 403 "Access denied", s))
  ∧ (Chat.isParticipant u c = true →
     ∀ page limit : Z, 1 ≤ page → 1 ≤ limit →
     let newest :=
       Js.sort Message.newestFirst (List.filter (inChat cid) (Messages s)) in
     ∃ r,
       getChatMessages s u cid (Some page) (Some limit) = (r, s)
       ∧ status r = 200
       ∧ newest ≡ₚ List.filter (inChat cid) (Messages s)
       ∧ StronglySorted (λ a b, Message.createdAt b ≤ Message.createdAt a) newest
       ∧ returnedPage r
         = reverse (take (Z.to_nat limit)
                      (drop (Z.to_nat ((page - 1) * limit)) newest))
       ∧ chronological (returnedPage r)
       ∧ (page = 1 →
          ∀ x y, x ∈ returnedPage r → y ∈ drop (Z.to_nat limit) newest →
                 Message.createdAt y ≤ Message.createdAt x)).
Proof.
  intros Hc. split.
  - intros Hn page limit. unfold getChatMessages. by rewrite Hc, Hn.
  - intros Hp page limit Hpage Hlimit newest.
    assert (Hskip : 0 ≤ (page - 1) * limit) by (apply Z.mul_nonneg_nonneg; lia).
    eexists. split.
    { unfold getChatMessages, param, Mongo.find, Mongo.skip, Mongo.limit.
      cbv zeta. cbn [default]. unfold id. rewrite Hc, Hp. cbn [negb].
      rewrite (bool_decide_eq_false_2 (_ < 0)) by lia.
      cbn [fmap option_fmap option_map].
      rewrite (bool_decide_eq_false_2 (limit = 0)) by lia.
      rewrite Z.abs_eq by lia. reflexivity. }
    cbn [status ok returnedPage data from_option ChatController.messages].
    fold newest.
    pose proof (newestFirst_sorted (List.filter (inChat cid) (Messages s)))
      as Hsorted. fold newest in Hsorted.
    split; [done|].
    split; [apply (sort_perm Message.newestFirst)|].
    split; [done|]. split; [done|]. split.
    + unfold chronological.
      apply (StronglySorted_window _ _ (Z.to_nat ((page - 1) * limit))
               (Z.to_nat limit)) in Hsorted.
      apply StronglySorted_reverse in Hsorted.
      eapply StronglySorted_mono; [|exact Hsorted]. by intros.
    + intros -> x y Hx Hy. rewrite elem_of_reverse in Hx.
      change (Z.to_nat ((1 - 1) * limit)) with 0%nat in Hx. rewrite drop_0 in Hx.
      rewrite <- (take_drop (Z.to_nat limit) newest) in Hsorted.
      apply (StronglySorted_app_1_elem_of _ _ _ x y Hsorted); done.
Qed.

End ChatMessages.

Section ChatWitnesses.
Import ChatController.

Lemma getChatMessages_page_witness :
  ∃ c, Chat.findById "chat1" (Chats Sample.chatting) = Some c
    ∧ (Chat.isParticipant "carol" c = false →
       ∀ page limit,
         getChatMessages Sample.chatting "carol" "chat1" page limit
         = (fail 403 "Access denied", Sample.chatting))
    ∧ Message._id
        <$> returnedPage (getChatMessages Sample.chatting "alice" "chat1"
                            (Some 1) (Some 2)).1 = ["msg2"; "msg3"]
    ∧ chronological
        (returnedPage (getChatMessages Sample.chatting "alice" "chat1"
                         (Some 1) (Some 2)).1).
Proof.
  eexists. split; [reflexivity|].
  destruct (getChatMessages_page Sample.chatting "alice" "chat1" _ eq_refl)
    as [_ Hpart].
  destruct (Hpart eq_refl 1 2 ltac:(lia) ltac:(lia))
    as (r & Hr & _ & _ & _ & _ & Hchron & _).
  split; [exact (proj1 (getChatMessages_page Sample.chatting "carol" "chat1" _ eq_refl))|].
  split; [by vm_compute|].
  by rewrite Hr.
Defined.

End ChatWitnesses.

Section ChatMutations.
Import ChatController.

Lemma findById_updateOne_insert id u l m :
  Message.findById id l = Some m →
  ∃ i, l !! i = Some m
       ∧ Mongo.updateOne (Message.hasId id) u l = <[i := u m]> l.
Proof. apply updateOne_insert. Qed.

(** C9: a requester other than the sender is answered 403 and the
    store is unchanged; for the sender the message stays in its place
    with [isDeleted] set and [deletedAt] stamped, all its other fields
    and all other documents being unchanged. *)
Theorem deleteMessage_soft_delete e s u id m :
  Message.findById id (Messages s) = Some m →
  (Message.sender m ≠ u →
   deleteMessage e s u id
   = (fail 403 "Only the sender can delete this message", s))
  ∧ (Message.sender m = u →
     ∃ i m',
       Messages s !! i = Some m
       ∧ deleteMessage e s u id
         = (mkResponse 200 true (Some "Message deleted successfully") None,
            withMessages (<[i := m']> (Messages s)) s)
       ∧ Message.isDeleted m' = true
       ∧ Message.deletedAt m' = Some (date e 0)
       ∧ sameEnvelope m m' ∧ sameReaders m m' ∧ sameAnswer m m').
Proof.
  intros Hm. unfold deleteMessage. rewrite Hm. split; intros Hs.
  - by rewrite bool_decide_eq_true_2.
  - rewrite bool_decide_eq_false_2 by (by intros ?).
    destruct (findById_updateOne_insert id (Message.markDeleted (date e 0)) _ _ Hm)
      as (i & Hi & ->).
    exists i, (Message.markDeleted (date e 0) m).
    repeat (split; [done|]). repeat split.
Qed.

Lemma deleteMessage_soft_delete_witness :
  deleteMessage (mkEnv "x" "y" (Sample.clock 40)) Sample.chatting "bob" "msg1"
  = (fail 403 "Only the sender can delete this message", Sample.chatting)
  ∧ ∃ m, (deleteMessage (mkEnv "x" "y" (Sample.clock 40)) Sample.chatting
            "alice" "msg1").1
         = mkResponse 200 true (Some "Message deleted successfully") None
      ∧ Messages (deleteMessage (mkEnv "x" "y" (Sample.clock 40))
                    Sample.chatting "alice" "msg1").2 !! 0%nat = Some m
      ∧ Message.isDeleted m = true
      ∧ Message.content m = Js.of_string "hello bob".
Proof.
  destruct (deleteMessage_soft_delete (mkEnv "x" "y" (Sample.clock 40))
              Sample.chatting "bob" "msg1" _ eq_refl) as [Hforbid _].
  split; [apply Hforbid; by vm_compute|].
  eexists. repeat split; reflexivity.
Defined.

(** C7: answering a message that is not a question, or a question
    already answered, is refused with 400 and the store is unchanged;
    answering an open question with a non-empty trimmed answer sets the
    answer, the answerer, the answer time and the answered flag, all
    other fields and all other documents being unchanged. *)
Theorem answerQuestion_guarded e s u id m :
  Message.findById id (Messages s) = Some m →
  (Message.messageType m ≠ "question" ∨ Message.isAnswered m = true →
   ∀ answer, ∃ r, answerQuestion e s u id answer = (r, s) ∧ status r = 400)
  ∧ (Message.messageType m = "question" → Message.isAnswered m = false →
     ∀ a, Js.trim a ≠ [] →
     ∃ i m',
       Messages s !! i = Some m
       ∧ answerQuestion e s u id (Some a)
         = (ok 200 (Some "Question answered successfully") m',
            withMessages (<[i := m']> (Messages s)) s)
       ∧ Message.answer m' = Some (Js.trim a)
       ∧ Message.answeredBy m' = Some u
       ∧ Message.answeredAt m' = Some (date e 0)
       ∧ Message.isAnswered m' = true
       ∧ sameEnvelope m m' ∧ sameReaders m m' ∧ sameDeletion m m').
Proof.
  intros Hm. split.
  - intros Hbad answer. unfold answerQuestion.
    destruct answer as [a|]; [|by eexists].
    case_bool_decide; [by eexists|]. rewrite Hm.
    case_bool_decide; [by eexists|].
    destruct Hbad as [?| ->]; [done|by eexists].
  - intros Hq Hopen a Ha. unfold answerQuestion.
    rewrite bool_decide_eq_false_2 by (by destruct (Js.trim a)).
    rewrite Hm, bool_decide_eq_false_2, Hopen by (by intros ?).
    destruct (findById_updateOne_insert id
                (λ _, Message.setAnswer (Js.trim a) u (date e 0) m) _ _ Hm)
      as (i & Hi & ->).
    exists i, (Message.setAnswer (Js.trim a) u (date e 0) m).
    repeat (split; [done|]). repeat split.
Qed.

Lemma answerQuestion_guarded_witness :
  (∃ r, answerQuestion (mkEnv "x" "y" (Sample.clock 40)) Sample.chatting
          "alice" "msg1" (Some (Js.of_string "because")) = (r, Sample.chatting)
        ∧ status r = 400)
  ∧ ∃ m, data (answerQuestion (mkEnv "x" "y" (Sample.clock 40)) Sample.chatting
                 "alice" "msg2" (Some (Js.of_string " at noon "))).1 = Some m
      ∧ Message.answer m = Some (Js.of_string "at noon")
      ∧ Message.isAnswered m = true.
Proof.
  destruct (answerQuestion_guarded (mkEnv "x" "y" (Sample.clock 40))
              Sample.chatting "alice" "msg1" _ eq_refl) as [Hrefuse _].
  split; [apply Hrefuse; left; by vm_compute|].
  eexists. repeat split; reflexivity.
Defined.

(** C10: [markAsRead] answers 200 for every store, requester and chat
    id, with no participant check; it adds the requester to the
    read-by set of exactly the chat's messages that the requester did
    not send and had not read, changing nothing else; a second call
    changes nothing. *)
Theorem markAsRead_idempotent s u cid :
  status (markAsRead s u cid).1 = 200
  ∧ withMessages (Messages s) (markAsRead s u cid).2 = s
  ∧ length (Messages (markAsRead s u cid).2) = length (Messages s)
  ∧ (∀ i m, Messages s !! i = Some m →
       ∃ m', Messages (markAsRead s u cid).2 !! i = Some m'
         ∧ (Message.chat m = Some cid → Message.sender m ≠ u →
            u ∉ Message.readBy m →
            Message.readBy m' = {[u]} ∪ Message.readBy m
            ∧ sameEnvelope m m' ∧ sameDeletion m m' ∧ sameAnswer m m')
         ∧ (Message.chat m ≠ Some cid ∨ Message.sender m = u
            ∨ u ∈ Message.readBy m → m' = m))
  ∧ markAsRead (markAsRead s u cid).2 u cid = markAsRead s u cid.
Proof.
  unfold markAsRead. cbn [fst snd status Messages withMessages].
  split; [done|]. split; [by destruct s|].
  split; [unfold Mongo.updateMany; by rewrite length_fmap|].
  split.
  - intros i m Hi. unfold Mongo.updateMany. rewrite list_lookup_fmap, Hi.
    eexists. split; [reflexivity|]. unfold unreadBy, inChat. split.
    + intros Hc Hs Hr.
      rewrite !bool_decide_eq_true_2 by done. cbn [andb]. repeat split.
    + intros Hor.
      destruct (decide (Message.chat m = Some cid));
        [|by rewrite (bool_decide_eq_false_2 (Message.chat m = Some cid))].
      destruct (decide (Message.sender m = u));
        [by rewrite (bool_decide_eq_false_2 (Message.sender m ≠ u)), andb_false_r
           by (by intros ?)|].
      destruct Hor as [?|[?|?]]; [done|done|].
      by rewrite (bool_decide_eq_false_2 (u ∉ Message.readBy m)), andb_false_r
        by (by intros ?).
  - unfold withMessages at 1 3.
    cbn [Users Trips Discussions Chats Messages Ratings withMessages].
    f_equal. f_equal. unfold Mongo.updateMany.
    rewrite <- list_fmap_compose. apply list_fmap_ext. intros i m _.
    cbn [compose]. destruct (unreadBy u cid m) eqn:E; [|by rewrite E].
    unfold unreadBy, inChat, Message.addReader in *.
    cbn [Message.chat Message.sender Message.readBy].
    rewrite (bool_decide_eq_false_2 (u ∉ _)), andb_false_r; [done|].
    intros Hn. apply Hn. set_solver.
Qed.

End ChatMutations.

(** ** Rating service *)

Section RatingReports.
Import RatingController.

Lemma filter_elem_of {A} (q : A → bool) l x :
  x ∈ List.filter q l ↔ x ∈ l ∧ q x = true.
Proof. rewrite !list_elem_of_In. apply filter_In. Qed.

(** C6: a report increments [reportCount]; when the count reaches 5 or
    more the rating is hidden; when it is 4 or less a rating that was
    visible stays visible and [getRatings] for its target still lists
    it (first page, limit covering the visible ratings, any sort). *)
Theorem reportRating_auto_hide e s id r :
  Rating.findById id (Ratings s) = Some r →
  ∃ i r',
    Ratings s !! i = Some r
    ∧ reportRating e s id
      = (mkResponse 200 true (Some "Rating reported successfully") None,
         withRatings (<[i := r']> (Ratings s)) s)
    ∧ Rating.reportCount r' = Rating.reportCount r + 1
    ∧ (5 ≤ Rating.reportCount r' → Rating.isHidden r' = true)
    ∧ (Rating.reportCount r' ≤ 4 → Rating.isHidden r = false →
       Rating.isHidden r' = false
       ∧ ∀ (limit : Z) sort,
           Mongo.countDocuments
             (visibleFor (Rating.targetType r) (Rating.targetId r))
             (<[i := r']> (Ratings s)) ≤ limit →
           ∃ resp,
             getRatings (withRatings (<[i := r']> (Ratings s)) s)
               (Rating.targetType r) (Rating.targetId r)
               (Some 1) (Some limit) sort
             = (resp, withRatings (<[i := r']> (Ratings s)) s)
             ∧ status resp = 200
             ∧ r' ∈ listedRatings resp).
Proof.
  intros Hr. unfold reportRating. rewrite Hr.
  destruct (updateOne_insert (Rating.hasId id) (Rating.report (date e 0)) _ _ Hr)
    as (i & Hi & ->).
  exists i, (Rating.report (date e 0) r).
  split; [done|]. split; [done|]. split; [done|].
  cbn [Rating.report Rating.reportCount Rating.isHidden]. split.
  - intros H5. by rewrite bool_decide_eq_true_2.
  - intros H4 Hvis. rewrite bool_decide_eq_false_2 by lia. split; [done|].
    intros limit sort Hlimit.
    set (r' := Rating.report (date e 0) r) in *.
    set (l' := <[i := r']> (Ratings s)) in *.
    set (q := visibleFor (Rating.targetType r) (Rating.targetId r)) in *.
    assert (Hin : r' ∈ List.filter q l').
    { apply filter_elem_of. split.
      - apply list_elem_of_lookup. exists i. subst l'.
        apply list_lookup_insert_eq. by eapply lookup_lt_Some.
      - subst q r'. unfold visibleFor, Rating.report.
        cbn [Rating.targetType Rating.targetId Rating.isHidden].
        rewrite (bool_decide_eq_false_2 (5 ≤ _)) by lia.
        by rewrite Hvis, !bool_decide_eq_true_2. }
    assert (Hpos : (0 < length (List.filter q l'))%nat).
    { destruct (List.filter q l'); [by apply elem_of_nil in Hin|simpl; lia]. }
    unfold Mongo.countDocuments in Hlimit.
    eexists. split.
    { unfold getRatings, param, Mongo.find, Mongo.skip, Mongo.limit.
      cbv zeta. cbn [default Ratings withRatings]. unfold Datatypes.id.
      fold l' q.
      rewrite (bool_decide_eq_false_2 (_ < 0)) by lia.
      cbn [fmap option_fmap option_map].
      rewrite (bool_decide_eq_false_2 (limit = 0)) by lia.
      reflexivity. }
    split; [done|].
    cbn [listedRatings data ok from_option RatingController.ratings].
    rewrite take_ge.
    + change (Z.to_nat ((1 - 1) * limit)) with 0%nat. rewrite drop_0.
      by rewrite (sort_perm (sortQuery (default "newest" sort))).
    + rewrite length_drop,
        (Permutation_length (sort_perm (sortQuery (default "newest" sort)) _)).
      lia.
Qed.

End RatingReports.

Section RatingWitnesses.
Import RatingController.

Lemma reportRating_auto_hide_witness :
  (∃ r4, Rating.findById "r1" (Ratings (Sample.reported 4)) = Some r4
         ∧ Rating.reportCount r4 = 4 ∧ Rating.isHidden r4 = false
         ∧ r4 ∈ listedRatings
                  (getRatings (Sample.reported 4) "guide" "carol"
                     None None None).1)
  ∧ ∃ i r5,
      Ratings (Sample.reported 4) !! i
      = Rating.findById "r1" (Ratings (Sample.reported 4))
      ∧ Ratings (Sample.reported 5) !! i = Some r5
      ∧ Rating.reportCount r5 = 5
      ∧ Rating.isHidden r5 = true
      ∧ listedRatings
          (getRatings (Sample.reported 5) "guide" "carol" None None None).1 = [].
Proof.
  split.
  { eexists. split; [by vm_compute|]. split; [by vm_compute|].
    split; [by vm_compute|]. vm_compute. left. }
  destruct (reportRating_auto_hide (mkEnv "x" "y" (Sample.clock 60))
              (Sample.reported 4) "r1" _ eq_refl)
    as (i & r5 & Hi & Hrep & Hcount & Hhide & _).
  exists i, r5. split; [done|].
  assert (Hs : Sample.reported 5
               = withRatings (<[i := r5]> (Ratings (Sample.reported 4)))
                   (Sample.reported 4)).
  { change (Sample.reported 5)
      with (reportRating (mkEnv "x" "y" (Sample.clock 60))
              (Sample.reported 4) "r1").2.
    by rewrite Hrep. }
  split.
  { rewrite Hs. cbn [Ratings withRatings].
    apply list_lookup_insert_eq. by eapply lookup_lt_Some. }
  split; [rewrite Hcount; by vm_compute|].
  split; [apply Hhide; rewrite Hcount; by vm_compute|].
  by vm_compute.
Defined.

End RatingWitnesses.

Section RatingUniqueness.
Import RatingController.

Lemma find_split {A} (q : A → bool) l x :
  List.find q l = Some x →
  ∃ l1 l2, l = l1 ++ x :: l2 ∧ Forall (λ y, q y = false) l1 ∧ q x = true.
Proof.
  induction l as [|y l IH]; simpl; [done|].
  destruct (q y) eqn:E.
  - intros [= ->]. by exists [], l.
  - intros Hf. destruct (IH Hf) as (l1 & l2 & -> & Hl1 & Hx).
    exists (y :: l1), l2. split; [done|]. split; [by constructor|done].
Qed.

Lemma filter_none {A} (q : A → bool) l :
  Forall (λ y, q y = false) l → List.filter q l = [].
Proof.
  induction 1 as [|y l Hy _ IH]; simpl; [done|]. by rewrite Hy.
Qed.


Lemma find_head_filter {A} (q : A → bool) l :
  List.find q l = head (List.filter q l).
Proof.
  induction l as [|y l IH]; simpl; [done|]. by destruct (q y).
Qed.

Lemma updateOne_middle {A} (q : A → bool) u l1 x l2 :
  Forall (λ y, q y = false) l1 → q x = true →
  Mongo.updateOne q u (l1 ++ x :: l2) = l1 ++ u x :: l2.
Proof.
  intros Hl1 Hx. induction Hl1 as [|y l1 Hy _ IH]; simpl.
  - by rewrite Hx.
  - by rewrite Hy, IH.
Qed.

Lemma Ratings_updateGuideRating g s :
  Ratings (updateGuideRating g s) = Ratings s.
Proof. unfold updateGuideRating. by case_bool_decide. Qed.

(** A successful [create] adds the one rating of its key. *)
Lemma create_one e who ty tg sc rv l r l' :
  NoDup (Rating._id <$> l) →
  Rating.findOne who ty tg l = None →
  Rating.create e who ty tg sc rv l = Some (r, l') →
  NoDup (Rating._id <$> l')
  ∧ List.filter (Rating.hasKey who ty tg) l' = [r].
Proof.
  intros Hnd Hnone. unfold Rating.create.
  destruct sc as [q|]; [|done].
  destruct (_ && _ && _); [|done].
  destruct (existsb (Rating.hasKey who ty tg) l); [done|].
  destruct (existsb _ l); [done|]. cbn [orb].
  destruct (existsb (Rating.hasId (objectId e)) l) eqn:Hid; [done|].
  intros [= <- <-]. split.
  - rewrite fmap_app. apply NoDup_app. split; [done|]. split.
    + intros x Hx Hx'. apply list_elem_of_singleton in Hx'. subst x.
      apply list_elem_of_fmap in Hx as (y & Hy & Hin).
      assert (existsb (Rating.hasId (objectId e)) l = true) as Hex; [|congruence].
      apply existsb_exists. exists y. split; [by apply list_elem_of_In|].
      by apply bool_decide_eq_true_2.
    + apply NoDup_singleton.
  - rewrite List.filter_app, (find_filter_nil _ _ Hnone). simpl.
    unfold Rating.hasKey. cbn [Rating.reviewer Rating.targetType Rating.targetId].
    by rewrite !bool_decide_eq_true_2.
Qed.

(** A successful [update] rewrites the one rating of its key in
    place. *)
Lemma update_one e who ty tg sc rv l old r l' :
  NoDup (Rating._id <$> l) →
  List.filter (Rating.hasKey who ty tg) l = [old] →
  Rating.update e old sc rv l = Some (r, l') →
  NoDup (Rating._id <$> l')
  ∧ List.filter (Rating.hasKey who ty tg) l' = [r]
  ∧ length l' = length l
  ∧ Rating._id r = Rating._id old
  ∧ Rating.rating_id r = Rating.rating_id old
  ∧ Rating.createdAt r = Rating.createdAt old
  ∧ sc = Some (Rating.rating r)
  ∧ Rating.review r = rv.
Proof.
  intros Hnd Hone. unfold Rating.update.
  destruct (_ || _) eqn:Hbad; [done|]. intros [= <- <-].
  apply orb_false_elim in Hbad as [Hscore _].
  assert (Hf : List.find (Rating.hasKey who ty tg) l = Some old)
    by (by rewrite find_head_filter, Hone).
  destruct (find_split _ _ _ Hf) as (l1 & l2 & -> & Hl1 & Hk).
  rewrite List.filter_app in Hone. cbn [List.filter] in Hone.
  rewrite Hk, (filter_none _ _ Hl1) in Hone. injection Hone as Hl2.
  assert (Hid : Forall (λ y, Rating.hasId (Rating._id old) y = false) l1).
  { rewrite fmap_app, fmap_cons in Hnd.
    apply NoDup_app in Hnd as (_ & Hdisj & _).
    apply list.Forall_forall. intros y Hy.
    apply bool_decide_eq_false_2. intros Heq.
    apply (Hdisj (Rating._id y)); [by apply list_elem_of_fmap_2|].
    rewrite Heq. left. }
  rewrite updateOne_middle; [|done|by apply bool_decide_eq_true_2].
  split.
  { by rewrite fmap_app, fmap_cons in *. }
  split.
  { rewrite List.filter_app. cbn [List.filter].
    rewrite (filter_none _ _ Hl1), Hl2.
    unfold Rating.hasKey in *.
    cbn [Rating.reviewer Rating.targetType Rating.targetId]. by rewrite Hk. }
  split; [by rewrite !length_app|].
  repeat (split; [done|]). split; [|done].
  cbn [Rating.rating]. destruct sc as [q|]; [done|].
  by rewrite bool_decide_eq_true_2 in Hscore.
Qed.

(** An accepted [createRating] leaves exactly one rating of its key,
    the one it returns. *)
Lemma createRating_accepted e s who ty tg sc rv r1 s1 :
  ratingsIndexed who ty tg (Ratings s) →
  createRating e s who ty tg sc rv = (r1, s1) → success r1 = true →
  ∃ a, data r1 = Some a
       ∧ NoDup (Rating._id <$> Ratings s1)
       ∧ List.filter (Rating.hasKey who ty tg) (Ratings s1) = [a].
Proof.
  intros [Hnd Hle] H1 Hok1. unfold createRating in H1.
  destruct (targetError s ty tg) as [[code msg]|];
    [injection H1 as <- <-; done|].
  destruct (Rating.findOne who ty tg (Ratings s)) as [old|] eqn:Hf.
  - destruct (Rating.update e old sc rv (Ratings s)) as [[a rs]|] eqn:Hu;
      [|injection H1 as <- <-; done].
    injection H1 as <- <-. exists a. split; [done|].
    assert (Hone : List.filter (Rating.hasKey who ty tg) (Ratings s) = [old]).
    { unfold Rating.findOne in Hf. rewrite find_head_filter in Hf.
      destruct (List.filter _ (Ratings s)) as [|x [|y l]]; simplify_eq/=; [done|lia]. }
    destruct (update_one _ _ _ _ _ _ _ _ _ _ Hnd Hone Hu) as (? & ? & _).
    by destruct s.
  - destruct (Rating.create e who ty tg sc rv (Ratings s)) as [[a rs]|] eqn:Hc;
      [|injection H1 as <- <-; done].
    injection H1 as <- <-. exists a. split; [done|].
    destruct (create_one _ _ _ _ _ _ _ _ _ Hnd Hf Hc) as [? ?].
    case_bool_decide; rewrite ?Ratings_updateGuideRating; by destruct s.
Qed.

(** What two accepted [createRating] calls for one key leave behind. *)
Lemma createRating_twice_accepted
    e1 e2 s who ty tg sc1 rv1 sc2 rv2 r1 s1 r2 s2 :
  ratingsIndexed who ty tg (Ratings s) →
  createRating e1 s who ty tg sc1 rv1 = (r1, s1) → success r1 = true →
  createRating e2 s1 who ty tg sc2 rv2 = (r2, s2) → success r2 = true →
  ∃ a b,
    data r1 = Some a ∧ data r2 = Some b
    ∧ List.filter (Rating.hasKey who ty tg) (Ratings s1) = [a]
    ∧ List.filter (Rating.hasKey who ty tg) (Ratings s2) = [b]
    ∧ status r2 = 200
    ∧ length (Ratings s2) = length (Ratings s1)
    ∧ Rating._id b = Rating._id a
    ∧ Rating.rating_id b = Rating.rating_id a
    ∧ Rating.createdAt b = Rating.createdAt a
    ∧ sc2 = Some (Rating.rating b)
    ∧ Rating.review b = rv2.
Proof.
  intros Hidx H1 Hok1 H2 Hok2.
  destruct (createRating_accepted _ _ _ _ _ _ _ _ _ Hidx H1 Hok1)
    as (a & Ha & Hnd1 & Hone1).
  unfold createRating in H2.
  destruct (targetError s1 ty tg) as [[code msg]|];
    [injection H2 as <- <-; done|].
  unfold Rating.findOne in H2. rewrite find_head_filter, Hone1 in H2.
  cbn [head] in H2.
  destruct (Rating.update e2 a sc2 rv2 (Ratings s1)) as [[b rs]|] eqn:Hu;
    [|injection H2 as <- <-; done].
  injection H2 as <- <-.
  destruct (update_one _ _ _ _ _ _ _ _ _ _ Hnd1 Hone1 Hu)
    as (_ & Hone2 & Hlen & Hid & Hrid & Hcreated & Hsc & Hrv).
  exists a, b. cbn [data ok status Ratings withRatings].
  repeat (split; [done|]). done.
Qed.

Lemma update_succeeds e old sc rv l :
  Rating.validScore sc = true → Rating.validReview rv = true →
  is_Some (Rating.update e old sc rv l).
Proof.
  intros Hs Hr. unfold Rating.update. rewrite Hs, Hr.
  cbn [negb]. rewrite !andb_false_r. by eexists.
Qed.

Lemma existsb_find_none {A} (q : A → bool) l :
  List.find q l = None → existsb q l = false.
Proof.
  induction l as [|x l IH]; simpl; [done|]. destruct (q x); [done|auto].
Qed.

Lemma existsb_all_false {A} (q : A → bool) l :
  Forall (λ x, q x = false) l → existsb q l = false.
Proof.
  induction 1 as [|x l Hx _ IH]; simpl; [done|]. by rewrite Hx.
Qed.

Lemma create_succeeds e who ty tg sc rv l :
  Rating.validScore sc = true → Rating.validReview rv = true →
  Rating.validTargetType ty = true →
  Rating.findOne who ty tg l = None →
  Forall (λ r, Rating.rating_id r ≠ uuid e ∧ Rating._id r ≠ objectId e) l →
  is_Some (Rating.create e who ty tg sc rv l).
Proof.
  intros Hs Hr Ht Hf Hfresh. unfold Rating.create.
  destruct sc as [q|]; [|done]. rewrite Hs, Hr, Ht. cbn [andb].
  rewrite (existsb_find_none _ _ Hf). cbn [orb].
  rewrite !existsb_all_false; [by eexists| |].
  - eapply Forall_impl; [exact Hfresh|]. intros r [_ Hid].
    by apply bool_decide_eq_false_2.
  - eapply Forall_impl; [exact Hfresh|]. intros r [Hid _].
    by apply bool_decide_eq_false_2.
Qed.

Lemma targetError_valid s ty tg :
  targetError s ty tg = None → Rating.validTargetType ty = true.
Proof.
  unfold targetError, Rating.validTargetType.
  repeat case_bool_decide; subst; try done; intros _.
  - exfalso. set_solver.
  - exfalso. set_solver.
Qed.

(** Creating a rating leaves the target where [targetError] finds it. *)
Lemma targetError_createRating e s who ty tg sc rv :
  targetError (createRating e s who ty tg sc rv).2 ty tg = targetError s ty tg.
Proof.
  unfold createRating.
  destruct (targetError s ty tg) as [[code msg]|] eqn:Ht; [done|].
  destruct (Rating.findOne _ _ _ _).
  - destruct (Rating.update _ _ _ _ _) as [[??]|]; [|done].
    rewrite <- Ht. by destruct s.
  - destruct (Rating.create _ _ _ _ _ _ _) as [[r rs]|]; [|done].
    cbn [snd]. rewrite <- Ht.
    case_bool_decide as Hg; [|by destruct s]. subst ty.
    unfold targetError, updateGuideRating. rewrite bool_decide_eq_true_2 by done.
    case_bool_decide; [|by destruct s].
    cbn [Users withUsers withRatings]. unfold User.findById.
    rewrite find_updateOne by (by intros ? ?).
    by destruct (List.find _ (Users s)).
Qed.

(** C5: from a store that satisfies its unique indexes, two
    [createRating] calls by one reviewer for one existing target with
    valid scores and reviews both succeed and leave exactly one rating
    of that reviewer and target; the second call answers 200, adds no
    document, and writes its score and review into the record the first
    call returned. *)
Theorem createRating_twice_one_record e1 e2 s who ty tg sc1 rv1 sc2 rv2 :
  ratingsIndexed who ty tg (Ratings s) →
  targetError s ty tg = None →
  Rating.validScore sc1 = true → Rating.validReview rv1 = true →
  Rating.validScore sc2 = true → Rating.validReview rv2 = true →
  Forall (λ r, Rating.rating_id r ≠ uuid e1 ∧ Rating._id r ≠ objectId e1)
         (Ratings s) →
  let first := createRating e1 s who ty tg sc1 rv1 in
  let second := createRating e2 first.2 who ty tg sc2 rv2 in
  ∃ a b,
    success first.1 = true ∧ data first.1 = Some a
    ∧ status second.1 = 200 ∧ data second.1 = Some b
    ∧ List.filter (Rating.hasKey who ty tg) (Ratings first.2) = [a]
    ∧ List.filter (Rating.hasKey who ty tg) (Ratings second.2) = [b]
    ∧ length (Ratings second.2) = length (Ratings first.2)
    ∧ Rating._id b = Rating._id a
    ∧ Rating.rating_id b = Rating.rating_id a
    ∧ Rating.createdAt b = Rating.createdAt a
    ∧ sc2 = Some (Rating.rating b)
    ∧ Rating.review b = rv2.
Proof.
  intros Hidx Ht Hs1 Hr1 Hs2 Hr2 Hfresh first second.
  assert (Hok1 : success first.1 = true).
  { subst first. unfold createRating. rewrite Ht.
    destruct (Rating.findOne who ty tg (Ratings s)) as [old|] eqn:Hf.
    - by destruct (update_succeeds e1 old sc1 rv1 (Ratings s) Hs1 Hr1)
        as [[??] ->].
    - by destruct (create_succeeds e1 who ty tg sc1 rv1 (Ratings s) Hs1 Hr1
                     (targetError_valid _ _ _ Ht) Hf Hfresh) as [[??] ->]. }
  assert (Hok2 : success second.1 = true).
  { destruct (createRating_accepted e1 s who ty tg sc1 rv1 first.1 first.2 Hidx
                (surjective_pairing _) Hok1) as (a & _ & _ & Hone).
    assert (Ha : Rating.findOne who ty tg (Ratings first.2) = Some a)
      by (unfold Rating.findOne; by rewrite find_head_filter, Hone).
    subst second first. unfold createRating at 1.
    rewrite (targetError_createRating e1 s who ty tg sc1 rv1), Ht, Ha.
    by destruct (update_succeeds e2 a sc2 rv2
                   (Ratings (createRating e1 s who ty tg sc1 rv1).2) Hs2 Hr2)
      as [[??] ->]. }
  destruct (createRating_twice_accepted e1 e2 s who ty tg sc1 rv1 sc2 rv2
              first.1 first.2 second.1 second.2 Hidx
              (surjective_pairing _) Hok1 (surjective_pairing _) Hok2)
    as (a & b & ? & ? & ? & ? & ? & ? & ? & ? & ? & ? & ?).
  exists a, b. repeat (split; [done|]). done.
Qed.

Lemma createRating_twice_one_record_witness :
  ∃ a b,
    data (createRating (mkEnv "k1" "r1" (Sample.clock 50)) Sample.store "alice"
            "guide" "carol" (Some (Qc_of_Z 4))
            (Some (Js.of_string "great walk"))).1 = Some a
    ∧ data (createRating (mkEnv "k2" "r2" (Sample.clock 70)) Sample.rated
              "alice" "guide" "carol" (Some (Qc_of_Z 2)) None).1 = Some b
    ∧ List.filter (Rating.hasKey "alice" "guide" "carol")
        (Ratings (createRating (mkEnv "k2" "r2" (Sample.clock 70)) Sample.rated
                    "alice" "guide" "carol" (Some (Qc_of_Z 2)) None).2) = [b]
    ∧ Rating._id b = Rating._id a
    ∧ Some (Qc_of_Z 2) = Some (Rating.rating b)
    ∧ Rating.review b = None.
Proof.
  destruct (createRating_twice_one_record
              (mkEnv "k1" "r1" (Sample.clock 50))
              (mkEnv "k2" "r2" (Sample.clock 70)) Sample.store
              "alice" "guide" "carol"
              (Some (Qc_of_Z 4)) (Some (Js.of_string "great walk"))
              (Some (Qc_of_Z 2)) None)
    as (a & b & _ & Ha & _ & Hb & _ & Hone & _ & Hid & _ & _ & Hsc & Hrv);
    [ split; [apply NoDup_nil_2 | simpl; lia]
    | by vm_compute | by vm_compute | by vm_compute
    | by vm_compute | by vm_compute | by constructor | ].
  exists a, b. repeat (split; [done|]). done.
Defined.

End RatingUniqueness.

(** * Further properties *)

(** ** [String.prototype.trim] *)

Section TrimFacts.

Lemma trimStart_nil_iff s :
  Js.trimStart s = [] ↔ Forall (λ x, Js.isWhiteSpace x = true) s.
Proof.
  induction s as [|c s IH]; simpl.
  - split; [constructor|done].
  - destruct (Js.isWhiteSpace c) eqn:E.
    + rewrite IH. split; [by constructor|by inversion 1].
    + split; [done|]. inversion 1; congruence.
Qed.

Lemma trimStart_head s c t :
  Js.trimStart s = c :: t → Js.isWhiteSpace c = false.
Proof.
  induction s as [|x s IH]; simpl; [done|].
  destruct (Js.isWhiteSpace x) eqn:E; [done|]. by intros [= <- _].
Qed.

Lemma trimStart_fixed c t :
  Js.isWhiteSpace c = false → Js.trimStart (c :: t) = c :: t.
Proof. intros E. simpl. by rewrite E. Qed.

Lemma trimStart_snoc s c :
  Js.isWhiteSpace c = false → ∃ l, Js.trimStart (s ++ [c]) = l ++ [c].
Proof.
  intros E. induction s as [|x s IH]; simpl.
  - rewrite E. by exists [].
  - destruct (Js.isWhiteSpace x); [done|]. by exists (x :: s).
Qed.

Lemma trimStart_length s : (length (Js.trimStart s) ≤ length s)%nat.
Proof.
  induction s as [|x s IH]; simpl; [done|].
  destruct (Js.isWhiteSpace x); simpl; lia.
Qed.

Lemma trim_length s : (length (Js.trim s) ≤ length s)%nat.
Proof.
  unfold Js.trim, Js.trimEnd. rewrite length_reverse.
  etrans; [apply trimStart_length|]. rewrite length_reverse.
  apply trimStart_length.
Qed.

Lemma trim_nil_iff s :
  Js.trim s = [] ↔ Forall (λ x, Js.isWhiteSpace x = true) s.
Proof.
  unfold Js.trim, Js.trimEnd. rewrite <- trimStart_nil_iff.
  split.
  - intros H. apply (f_equal reverse) in H. rewrite reverse_involutive in H.
    change (reverse []) with (@nil N) in H.
    apply trimStart_nil_iff in H. apply Forall_reverse in H.
    rewrite reverse_involutive in H.
    destruct (Js.trimStart s) as [|c t] eqn:E; [done|].
    apply trimStart_head in E. inversion H; congruence.
  - by intros ->.
Qed.

Lemma trim_trimmed s : trimmed (Js.trim s).
Proof.
  unfold trimmed, Js.trim, Js.trimEnd.
  destruct (Js.trimStart s) as [|c t] eqn:E; [done|].
  apply trimStart_head in E.
  rewrite reverse_cons.
  destruct (trimStart_snoc (reverse t) c E) as [l Hl]. rewrite Hl.
  rewrite reverse_snoc. split.
  - by intros x [= <-].
  - intros x Hx.
    destruct (reverse l) as [|y r] eqn:Er.
    + by injection Hx as <-.
    + assert (Hlast : last (reverse l) = Some x)
        by (by rewrite Er; destruct r).
      rewrite last_reverse in Hlast.
      destruct l as [|z l']; [done|]. injection Hlast as ->.
      assert (Hz : Js.trimStart (reverse t ++ [c]) = x :: l' ++ [c]) by done.
      by apply trimStart_head in Hz.
Qed.

Lemma trim_idempotent s : Js.trim (Js.trim s) = Js.trim s.
Proof.
  destruct (Js.trim s) as [|c t] eqn:E; [done|].
  destruct (trim_trimmed s) as [Hh Hl]. rewrite E in Hh, Hl.
  unfold Js.trim, Js.trimEnd.
  rewrite trimStart_fixed by (by apply Hh).
  destruct (reverse (c :: t)) as [|y r] eqn:Er.
  { apply (f_equal length) in Er. rewrite length_reverse in Er. done. }
  assert (Hy : last (c :: t) = Some y).
  { rewrite <- (reverse_involutive (c :: t)), Er, last_reverse. done. }
  rewrite trimStart_fixed by (by apply Hl).
  by rewrite <- Er, reverse_involutive.
Qed.

End TrimFacts.

(** ** Discussion service, continued *)

Section CollectionFrames.
Context {A : Type}.
Implicit Types (q : A → bool) (u : A → A) (l : list A).

Lemma find_updateOne_other q q' u l :
  (∀ d, q' (u d) = q' d) → (∀ d, q d = true → q' d = false) →
  List.find q' (Mongo.updateOne q u l) = List.find q' l.
Proof.
  intros Hu Hq. induction l as [|d l IH]; simpl; [done|].
  destruct (q d) eqn:E; simpl.
  - by rewrite Hu, (Hq d E).
  - by rewrite IH.
Qed.

Lemma find_snoc_other q l d :
  q d = false → List.find q (l ++ [d]) = List.find q l.
Proof.
  intros Hd. induction l as [|x l IH]; simpl.
  - by rewrite Hd.
  - by destruct (q x).
Qed.

Lemma take_add_app l (a b : nat) :
  take (a + b) l = take a l ++ take b (drop a l).
Proof.
  revert l. induction a as [|a IH]; intros [|x l]; simpl;
    rewrite ?take_nil; try done. by rewrite IH.
Qed.

Lemma windows_concat l (n L : nat) :
  concat ((λ k, take L (drop (k * L) l)) <$> seq 0 n) = take (n * L) l.
Proof.
  induction n as [|n IH]; [done|].
  rewrite seq_S, fmap_app, concat_app, IH. simpl.
  rewrite app_nil_r, (Nat.add_comm L (n * L)). by rewrite take_add_app.
Qed.

End CollectionFrames.

Section DiscussionMore.
Import DiscussionController.

(** X1: both [sendMessage] handlers answer 400 exactly when the content
    is absent or consists of white space only, and then leave the store
    as it was. *)
Theorem sendMessage_blank_iff_400 e s u id c mt :
  (blank c ↔ status (DiscussionController.sendMessage e s u id c mt).1 = 400)
  ∧ (blank c ↔ status (ChatController.sendMessage e s u id c mt).1 = 400)
  ∧ (blank c →
     (DiscussionController.sendMessage e s u id c mt).2 = s
     ∧ (ChatController.sendMessage e s u id c mt).2 = s).
Proof.
  unfold DiscussionController.sendMessage, ChatController.sendMessage, blank.
  destruct c as [c0|]; [|done].
  rewrite <- trim_nil_iff.
  destruct (Js.trim c0) as [|x t] eqn:E.
  - rewrite bool_decide_eq_true_2 by done. done.
  - rewrite bool_decide_eq_false_2 by done.
    split; [|split]; [| |done].
    + split; [done|].
      destruct (Trip.findById id (Trips s)); [|done].
      destruct (negb (Trip.allowDiscussions _)); [done|].
      destruct (negb (isOrganizer _ _) && negb (isParticipant _ _)); [done|].
      destruct (Discussion.findOneAndUpdate _ _ _ _ _ _ _) as [[ds [d|]]|]; done.
    + split; [done|].
      destruct (Chat.findById id (Chats s)); [|done].
      by destruct (negb (Chat.isParticipant u _)).
Qed.

(** X2: a message accepted by the discussion's [sendMessage] is stored
    non-empty, without white space at either end, and no longer than
    what was submitted. *)
Theorem sendMessage_stores_trimmed e s u tid c mt r s1 m :
  sendMessage e s u tid (Some c) mt = (r, s1) → status r = 201 →
  data r = Some m →
  last (storedMessages tid s1) = Some m
  ∧ Discussion.content m ≠ []
  ∧ trimmed (Discussion.content m)
  ∧ Js.trim (Discussion.content m) = Discussion.content m
  ∧ (length (Discussion.content m) ≤ length c)%nat.
Proof.
  intros Hsend H201 Hm.
  destruct (sendMessage_created _ _ _ _ _ _ _ _ Hsend H201)
    as (c0 & t & [= <-] & Hne & _ & _ & _ & Hdata & _ & Hstored).
  rewrite Hm in Hdata. injection Hdata as ->.
  cbn [Discussion.content]. rewrite Hstored, last_snoc.
  split; [done|]. split; [done|]. split; [apply trim_trimmed|].
  split; [apply trim_idempotent|apply trim_length].
Qed.

Lemma sendMessage_stores_trimmed_witness :
  ∃ m, last (storedMessages "t1" Sample.sameInstant) = Some m
       ∧ Discussion.content m = Js.of_string "second".
Proof.
  destruct (sendMessage_stores_trimmed (mkEnv "m2" "o2" (Sample.clock 7))
              (sendMessage (mkEnv "m1" "o1" (Sample.clock 7)) Sample.store
                 "alice" "t1" (Some (Js.of_string "first")) None).2
              "bob" "t1" (Js.of_string "second") None _ Sample.sameInstant
              (Discussion.mkMessage "m2" "bob" (Js.of_string "second") "text" 7 false)
              (surjective_pairing _) eq_refl eq_refl) as (Hlast & _).
  eexists. split; [exact Hlast|reflexivity].
Defined.

Lemma findOne_pushed tid tid' m u seen typing l :
  Discussion.findOne tid'
    (Mongo.updateOne (λ x, bool_decide (Discussion.trip x = tid))
       (Discussion.pushMessage m u seen typing) l)
  = if bool_decide (tid' = tid)
    then Discussion.pushMessage m u seen typing <$> Discussion.findOne tid l
    else Discussion.findOne tid' l.
Proof.
  unfold Discussion.findOne. case_bool_decide as E.
  - subst. by apply find_updateOne.
  - apply find_updateOne_other; [done|].
    intros d Hd. apply bool_decide_eq_true_1 in Hd.
    apply bool_decide_eq_false_2. congruence.
Qed.

(** X3: discussion histories are append-only: whatever the request and
    its outcome, [sendMessage] and [getDiscussion] leave the stored
    messages of every trip as a prefix of what is stored afterwards. *)
Theorem discussion_history_append_only e s u tid c mt page limit tid' :
  storedMessages tid' s
    `prefix_of` storedMessages tid' (sendMessage e s u tid c mt).2
  ∧ storedMessages tid' s
    `prefix_of` storedMessages tid' (getDiscussion e s u tid page limit).2.
Proof.
  split.
  - unfold sendMessage. destruct c as [c0|]; [|done].
    case_bool_decide; [done|].
    destruct (Trip.findById tid (Trips s)); [|done].
    destruct (negb (Trip.allowDiscussions _)); [done|].
    destruct (negb (isOrganizer _ _) && negb (isParticipant _ _)); [done|].
    unfold Discussion.findOneAndUpdate.
    cbn [Discussion.runValidators Discussion.new Discussion.upsert andb].
    destruct (negb (Discussion.indexAdmits _ _ _)); [done|].
    unfold storedMessages.
    destruct (Discussion.findOne tid (Discussions s)) as [d|] eqn:Hd;
      cbv zeta; cbn [snd Discussions withTrips withDiscussions].
    + rewrite findOne_pushed. case_bool_decide as E; [|done].
      subst. rewrite Hd. cbn. by apply prefix_app_r.
    + unfold Discussion.findOne in *.
      destruct (decide (tid' = tid)) as [->|Hne].
      * rewrite (find_snoc _ (Discussions s) _ Hd)
          by (by apply bool_decide_eq_true_2).
        rewrite Hd. cbn. apply prefix_nil.
      * rewrite find_snoc_other; [done|].
        apply bool_decide_eq_false_2. cbn. congruence.
  - unfold getDiscussion. cbv zeta.
    destruct (Trip.findById tid (Trips s)); [|done].
    destruct (negb (isOrganizer _ _) && negb (isParticipant _ _)); [done|].
    destruct (Discussion.findOne tid (Discussions s)) as [d|] eqn:Hd; [done|].
    unfold Discussion.save.
    destruct (negb (forallb _ _)); [done|].
    case_bool_decide; [|done].
    cbn [fmap option_fmap option_map snd Discussions withDiscussions].
    unfold storedMessages, Discussion.findOne in *.
    cbn [snd Discussions withDiscussions].
    destruct (decide (tid' = tid)) as [->|Hne].
    + rewrite (find_snoc _ (Discussions s) _ Hd)
        by (by apply bool_decide_eq_true_2).
      rewrite Hd. cbn. apply prefix_nil.
    + rewrite find_snoc_other; [done|].
      apply bool_decide_eq_false_2. cbn. congruence.
Qed.

End DiscussionMore.

Section DiscussionReads.
Import DiscussionController.

Lemma access_not_denied t u :
  (isOrganizer t u || isParticipant t u) = true →
  negb (isOrganizer t u) && negb (isParticipant t u) = false.
Proof. by destruct (isOrganizer t u), (isParticipant t u). Qed.

Lemma seed_valid id u now :
  Discussion.validMessage
    (Discussion.mkMessage id u (Js.of_string "Discussion started for this trip!")
       "system" now false) = true.
Proof. by vm_compute. Qed.

(** X4: the first [getDiscussion] of an authorised requester on a trip
    without discussion creates it with one seeded system message
    authored by the requester, whether or not the trip allows
    discussions, and touches nothing else; a later [getDiscussion]
    reads it back and creates nothing. *)
Theorem getDiscussion_creates_once e e' s u v tid t page limit page' limit' :
  Trip.findById tid (Trips s) = Some t →
  (isOrganizer t u || isParticipant t u) = true →
  (isOrganizer t v || isParticipant t v) = true →
  Discussion.findOne tid (Discussions s) = None →
  Forall (λ d, Discussion.hasMessageId (uuid e) d = false) (Discussions s) →
  let first := getDiscussion e s u tid page limit in
  let second := getDiscussion e' first.2 v tid page' limit' in
  let seed := Discussion.mkMessage (uuid e) u
                (Js.of_string "Discussion started for this trip!")
                "system" (date e 0) false in
  status first.1 = 200
  ∧ first.2 = withDiscussions (Discussions s ++ [Discussion.mk tid [seed] ∅]) s
  ∧ storedMessages tid first.2 = [seed]
  ∧ status second.1 = 200
  ∧ second.2 = first.2.
Proof.
  intros Ht Hu Hv Hd Hfresh first second seed.
  assert (Hfirst : first
            = (first.1,
               withDiscussions (Discussions s ++ [Discussion.mk tid [seed] ∅]) s)
              ∧ status first.1 = 200).
  { subst first. unfold getDiscussion. cbv zeta.
    rewrite Ht, (access_not_denied _ _ Hu), Hd. unfold Discussion.save.
    cbn [Discussion.messages forallb]. rewrite seed_valid. cbn [andb negb].
    rewrite bool_decide_eq_true_2 by (by repeat constructor). done. }
  destruct Hfirst as [Hpair H200].
  assert (Hs1 : first.2
            = withDiscussions (Discussions s ++ [Discussion.mk tid [seed] ∅]) s)
    by (by rewrite Hpair).
  assert (Hfound : Discussion.findOne tid (Discussions first.2)
                   = Some (Discussion.mk tid [seed] ∅)).
  { rewrite Hs1. cbn [Discussions withDiscussions]. unfold Discussion.findOne in *.
    rewrite (find_snoc _ (Discussions s) _ Hd); [done|].
    by apply bool_decide_eq_true_2. }
  split; [done|]. split; [done|].
  split; [unfold storedMessages; by rewrite Hfound|].
  subst second. unfold getDiscussion. cbv zeta.
  replace (Trips first.2) with (Trips s) by (by rewrite Hs1).
  by rewrite Ht, (access_not_denied _ _ Hv), Hfound.
Qed.

Lemma getDiscussion_creates_once_witness :
  storedMessages "t2"
    (getDiscussion (mkEnv "m1" "o1" (Sample.clock 3)) Sample.store
       "bob" "t2" None None).2
  = [Discussion.mkMessage "m1" "bob"
       (Js.of_string "Discussion started for this trip!") "system" 3 false]
  ∧ (getDiscussion (mkEnv "m9" "o9" (Sample.clock 4))
       (getDiscussion (mkEnv "m1" "o1" (Sample.clock 3)) Sample.store
          "bob" "t2" None None).2 "alice" "t2" (Some 2) None).2
    = (getDiscussion (mkEnv "m1" "o1" (Sample.clock 3)) Sample.store
         "bob" "t2" None None).2.
Proof.
  destruct (getDiscussion_creates_once
              (mkEnv "m1" "o1" (Sample.clock 3))
              (mkEnv "m9" "o9" (Sample.clock 4)) Sample.store
              "bob" "alice" "t2" Sample.mutedTrip None None (Some 2) None)
    as (_ & _ & Hseed & _ & Hsame);
    [reflexivity | reflexivity | reflexivity | reflexivity | constructor |].
  split; [exact Hseed | exact Hsame].
Defined.

(** X5: paging through [getDiscussion] with a fixed positive limit
    returns every stored message exactly once, in timestamp order: the
    pages 1..n, concatenated, are the sorted messages as soon as
    n * limit covers them. *)
Theorem getDiscussion_pages_cover e s v tid t d (limit : Z) (n : nat) :
  Trip.findById tid (Trips s) = Some t →
  (isOrganizer t v || isParticipant t v) = true →
  Discussion.findOne tid (Discussions s) = Some d →
  1 ≤ limit →
  (length (Discussion.messages d) ≤ n * Z.to_nat limit)%nat →
  concat ((λ k, returnedMessages
                  (getDiscussion e s v tid (Some (Z.of_nat k + 1)) (Some limit)).1)
            <$> seq 0 n)
  = Js.sort byTimestamp (Discussion.messages d).
Proof.
  intros Ht Hv Hd Hlimit Hn.
  rewrite <- (take_ge (Js.sort byTimestamp (Discussion.messages d))
                (n * Z.to_nat limit))
    by (by rewrite (Permutation_length (sort_perm byTimestamp _))).
  rewrite <- windows_concat. f_equal.
  apply list_fmap_ext. intros i k _.
  unfold getDiscussion, param. cbv zeta.
  rewrite Ht, (access_not_denied _ _ Hv), Hd.
  cbn [returnedMessages fst data ok from_option default
       DiscussionController.discussion Discussion.messages].
  unfold Datatypes.id.
  rewrite slice_window by lia. f_equal. f_equal. lia.
Qed.

Lemma getDiscussion_pages_cover_witness :
  returnedMessages
    (getDiscussion (mkEnv "m3" "o3" (Sample.clock 9)) Sample.sameInstant
       "alice" "t1" (Some 1) (Some 1)).1
  ++ returnedMessages
       (getDiscussion (mkEnv "m3" "o3" (Sample.clock 9)) Sample.sameInstant
          "alice" "t1" (Some 2) (Some 1)).1
  = Js.sort byTimestamp (storedMessages "t1" Sample.sameInstant).
Proof.
  pose proof (getDiscussion_pages_cover (mkEnv "m3" "o3" (Sample.clock 9))
                Sample.sameInstant "alice" "t1"
                (Trip.setLastActivity 7 Sample.openTrip) _ 1 2
                eq_refl eq_refl eq_refl ltac:(lia) ltac:(vm_compute; lia)) as H.
  cbn [seq fmap list_fmap concat] in H. rewrite app_nil_r in H.
  exact H.
Defined.

End DiscussionReads.

(** ** Cursors *)

Section CursorFacts.
Context {A : Type}.
Implicit Types (q : A → bool) (cmp : A → A → Z) (l : list A).

Lemma filter_elem q l x : x ∈ List.filter q l ↔ x ∈ l ∧ q x = true.
Proof. rewrite !list_elem_of_In. apply filter_In. Qed.

(** Whatever the window, a cursor yields only documents of the
    collection that match the filter. *)
Lemma find_sound q cmp k n l r :
  Mongo.find q cmp k n l = Some r → Forall (λ x, x ∈ l ∧ q x = true) r.
Proof.
  unfold Mongo.find, Mongo.skip, Mongo.limit.
  destruct (bool_decide (k < 0)); cbn; [done|]. intros [= <-].
  apply list.Forall_forall. intros x Hx. apply filter_elem.
  rewrite <- (sort_perm cmp). apply (subseteq_drop (Z.to_nat k)).
  destruct (bool_decide (n = 0)); [done|].
  by apply (subseteq_take (Z.to_nat (Z.abs n))).
Qed.

(** The first page holds every match once the limit covers them. *)
Lemma find_first_page q cmp (n : Z) l :
  1 ≤ n → Z.of_nat (length (List.filter q l)) ≤ n →
  Mongo.find q cmp ((1 - 1) * n) n l = Some (Js.sort cmp (List.filter q l)).
Proof.
  intros H1 Hn. unfold Mongo.find, Mongo.skip, Mongo.limit.
  rewrite (bool_decide_eq_false_2 (_ < 0)) by lia. cbn.
  rewrite (bool_decide_eq_false_2 (n = 0)) by lia.
  change (Z.to_nat ((1 - 1) * n)) with 0%nat. rewrite drop_0.
  rewrite take_ge; [done|].
  rewrite (Permutation_length (sort_perm cmp _)). lia.
Qed.

Lemma filter_length_le q l : (length (List.filter q l) ≤ length l)%nat.
Proof.
  induction l as [|x l IH]; simpl; [done|]. destruct (q x); simpl; lia.
Qed.

End CursorFacts.

(** ** Chat service, continued *)

Section ChatMore.
Import ChatController.

Lemma findById_Some_id id l u :
  User.findById id l = Some u → User._id u = id.
Proof.
  intros H. apply find_some in H as [_ H]. by apply bool_decide_eq_true_1 in H.
Qed.

(** X6: a direct chat that [createDirectChat] creates can be read back
    by its id with [getChatDetails] by either participant: the answer
    is 200 with the chat document the creation returned and the same
    two users populated, under the wider selection of
    [getChatDetails]; any other user is answered 403; reading changes
    nothing. *)
Theorem createDirectChat_then_getChatDetails e s a b w :
  b ≠ "" →
  is_Some (User.findById a (Users s)) →
  is_Some (User.findById b (Users s)) →
  List.find (Chat.directBetween a b) (Chats s) = None →
  Chat.findById (objectId e) (Chats s) = None →
  w ≠ a → w ≠ b →
  let created := createDirectChat e s a (Some b) in
  ∃ c ua ub,
    status created.1 = 201
    ∧ data created.1
      = Some (mkChatView c ["name"; "email"; "isOnline"] [Some ua; Some ub])
    ∧ Chat._id c = objectId e
    ∧ c ∈ Chats created.2
    ∧ User._id ua = a ∧ User._id ub = b
    ∧ (∀ v, v = a ∨ v = b →
         getChatDetails created.2 v (objectId e)
         = (ok 200 None
              (mkChatView c ["name"; "email"; "isOnline"; "bio"; "location"]
                 [Some ua; Some ub]),
            created.2))
    ∧ getChatDetails created.2 w (objectId e)
      = (fail 403 "Access denied to this chat", created.2).
Proof.
  intros Hb [ua Hua] [ub Hub] Hnone Hfresh Hwa Hwb created.
  subst created. unfold createDirectChat.
  rewrite bool_decide_eq_false_2, Hub, Hnone by done.
  cbn [fst snd status ok data].
  set (c := Chat.mk _ _ _ _ _ _).
  assert (Hfind : Chat.findById (objectId e) (Chats s ++ [c]) = Some c).
  { unfold Chat.findById in *. rewrite (find_snoc _ _ c Hfresh); [done|].
    by apply bool_decide_eq_true_2. }
  pose proof (findById_Some_id _ _ _ Hua) as Ha.
  pose proof (findById_Some_id _ _ _ Hub) as Hb'.
  exists c, ua, ub. split; [done|]. split.
  { unfold populate, populateSelect. subst c.
    cbn [Chat.participants fmap list_fmap Chat.user]. by rewrite Hua, Hub. }
  split; [done|]. split.
  { cbn [Chats withChats]. apply elem_of_app. right.
    by apply list_elem_of_singleton. }
  split; [done|]. split; [done|].
  unfold getChatDetails. cbn [Chats withChats]. rewrite Hfind.
  unfold populateDetails, populateSelect. subst c.
  cbn [Users withChats participantUsers Chat.participants
       fmap list_fmap Chat.user].
  rewrite Hua, Hub. cbn [somePopulated]. rewrite Ha, Hb'. split.
  - intros v [-> | ->].
    + by rewrite (bool_decide_eq_true_2 (a = a)).
    + rewrite (bool_decide_eq_true_2 (b = b)) by done. by case_bool_decide.
  - by rewrite (bool_decide_eq_false_2 (a = w)), (bool_decide_eq_false_2 (b = w))
      by congruence.
Qed.

Lemma createDirectChat_then_getChatDetails_witness :
  ∃ c,
    Chat.participants c
    = [Chat.mkMember "alice" "member"; Chat.mkMember "bob" "member"]
    ∧ getChatDetails
        (createDirectChat (mkEnv "c1" "chat1" (Sample.clock 1)) Sample.store
           "alice" (Some "bob")).2 "bob" "chat1"
      = (ok 200 None
           (mkChatView c ["name"; "email"; "isOnline"; "bio"; "location"]
              [Some Sample.alice; Some Sample.bob]),
         (createDirectChat (mkEnv "c1" "chat1" (Sample.clock 1)) Sample.store
            "alice" (Some "bob")).2)
    ∧ status (getChatDetails
                (createDirectChat (mkEnv "c1" "chat1" (Sample.clock 1))
                   Sample.store "alice" (Some "bob")).2 "carol" "chat1").1
      = 403.
Proof.
  destruct (createDirectChat_then_getChatDetails
              (mkEnv "c1" "chat1" (Sample.clock 1)) Sample.store
              "alice" "bob" "carol")
    as (c & ua & ub & _ & Hdata & _ & _ & _ & _ & Hread & Hcarol);
    [done | eexists; reflexivity | eexists; reflexivity
    | reflexivity | reflexivity | done | done |].
  vm_compute in Hdata. injection Hdata as <- <- <-.
  refine (ex_intro _ _ (conj _ (conj (Hread "bob" (or_intror eq_refl))
                                  (f_equal (λ p, status p.1) Hcarol)))).
  reflexivity.
Defined.

End ChatMore.

Section ChatRoundTrips.
Import ChatController.

(** The outcome of [sendMessage] for a participant with content. *)
Lemma chat_sendMessage_sent e s u cid ch content mt :
  Chat.findById cid (Chats s) = Some ch →
  Chat.isParticipant u ch = true →
  Js.trim content ≠ [] →
  ∃ cs,
    sendMessage e s u cid (Some content) mt
    = (ok 201 (Some "Message sent successfully")
         (Message.mk (objectId e) (uuid e) (Some cid) None u (Js.trim content)
            (default "text" mt) ∅ false None None None None false (date e 0)),
       withChats cs
         (withMessages
            (Messages s
             ++ [Message.mk (objectId e) (uuid e) (Some cid) None u
                   (Js.trim content) (default "text" mt) ∅ false None None
                   None None false (date e 0)]) s))
    ∧ ∃ ch', Chat.findById cid cs = Some ch'
             ∧ Chat.participants ch' = Chat.participants ch
             ∧ Chat.lastMessage ch' = Some (objectId e)
             ∧ Chat.lastActivity ch' = Some (date e 1).
Proof.
  intros Hc Hp Hne. unfold sendMessage.
  rewrite bool_decide_eq_false_2 by (by destruct (Js.trim content)).
  rewrite Hc, Hp. cbn [negb]. eexists. split; [reflexivity|].
  unfold Chat.findById in *. rewrite find_updateOne, Hc by done.
  eexists. split; [reflexivity|]. done.
Qed.

(** X7: a message sent to a chat by a participant is stored trimmed
    and unread, becomes the chat's last message, and is returned to
    every participant on the first page of [getChatMessages] when the
    limit covers the chat's messages. *)
Theorem chat_sendMessage_then_getChatMessages e s u v cid ch content mt
    (limit : Z) :
  Chat.findById cid (Chats s) = Some ch →
  Chat.isParticipant u ch = true →
  Chat.isParticipant v ch = true →
  Js.trim content ≠ [] →
  Mongo.countDocuments (inChat cid) (Messages s) < limit →
  let sent := sendMessage e s u cid (Some content) mt in
  ∃ m ch',
    status sent.1 = 201 ∧ data sent.1 = Some m
    ∧ Messages sent.2 = Messages s ++ [m]
    ∧ Message.sender m = u ∧ Message.content m = Js.trim content
    ∧ Message.readBy m = ∅ ∧ Message.isDeleted m = false
    ∧ Chat.findById cid (Chats sent.2) = Some ch'
    ∧ Chat.lastMessage ch' = Some (Message._id m)
    ∧ status (getChatMessages sent.2 v cid (Some 1) (Some limit)).1 = 200
    ∧ m ∈ returnedPage (getChatMessages sent.2 v cid (Some 1) (Some limit)).1.
Proof.
  intros Hc Hu Hv Hne Hlimit sent.
  destruct (chat_sendMessage_sent e s u cid ch content mt Hc Hu Hne)
    as (cs & Hsent & ch' & Hch' & Hparts & Hlast & _).
  subst sent. rewrite Hsent. cbn [fst snd status data ok].
  set (m := Message.mk _ _ _ _ _ _ _ _ _ _ _ _ _ _ _) in *.
  exists m, ch'. cbn [Messages Chats withChats withMessages].
  repeat (split; [done|]).
  unfold Mongo.countDocuments in Hlimit.
  assert (Hlen : Z.of_nat (length (List.filter (inChat cid) (Messages s ++ [m])))
                 ≤ limit).
  { rewrite List.filter_app, length_app.
    pose proof (filter_length_le (inChat cid) [m]). simpl in *. lia. }
  assert (Hpart : Chat.isParticipant v ch' = true)
    by (unfold Chat.isParticipant in *; by rewrite Hparts).
  unfold getChatMessages, param. cbv zeta.
  cbn [default Messages Chats withChats withMessages]. unfold Datatypes.id.
  rewrite Hch', Hpart. cbn [negb].
  rewrite (find_first_page (inChat cid) Message.newestFirst limit _) by lia.
  cbn [fst status ok returnedPage data from_option ChatController.messages].
  split; [done|].
  rewrite elem_of_reverse, (sort_perm Message.newestFirst).
  apply filter_elem. split.
  - apply elem_of_app. right. by apply list_elem_of_singleton.
  - unfold inChat. by apply bool_decide_eq_true_2.
Qed.

Lemma chat_sendMessage_then_getChatMessages_witness :
  ∃ m, data (sendMessage (mkEnv "u4" "msg4" (Sample.clock 40)) Sample.chatting
               "bob" "chat1" (Some (Js.of_string " see you ")) None).1 = Some m
    ∧ Message.content m = Js.of_string "see you"
    ∧ m ∈ returnedPage
            (getChatMessages
               (sendMessage (mkEnv "u4" "msg4" (Sample.clock 40))
                  Sample.chatting "bob" "chat1"
                  (Some (Js.of_string " see you ")) None).2
               "alice" "chat1" (Some 1) (Some 10)).1.
Proof.
  destruct (chat_sendMessage_then_getChatMessages
              (mkEnv "u4" "msg4" (Sample.clock 40)) Sample.chatting
              "bob" "alice" "chat1" _ (Js.of_string " see you ") None 10
              eq_refl eq_refl eq_refl ltac:(by vm_compute) ltac:(by vm_compute))
    as (m & ch' & _ & Hm & _ & _ & Hcontent & _ & _ & _ & _ & _ & Hin).
  exists m. split; [exact Hm|]. split; [|exact Hin].
  rewrite Hcontent. by vm_compute.
Defined.

(** X8: soft deletion does not withdraw a message: after
    [deleteMessage] by its sender, [getChatMessages] still returns the
    message to the chat's participants, flagged deleted and with its
    content intact. *)
Theorem deleted_message_still_served e s u v cid ch mid m (limit : Z) :
  Message.findById mid (Messages s) = Some m →
  Message.sender m = u →
  Message.chat m = Some cid →
  Chat.findById cid (Chats s) = Some ch →
  Chat.isParticipant v ch = true →
  Z.of_nat (length (Messages s)) ≤ limit →
  let s' := (deleteMessage e s u mid).2 in
  ∃ m',
    m' ∈ returnedPage (getChatMessages s' v cid (Some 1) (Some limit)).1
    ∧ Message._id m' = Message._id m
    ∧ Message.isDeleted m' = true
    ∧ Message.content m' = Message.content m.
Proof.
  intros Hm Hs Hchat Hc Hv Hlimit s'.
  subst s'. unfold deleteMessage. rewrite Hm.
  rewrite bool_decide_eq_false_2 by (by intros ?). cbn [snd].
  destruct (updateOne_insert (Message.hasId mid)
              (Message.markDeleted (date e 0)) _ _ Hm) as (i & Hi & ->).
  exists (Message.markDeleted (date e 0) m).
  split; [|done].
  assert (Hpos : (0 < length (Messages s))%nat)
    by (apply lookup_lt_Some in Hi; lia).
  unfold getChatMessages, param. cbv zeta.
  cbn [default Messages Chats withMessages]. unfold Datatypes.id.
  rewrite Hc, Hv. cbn [negb].
  rewrite (find_first_page (inChat cid) Message.newestFirst limit _);
    [|lia|].
  - cbn [fst returnedPage data ok from_option ChatController.messages].
    rewrite elem_of_reverse, (sort_perm Message.newestFirst).
    apply filter_elem. split.
    + apply list_elem_of_lookup. exists i.
      apply list_lookup_insert_eq. by eapply lookup_lt_Some.
    + unfold inChat. by apply bool_decide_eq_true_2.
  - pose proof (filter_length_le (inChat cid)
                  (<[i:=Message.markDeleted (date e 0) m]> (Messages s))) as Hle.
    rewrite length_insert in Hle. lia.
Qed.

Lemma deleted_message_still_served_witness :
  ∃ m', m' ∈ returnedPage
               (getChatMessages
                  (deleteMessage (mkEnv "x" "y" (Sample.clock 40))
                     Sample.chatting "alice" "msg1").2
                  "bob" "chat1" (Some 1) (Some 10)).1
    ∧ Message._id m' = "msg1"
    ∧ Message.isDeleted m' = true
    ∧ Message.content m' = Js.of_string "hello bob".
Proof.
  destruct (deleted_message_still_served (mkEnv "x" "y" (Sample.clock 40))
              Sample.chatting "alice" "bob" "chat1" _ "msg1" _ 10
              eq_refl eq_refl eq_refl eq_refl eq_refl ltac:(by vm_compute))
    as (m' & Hin & Hid & Hdel & Hcontent).
  exists m'. split; [exact Hin|]. split; [exact Hid|].
  split; [exact Hdel|exact Hcontent].
Defined.

End ChatRoundTrips.

Section ChatReadersAndQuestions.
Import ChatController.

(** X9: [markAsRead] never records the caller as a reader of the
    caller's own messages: a message just sent stays unread after its
    sender's [markAsRead], and is read by exactly [v] after the
    [markAsRead] of any other user [v], participant or not. *)
Theorem own_message_stays_unread e s u v cid ch content mt :
  Chat.findById cid (Chats s) = Some ch →
  Chat.isParticipant u ch = true →
  Js.trim content ≠ [] →
  v ≠ u →
  let s1 := (sendMessage e s u cid (Some content) mt).2 in
  Message.readBy <$> last (Messages (markAsRead s1 u cid).2) = Some ∅
  ∧ Message.readBy <$> last (Messages (markAsRead s1 v cid).2) = Some {[v]}
  ∧ Message.readBy
      <$> last (Messages (markAsRead (markAsRead s1 v cid).2 u cid).2)
    = Some {[v]}.
Proof.
  intros Hc Hu Hne Hvu s1.
  destruct (chat_sendMessage_sent e s u cid ch content mt Hc Hu Hne)
    as (cs & Hsent & _).
  subst s1. rewrite Hsent. cbn [snd].
  set (m := Message.mk _ _ _ _ _ _ _ _ _ _ _ _ _ _ _) in *.
  unfold markAsRead. cbn [snd Messages withChats withMessages].
  unfold Mongo.updateMany. rewrite <- !list_fmap_compose, !fmap_app.
  cbn [fmap list_fmap]. rewrite !last_snoc. cbn [fmap option_fmap option_map compose].
  assert (Hown : unreadBy u cid m = false).
  { unfold unreadBy. subst m. cbn [Message.sender].
    by rewrite (bool_decide_eq_false_2 (u ≠ u)), andb_false_r by (by intros ?). }
  assert (Hother : unreadBy v cid m = true).
  { unfold unreadBy, inChat. subst m. cbn [Message.chat Message.sender Message.readBy].
    rewrite !bool_decide_eq_true_2; [done|set_solver|congruence|done]. }
  rewrite Hown, Hother. split; [done|].
  assert (Hset : Message.readBy (Message.addReader v m) = {[v]}).
  { subst m. cbn [Message.addReader Message.readBy].
    apply (right_id_L ∅ (∪)). }
  split; [by rewrite Hset|].
  assert (Hown' : unreadBy u cid (Message.addReader v m) = false).
  { unfold unreadBy. subst m. cbn [Message.addReader Message.sender].
    by rewrite (bool_decide_eq_false_2 (u ≠ u)), andb_false_r by (by intros ?). }
  by rewrite Hown', Hset.
Qed.

Lemma own_message_stays_unread_witness :
  Message.readBy
    <$> last (Messages
                (markAsRead
                   (sendMessage (mkEnv "u4" "msg4" (Sample.clock 40))
                      Sample.chatting "bob" "chat1"
                      (Some (Js.of_string "ok")) None).2 "bob" "chat1").2)
  = Some ∅
  ∧ Message.readBy
      <$> last (Messages
                  (markAsRead
                     (sendMessage (mkEnv "u4" "msg4" (Sample.clock 40))
                        Sample.chatting "bob" "chat1"
                        (Some (Js.of_string "ok")) None).2 "carol" "chat1").2)
    = Some {["carol"]}.
Proof.
  destruct (own_message_stays_unread (mkEnv "u4" "msg4" (Sample.clock 40))
              Sample.chatting "bob" "carol" "chat1" _ (Js.of_string "ok") None
              eq_refl eq_refl ltac:(by vm_compute) ltac:(done))
    as (Hown & Hother & _).
  split; [exact Hown|exact Hother].
Defined.

(** What [getQAMessages] lists matches its filter and is stored. *)
Lemma qa_listed s tid page limit answered m :
  m ∈ returnedPage (getQAMessages s tid page limit answered).1 →
  m ∈ Messages s ∧ qaQuery tid (default "all" answered) m = true.
Proof.
  unfold getQAMessages. cbv zeta.
  destruct (Mongo.find _ _ _ _ _) as [ms|] eqn:Hf;
    cbn [fst returnedPage data ok fail from_option ChatController.messages];
    [|by intros ?%elem_of_nil].
  intros Hin. apply find_sound in Hf.
  by apply (proj1 (list.Forall_forall _ _) Hf).
Qed.

(** X10: [getQAMessages] changes nothing and lists only stored
    questions of the requested trip; with an [answered] parameter other
    than ['all'] they are the answered ones for ['true'] and the
    unanswered ones for every other value. *)
Theorem getQAMessages_filter s tid page limit answered :
  (getQAMessages s tid page limit answered).2 = s
  ∧ Forall (λ m, m ∈ Messages s
                 ∧ Message.trip m = Some tid
                 ∧ Message.messageType m = "question"
                 ∧ (default "all" answered ≠ "all" →
                    Message.isAnswered m
                    = bool_decide (default "all" answered = "true")))
      (returnedPage (getQAMessages s tid page limit answered).1).
Proof.
  split.
  - unfold getQAMessages. cbv zeta. by destruct (Mongo.find _ _ _ _ _).
  - apply list.Forall_forall. intros m Hm.
    apply qa_listed in Hm as [Hin Hq]. split; [done|].
    unfold qaQuery in Hq.
    apply andb_prop in Hq as [Hq Ha]. apply andb_prop in Hq as [Ht Hty].
    apply bool_decide_eq_true_1 in Ht, Hty. split; [done|]. split; [done|].
    intros Hall. rewrite (bool_decide_eq_false_2 _ Hall) in Ha.
    by apply bool_decide_eq_true_1 in Ha.
Qed.

(** X11: answering an open question of a trip moves it from the
    unanswered to the answered listing of [getQAMessages]. *)
Theorem answerQuestion_moves_listing e s u mid m tid a (limit : Z) :
  Message.findById mid (Messages s) = Some m →
  Message.messageType m = "question" →
  Message.isAnswered m = false →
  Message.trip m = Some tid →
  Js.trim a ≠ [] →
  Z.of_nat (length (Messages s)) ≤ limit →
  let answered := answerQuestion e s u mid (Some a) in
  ∃ m',
    data answered.1 = Some m'
    ∧ Message.answer m' = Some (Js.trim a)
    ∧ m ∈ returnedPage
            (getQAMessages s tid (Some 1) (Some limit) (Some "false")).1
    ∧ m' ∈ returnedPage
             (getQAMessages answered.2 tid (Some 1) (Some limit) (Some "true")).1
    ∧ m' ∉ returnedPage
             (getQAMessages answered.2 tid (Some 1) (Some limit) (Some "false")).1.
Proof.
  intros Hm Hq Hopen Htrip Ha Hlimit answered.
  subst answered. unfold answerQuestion.
  rewrite bool_decide_eq_false_2 by (by destruct (Js.trim a)).
  rewrite Hm, bool_decide_eq_false_2, Hopen by (by intros ?).
  destruct (updateOne_insert (Message.hasId mid)
              (λ _, Message.setAnswer (Js.trim a) u (date e 0) m) _ _ Hm)
    as (i & Hi & ->).
  set (m' := Message.setAnswer (Js.trim a) u (date e 0) m).
  exists m'. cbn [fst snd data ok]. split; [done|]. split; [done|].
  assert (Hpos : (0 < length (Messages s))%nat)
    by (apply lookup_lt_Some in Hi; lia).
  assert (Hlisted : ∀ s0 x flag,
            length (Messages s0) = length (Messages s) → x ∈ Messages s0 →
            qaQuery tid flag x = true →
            x ∈ returnedPage
                  (getQAMessages s0 tid (Some 1) (Some limit) (Some flag)).1).
  { intros s0 x flag Hl Hx Hqx. unfold getQAMessages, param. cbv zeta.
    cbn [default]. unfold Datatypes.id.
    rewrite (find_first_page (qaQuery tid flag) Message.newestFirst limit
               (Messages s0));
      [|lia|pose proof (filter_length_le (qaQuery tid flag) (Messages s0)); lia].
    cbn [fst returnedPage data ok from_option ChatController.messages].
    rewrite (sort_perm Message.newestFirst). by apply filter_elem. }
  split; [|split].
  - apply Hlisted; [done|by eapply list_elem_of_lookup_2|].
    unfold qaQuery. rewrite Htrip, Hq, Hopen.
    rewrite (bool_decide_eq_true_2 (Some tid = Some tid)) by done.
    by vm_compute.
  - apply Hlisted; cbn [Messages withMessages].
    + by rewrite length_insert.
    + apply list_elem_of_lookup. exists i.
      apply list_lookup_insert_eq. by eapply lookup_lt_Some.
    + unfold qaQuery. subst m'.
      cbn [Message.setAnswer Message.trip Message.messageType Message.isAnswered].
      rewrite Htrip, Hq.
      rewrite (bool_decide_eq_true_2 (Some tid = Some tid)) by done.
      by vm_compute.
  - intros Hin. apply qa_listed in Hin as [_ Hqx].
    unfold qaQuery in Hqx. subst m'.
    cbn [Message.setAnswer Message.trip Message.messageType Message.isAnswered
         default] in Hqx.
    rewrite (bool_decide_eq_false_2 ("false" = "all")) in Hqx by done.
    rewrite (bool_decide_eq_false_2 ("false" = "true")) in Hqx by done.
    rewrite (bool_decide_eq_false_2 (true = false)) in Hqx by done.
    by rewrite andb_false_r in Hqx.
Qed.

Lemma answerQuestion_moves_listing_witness :
  ∃ m', data (answerQuestion (mkEnv "x" "y" (Sample.clock 40)) Scenario.asked
                "alice" "q1" (Some (Js.of_string " boots "))).1 = Some m'
    ∧ Message.answer m' = Some (Js.of_string "boots")
    ∧ Scenario.question
        ∈ returnedPage
            (getQAMessages Scenario.asked "t1" (Some 1) (Some 20)
               (Some "false")).1.
Proof.
  destruct (answerQuestion_moves_listing (mkEnv "x" "y" (Sample.clock 40))
              Scenario.asked "alice" "q1" Scenario.question "t1"
              (Js.of_string " boots ") 20
              eq_refl eq_refl eq_refl eq_refl ltac:(by vm_compute)
              ltac:(by vm_compute))
    as (m' & Hdata & Hanswer & Hopen & _ & _).
  exists m'. split; [exact Hdata|]. split; [exact Hanswer|exact Hopen].
Defined.

(** X12: [sendMessage] never attaches a trip to the message it stores,
    so no message it returns, whatever its type, is ever listed by
    [getQAMessages]. *)
Theorem chat_message_never_in_QA e s u cid content mt m tid page limit answered :
  data (sendMessage e s u cid content mt).1 = Some m →
  Message.trip m = None
  ∧ m ∉ returnedPage
          (getQAMessages (sendMessage e s u cid content mt).2
             tid page limit answered).1.
Proof.
  intros Hdata.
  assert (Htrip : Message.trip m = None).
  { unfold sendMessage in Hdata. destruct content as [c|]; [|done].
    case_bool_decide; [done|].
    destruct (Chat.findById cid (Chats s)); [|done].
    destruct (negb (Chat.isParticipant u _)); [done|].
    cbn in Hdata. by injection Hdata as <-. }
  split; [done|]. intros Hin. apply qa_listed in Hin as [_ Hq].
  unfold qaQuery in Hq. rewrite Htrip in Hq.
  by rewrite (bool_decide_eq_false_2 (None = Some tid)) in Hq.
Qed.

Lemma chat_message_never_in_QA_witness :
  ∃ m, data (sendMessage (mkEnv "u4" "msg4" (Sample.clock 40)) Sample.chatting
               "bob" "chat1" (Some (Js.of_string "and when?"))
               (Some "question")).1 = Some m
    ∧ Message.messageType m = "question"
    ∧ Message.trip m = None.
Proof.
  destruct (chat_sendMessage_sent (mkEnv "u4" "msg4" (Sample.clock 40))
              Sample.chatting "bob" "chat1" _ (Js.of_string "and when?")
              (Some "question") eq_refl eq_refl ltac:(by vm_compute))
    as (cs & Hsent & _).
  pose proof (f_equal (λ p, data p.1) Hsent) as Hm. cbn [fst data ok] in Hm.
  eexists. split; [exact Hm|]. split; [done|].
  exact (proj1 (chat_message_never_in_QA _ _ _ _ _ _ _ "t1" None None None Hm)).
Defined.

End ChatReadersAndQuestions.

(** ** Rating service, continued *)

Section CollectionUpdates.
Context {A : Type}.
Implicit Types (q : A → bool) (u : A → A) (l : list A).

Lemma updateOne_fixed q u l m :
  List.find q l = Some m → u m = m → Mongo.updateOne q u l = l.
Proof.
  induction l as [|x l IH]; simpl; [done|].
  destruct (q x) eqn:E.
  - intros [= ->] ->. done.
  - intros Hf Hu. by rewrite IH.
Qed.

(** [updateOne] keeps every position; the document there is the old one
    or the image of a matching one. *)
Lemma updateOne_lookup q u l i x :
  l !! i = Some x →
  ∃ x', Mongo.updateOne q u l !! i = Some x'
        ∧ (x' = x ∨ (q x = true ∧ x' = u x)).
Proof.
  revert i. induction l as [|y l IH]; intros i; [done|].
  simpl. destruct (q y) eqn:E.
  - destruct i as [|i]; simpl.
    + intros [= ->]. eexists. split; [done|]. by right.
    + intros Hi. eexists. split; [done|]. by left.
  - destruct i as [|i]; simpl.
    + intros [= ->]. eexists. split; [done|]. by left.
    + apply IH.
Qed.

Lemma updateOne_Forall (P : A → Prop) q u l :
  Forall P l → (∀ x, x ∈ l → q x = true → P (u x)) →
  Forall P (Mongo.updateOne q u l).
Proof.
  induction 1 as [|y l Hy Hl IH]; intros Hu; simpl; [constructor|].
  destruct (q y) eqn:E.
  - constructor; [|done]. apply Hu; [left|done].
  - constructor; [done|]. apply IH. intros x Hx. apply Hu. by right.
Qed.

Lemma NoDup_fmap_eq {B} (f : A → B) l x y :
  NoDup (f <$> l) → x ∈ l → y ∈ l → f x = f y → x = y.
Proof.
  induction l as [|z l IH]; [by intros _ ?%elem_of_nil|].
  rewrite fmap_cons, NoDup_cons. intros [Hz Hnd] Hx Hy Hf.
  apply elem_of_cons in Hx as [->|Hx]; apply elem_of_cons in Hy as [->|Hy].
  - done.
  - exfalso. apply Hz. rewrite Hf. by apply list_elem_of_fmap_2.
  - exfalso. apply Hz. rewrite <- Hf. by apply list_elem_of_fmap_2.
  - by apply IH.
Qed.

End CollectionUpdates.

Section RatingMore.
Import RatingController.

(** X13: [voteHelpful] keeps the helpful-vote counter non-negative; an
    up-vote followed by a down-vote restores it; a down-vote at zero
    writes nothing. *)
Theorem voteHelpful_counter e e' s id r b :
  Rating.findById id (Ratings s) = Some r →
  0 ≤ Rating.helpfulVotes r →
  let up := voteHelpful e s id true in
  let down := voteHelpful e' up.2 id false in
  data up.1 = Some (Rating.helpfulVotes r + 1)
  ∧ data down.1 = Some (Rating.helpfulVotes r)
  ∧ (∃ r', Rating.findById id (Ratings (voteHelpful e s id b).2) = Some r'
           ∧ 0 ≤ Rating.helpfulVotes r')
  ∧ (Rating.helpfulVotes r = 0 →
     voteHelpful e s id false
     = (ok 200 (Some "Vote recorded successfully") 0, s)).
Proof.
  intros Hr Hpos up down.
  assert (Hfind : ∀ now x,
            Rating.findById id
              (Mongo.updateOne (Rating.hasId id) (vote x now) (Ratings s))
            = Some (vote x now r)).
  { intros now x. unfold Rating.findById, Rating.hasId in *.
    rewrite find_updateOne, Hr; [done|]. by intros d Hd. }
  subst down up. unfold voteHelpful. rewrite Hr.
  cbn [fst snd data ok Ratings withRatings]. rewrite Hfind.
  cbn [fst snd data ok Ratings withRatings].
  split; [done|]. split.
  { unfold vote. cbn [Rating.helpfulVotes].
    rewrite bool_decide_eq_true_2 by lia. f_equal. lia. }
  split.
  { rewrite Hfind. eexists. split; [done|].
    unfold vote. cbn [Rating.helpfulVotes].
    destruct b; [lia|]. case_bool_decide; lia. }
  intros H0.
  assert (Hsame : vote false (date e 0) r = r).
  { unfold vote. rewrite (bool_decide_eq_false_2 (0 < _)) by lia.
    rewrite bool_decide_eq_true_2 by done. by destruct r. }
  rewrite Hsame, H0.
  rewrite (updateOne_fixed (Rating.hasId id) _ (Ratings s) r Hr Hsame).
  by destruct s.
Qed.

Lemma voteHelpful_counter_witness :
  data (voteHelpful (mkEnv "x" "y" (Sample.clock 61)) Sample.rated "r1" true).1
  = Some 1
  ∧ data (voteHelpful (mkEnv "x" "y" (Sample.clock 62))
            (voteHelpful (mkEnv "x" "y" (Sample.clock 61)) Sample.rated
               "r1" true).2 "r1" false).1 = Some 0
  ∧ voteHelpful (mkEnv "x" "y" (Sample.clock 63)) Sample.rated "r1" false
    = (ok 200 (Some "Vote recorded successfully") 0, Sample.rated).
Proof.
  destruct (voteHelpful_counter (mkEnv "x" "y" (Sample.clock 61))
              (mkEnv "x" "y" (Sample.clock 62)) Sample.rated "r1" _ true
              eq_refl ltac:(by vm_compute)) as (Hup & Hdown & _ & _).
  destruct (voteHelpful_counter (mkEnv "x" "y" (Sample.clock 63))
              (mkEnv "x" "y" (Sample.clock 62)) Sample.rated "r1" _ true
              eq_refl ltac:(by vm_compute)) as (_ & _ & _ & Hzero).
  split; [exact Hup|]. split; [exact Hdown|]. exact (Hzero eq_refl).
Defined.

(** X14: [getRatings] changes nothing and, whatever the page, limit and
    sort option, lists only stored ratings of the requested target that
    are not hidden. *)
Theorem getRatings_lists_visible_only s ty tg page limit sort :
  (getRatings s ty tg page limit sort).2 = s
  ∧ Forall (λ r, r ∈ Ratings s
                 ∧ Rating.isHidden r = false
                 ∧ Rating.targetType r = ty
                 ∧ Rating.targetId r = tg)
      (listedRatings (getRatings s ty tg page limit sort).1).
Proof.
  unfold getRatings. cbv zeta.
  destruct (Mongo.find _ _ _ _ _) as [rs|] eqn:Hf;
    cbn [fst snd listedRatings data ok fail from_option RatingController.ratings];
    [|by split].
  split; [done|]. apply find_sound in Hf.
  eapply Forall_impl; [exact Hf|]. intros r [Hin Hq]. split; [done|].
  unfold visibleFor in Hq.
  apply andb_prop in Hq as [Hq Hh]. apply andb_prop in Hq as [Ht Hg].
  by apply bool_decide_eq_true_1 in Ht, Hg, Hh.
Qed.

(** X15: no rating operation un-hides a rating: at every position of
    the collection, a rating hidden before [reportRating],
    [voteHelpful] or [createRating] is the same document, still hidden,
    afterwards. *)
Theorem hidden_is_permanent e s id b who ty tg sc rv i r :
  NoDup (Rating._id <$> Ratings s) →
  Ratings s !! i = Some r →
  Rating.isHidden r = true →
  (∃ r', Ratings (reportRating e s id).2 !! i = Some r'
         ∧ Rating._id r' = Rating._id r ∧ Rating.isHidden r' = true)
  ∧ (∃ r', Ratings (voteHelpful e s id b).2 !! i = Some r'
           ∧ Rating._id r' = Rating._id r ∧ Rating.isHidden r' = true)
  ∧ (∃ r', Ratings (createRating e s who ty tg sc rv).2 !! i = Some r'
           ∧ Rating._id r' = Rating._id r ∧ Rating.isHidden r' = true).
Proof.
  intros Hnd Hi Hh. split; [|split].
  - unfold reportRating. destruct (Rating.findById id (Ratings s));
      cbn [snd Ratings withRatings]; [|by eexists].
    destruct (updateOne_lookup (Rating.hasId id) (Rating.report (date e 0))
                _ _ _ Hi) as (r' & Hr' & [->|[_ ->]]); eexists; (split; [done|]).
    + done.
    + unfold Rating.report. cbn [Rating._id Rating.isHidden].
      rewrite Hh. split; [done|]. by case_bool_decide.
  - unfold voteHelpful. destruct (Rating.findById id (Ratings s));
      cbn [snd Ratings withRatings]; [|by eexists].
    destruct (updateOne_lookup (Rating.hasId id) (vote b (date e 0))
                _ _ _ Hi) as (r' & Hr' & [->|[_ ->]]); eexists; (split; [done|]);
      done.
  - unfold createRating.
    destruct (targetError s ty tg) as [[??]|]; [by eexists|].
    destruct (Rating.findOne who ty tg (Ratings s)) as [old|] eqn:Hold.
    + unfold Rating.update.
      destruct (_ || _); cbn [snd Ratings withRatings]; [by eexists|].
      destruct (updateOne_lookup (Rating.hasId (Rating._id old))
                  (λ _, Rating.mk (Rating._id old) (Rating.rating_id old)
                          (Rating.reviewer old) (Rating.targetType old)
                          (Rating.targetId old)
                          (default (Rating.rating old) sc) rv
                          (Rating.isVerified old) (Rating.helpfulVotes old)
                          (Rating.reportCount old) (Rating.isHidden old)
                          (Rating.createdAt old)
                          (if bool_decide (sc ≠ Some (Rating.rating old))
                              || bool_decide (rv ≠ Rating.review old)
                           then date e 0 else Rating.updatedAt old))
                  _ _ _ Hi) as (r' & Hr' & [->|[Hq ->]]);
        eexists; (split; [exact Hr'|]); [done|].
      apply bool_decide_eq_true_1 in Hq.
      assert (r = old) as ->.
      { apply (NoDup_fmap_eq Rating._id (Ratings s)); [done| | |done].
        - by eapply list_elem_of_lookup_2.
        - unfold Rating.findOne in Hold. by apply find_Some_elem in Hold as [? _]. }
      done.
    + destruct (Rating.create e who ty tg sc rv (Ratings s)) as [[r0 rs]|] eqn:Hc;
        [|by eexists].
      assert (rs = Ratings s ++ [r0]) as ->.
      { unfold Rating.create in Hc. destruct sc; [|done].
        destruct (_ && _ && _); [|done]. destruct (_ || _); [done|].
        by injection Hc as <- <-. }
      exists r. split; [|done]. cbn [snd].
      case_bool_decide; rewrite ?Ratings_updateGuideRating;
        cbn [Ratings withRatings]; by apply lookup_app_l_Some.
Qed.

Lemma hidden_is_permanent_witness :
  ∃ r r', Ratings (Sample.reported 5) !! 0%nat = Some r
    ∧ Rating.isHidden r = true
    ∧ Ratings (createRating (mkEnv "k2" "r2" (Sample.clock 70))
                 (Sample.reported 5) "alice" "guide" "carol"
                 (Some (Qc_of_Z 5)) None).2 !! 0%nat = Some r'
    ∧ Rating.isHidden r' = true.
Proof.
  destruct (Ratings (Sample.reported 5) !! 0%nat) as [r|] eqn:Hr;
    [|by vm_compute in Hr].
  assert (Hh : Rating.isHidden r = true)
    by (vm_compute in Hr; by injection Hr as <-).
  destruct (hidden_is_permanent (mkEnv "k2" "r2" (Sample.clock 70))
              (Sample.reported 5) "r1" true "alice" "guide" "carol"
              (Some (Qc_of_Z 5)) None 0%nat r
              ltac:(vm_compute; repeat constructor; by intros ?%elem_of_nil)
              Hr Hh)
    as (_ & _ & r' & Hr' & _ & Hh').
  exists r, r'. split; [done|]. split; [exact Hh|]. split; [exact Hr'|exact Hh'].
Defined.

End RatingMore.

Section RatingListings.
Import RatingController.

(** What [getRatings] lists is visible. *)
Lemma listed_visible s ty tg page limit sort r :
  r ∈ listedRatings (getRatings s ty tg page limit sort).1 →
  Rating.isHidden r = false.
Proof.
  unfold getRatings. cbv zeta.
  destruct (Mongo.find _ _ _ _ _) as [rs|] eqn:Hf;
    cbn [fst listedRatings data ok fail from_option RatingController.ratings];
    [|by intros ?%elem_of_nil].
  intros Hin. apply find_sound in Hf.
  destruct (proj1 (list.Forall_forall _ _) Hf r Hin) as [_ Hq].
  unfold visibleFor in Hq. apply andb_prop in Hq as [_ Hh].
  by apply bool_decide_eq_true_1 in Hh.
Qed.

(** X16: the report that brings a rating to five reports removes it
    from every [getRatings] listing, while [getUserRatings] keeps
    showing it to its reviewer. *)
Theorem hidden_rating_stays_in_user_listing e s id r (limit : Z) :
  Rating.findById id (Ratings s) = Some r →
  4 ≤ Rating.reportCount r →
  Z.of_nat (length (Ratings s)) ≤ limit →
  let s' := (reportRating e s id).2 in
  ∃ r',
    Rating.findById id (Ratings s') = Some r'
    ∧ Rating.isHidden r' = true
    ∧ (∀ ty tg page lim sort,
         r' ∉ listedRatings (getRatings s' ty tg page lim sort).1)
    ∧ r' ∈ listedUserRatings
             (getUserRatings s' (Rating.reviewer r) (Some 1) (Some limit)).1.
Proof.
  intros Hr H4 Hlimit s'. subst s'. unfold reportRating. rewrite Hr.
  cbn [snd]. set (r' := Rating.report (date e 0) r).
  assert (Hhid : Rating.isHidden r' = true).
  { subst r'. unfold Rating.report. cbn [Rating.isHidden].
    by rewrite bool_decide_eq_true_2 by lia. }
  exists r'. split.
  { cbn [Ratings withRatings]. unfold Rating.findById, Rating.hasId in *.
    rewrite find_updateOne, Hr; [done|]. by intros d Hd. }
  split; [done|]. split.
  { intros ty tg page lim sort Hin. apply listed_visible in Hin. congruence. }
  destruct (updateOne_insert (Rating.hasId id) (Rating.report (date e 0))
              _ _ Hr) as (i & Hi & Hupd).
  fold r' in Hupd.
  assert (Hpos : (0 < length (Ratings s))%nat)
    by (apply lookup_lt_Some in Hi; lia).
  unfold getUserRatings, param. cbv zeta.
  cbn [default Ratings withRatings]. unfold Datatypes.id. rewrite Hupd.
  rewrite (find_first_page _ (sortQuery "newest") limit _);
    [|lia|].
  - cbn [fst listedUserRatings data ok from_option userRatings].
    rewrite (sort_perm (sortQuery "newest")). apply filter_elem. split.
    + apply list_elem_of_lookup. exists i.
      apply list_lookup_insert_eq. by eapply lookup_lt_Some.
    + unfold byReviewer. by apply bool_decide_eq_true_2.
  - pose proof (filter_length_le (byReviewer (Rating.reviewer r))
                  (<[i:=r']> (Ratings s))) as Hle.
    rewrite length_insert in Hle. lia.
Qed.

Lemma hidden_rating_stays_in_user_listing_witness :
  ∃ r', Rating.findById "r1" (Ratings (Sample.reported 5)) = Some r'
    ∧ Rating.isHidden r' = true
    ∧ (r' ∉ listedRatings
              (getRatings (Sample.reported 5) "guide" "carol" None None None).1)
    ∧ r' ∈ listedUserRatings
             (getUserRatings (Sample.reported 5) "alice" (Some 1) (Some 10)).1.
Proof.
  destruct (hidden_rating_stays_in_user_listing
              (mkEnv "x" "y" (Sample.clock 60)) (Sample.reported 4) "r1" _ 10
              eq_refl ltac:(by vm_compute) ltac:(by vm_compute))
    as (r' & Hfind & Hhid & Hnot & Hin).
  exists r'. split; [exact Hfind|]. split; [exact Hhid|].
  split; [exact (Hnot "guide" "carol" None None None)|exact Hin].
Defined.

(** X17: [createRating] either succeeds or leaves the store as it was,
    and together with [reportRating] and [voteHelpful] it keeps the
    schema's bounds: if every stored rating has a score in [1, 5] and a
    review of at most 1000 characters, so has every rating stored
    afterwards. *)
Theorem ratings_stay_valid e s who ty tg sc rv id b :
  (success (createRating e s who ty tg sc rv).1 = false →
   (createRating e s who ty tg sc rv).2 = s)
  ∧ (Forall validRating (Ratings s) →
     Forall validRating (Ratings (createRating e s who ty tg sc rv).2)
     ∧ Forall validRating (Ratings (reportRating e s id).2)
     ∧ Forall validRating (Ratings (voteHelpful e s id b).2)).
Proof.
  split.
  - unfold createRating.
    destruct (targetError s ty tg) as [[??]|]; [done|].
    destruct (Rating.findOne who ty tg (Ratings s)).
    + by destruct (Rating.update _ _ _ _ _) as [[??]|].
    + by destruct (Rating.create _ _ _ _ _ _ _) as [[??]|].
  - intros Hall. split; [|split].
    + unfold createRating.
      destruct (targetError s ty tg) as [[??]|]; [done|].
      destruct (Rating.findOne who ty tg (Ratings s)) as [old|] eqn:Hold.
      * unfold Rating.update.
        destruct (_ || _) eqn:Hbad; cbn [snd Ratings withRatings]; [done|].
        apply orb_false_elim in Hbad as [Hsc Hrv].
        apply updateOne_Forall; [done|]. intros x _ _.
        assert (Hold' : validRating old).
        { unfold Rating.findOne in Hold.
          apply find_Some_elem in Hold as [Hin _].
          by apply (proj1 (list.Forall_forall _ _) Hall). }
        destruct Hold' as [Hos Hor].
        split; cbn [Rating.rating Rating.review].
        -- destruct sc as [q|];
             [|by rewrite bool_decide_eq_true_2 in Hsc].
           change (default (Rating.rating old) (Some q)) with q.
           destruct (decide (Some q = Some (Rating.rating old))) as [[= ->]|Hne];
             [done|].
           rewrite bool_decide_eq_true_2 in Hsc by done.
           by destruct (Rating.validScore (Some q)).
        -- destruct (decide (rv = Rating.review old)) as [->|Hne]; [done|].
           rewrite bool_decide_eq_true_2 in Hrv by done.
           by destruct (Rating.validReview rv).
      * destruct (Rating.create e who ty tg sc rv (Ratings s)) as [[r0 rs]|] eqn:Hc;
          [|done].
        cbn [snd].
        assert (Forall validRating rs).
        { unfold Rating.create in Hc. destruct sc as [q|]; [|done].
          destruct (Rating.validScore (Some q)) eqn:Hs; [|done].
          destruct (Rating.validReview rv) eqn:Hr; [|done].
          destruct (Rating.validTargetType ty); [|done].
          destruct (_ || _); [done|]. injection Hc as <- <-.
          apply Forall_app. split; [done|]. by repeat constructor. }
        case_bool_decide; by rewrite ?Ratings_updateGuideRating.
    + unfold reportRating. destruct (Rating.findById id (Ratings s)); [|done].
      cbn [snd Ratings withRatings]. apply updateOne_Forall; [done|].
      intros x Hx _.
      destruct (proj1 (list.Forall_forall _ _) Hall x Hx) as [Hs Hr].
      split; [exact Hs|exact Hr].
    + unfold voteHelpful. destruct (Rating.findById id (Ratings s)); [|done].
      cbn [snd Ratings withRatings]. apply updateOne_Forall; [done|].
      intros x Hx _.
      destruct (proj1 (list.Forall_forall _ _) Hall x Hx) as [Hs Hr].
      split; [exact Hs|exact Hr].
Qed.







End RatingListings.

(** ** Order service *)

Section CollectionPositions.
Context {A : Type}.
Implicit Types (q : A → bool) (l : list A).

(** The first match has a position, the one [updateOne] rewrites and a
    later lookup by the same filter finds. *)
Lemma find_position q l m :
  List.find q l = Some m →
  ∃ i, l !! i = Some m
       ∧ (∀ u, Mongo.updateOne q u l = <[i := u m]> l)
       ∧ (∀ x, q x = true → List.find q (<[i := x]> l) = Some x).
Proof.
  induction l as [|y l IH]; simpl; [done|].
  destruct (q y) eqn:E.
  - intros [= ->]. exists 0%nat. split; [done|]. split; [done|].
    intros x Hx. simpl. by rewrite Hx.
  - intros Hf. destruct (IH Hf) as (i & Hi & Hu & Hx).
    exists (S i). split; [done|]. split.
    + intros u. simpl. by rewrite Hu.
    + intros x Hqx. simpl. rewrite E. by apply Hx.
Qed.

End CollectionPositions.

Section OrderFacts.
Import OrderController.

Lemma order_position id os o :
  Order.findById id os = Some o →
  Order._id o = id
  ∧ ∃ i, os !! i = Some o
         ∧ (∀ u, Mongo.updateOne (Order.hasId id) u os = <[i := u o]> os)
         ∧ (∀ x, Order._id x = id →
                 Order.findById id (<[i := x]> os) = Some x).
Proof.
  intros Ho. split.
  - apply find_some in Ho as [_ Ho]. by apply bool_decide_eq_true_1 in Ho.
  - destruct (find_position _ _ _ Ho) as (i & Hi & Hu & Hx).
    exists i. split; [done|]. split; [exact Hu|].
    intros x Hid. apply Hx. by apply bool_decide_eq_true_2.
Qed.

(** A schema-valid order stays so when only its status, payment status
    and free-text fields move within the schema. *)
Lemma valid_restatus o o' :
  sameDeal o o' →
  Order.statusOf o' ∈ Order.statuses →
  Order.paymentStatus o' = Order.paymentStatus o
  ∨ Order.paymentStatus o' = "refunded" →
  Order.valid o = true → Order.valid o' = true.
Proof.
  intros (_ & H2 & _ & _ & H5 & H6 & H7 & H8 & H9 & _) Hs Hp.
  unfold Order.valid. rewrite H2, H5, H6, H7, H8, H9.
  rewrite (bool_decide_eq_true_2 _ Hs). intros Hv.
  repeat (apply andb_prop in Hv as [Hv ?]).
  repeat (apply andb_true_intro; split); try done.
  destruct Hp as [-> | ->]; [done|].
  apply bool_decide_eq_true_2. apply (bool_decide_unpack _). by vm_compute.
Qed.




(** X20: [updateOrderStatus] has no transition rule: the seller or an
    admin moves an order that satisfies the schema from any status to
    any status of the schema's enum, stamping [deliveryDate] exactly on
    'delivered' and leaving payment status, refund and the deal
    untouched and the order valid; a new status outside the enum is
    answered 500 and nothing is written. *)
Theorem updateOrderStatus_any_transition e s os u id o st notes :
  Order.findById id os = Some o →
  Order.valid o = true →
  (isSeller o u || isAdmin s u) = true →
  (st ∈ Order.statuses →
   ∃ i o',
     os !! i = Some o
     ∧ updateOrderStatus e s os u id (Some st) notes
       = (ok 200 (Some "Order status updated successfully") o', <[i := o']> os)
     ∧ Order.statusOf o' = st
     ∧ Order.deliveryDate o'
       = (if bool_decide (st = "delivered") then Some (date e 0)
          else Order.deliveryDate o)
     ∧ Order.paymentStatus o' = Order.paymentStatus o
     ∧ Order.refundAmount o' = Order.refundAmount o
     ∧ Order.cancellationReason o' = Order.cancellationReason o
     ∧ sameDeal o o'
     ∧ Order.valid o' = true)
  ∧ (st ∉ Order.statuses → st ≠ Order.statusOf o →
     updateOrderStatus e s os u id (Some st) notes
     = (fail 500 "Server error while updating order status", os)).
Proof.
  intros Ho Hvalid Hauth.
  assert (Hgate : negb (isSeller o u) && negb (isAdmin s u) = false)
    by (by destruct (isSeller o u), (isAdmin s u)).
  destruct (order_position _ _ _ Ho) as (Hid & i & Hi & Hu & _).
  split.
  - intros Hst. unfold updateOrderStatus. rewrite Ho, Hgate.
    unfold statusAccepted.
    rewrite (bool_decide_eq_true_2 (st ∈ Order.statuses)), orb_true_r by done.
    cbn [negb]. cbv zeta. rewrite Hu.
    eexists i, _. split; [done|]. split; [reflexivity|].
    unfold setStatus. cbv zeta.
    cbn [Order.statusOf Order.status Order.deliveryDate Order.paymentStatus
         Order.refundAmount Order.cancellationReason].
    split.
    { done. }
    split.
    { destruct (decide (st = "delivered")) as [->|Hne].
      - by rewrite !bool_decide_eq_true_2.
      - rewrite !bool_decide_eq_false_2; [done|done|congruence]. }
    do 3 (split; [done|]). split; [by repeat split|].
    by apply (valid_restatus o); [by repeat split| |by left|].
  - intros Hbad Hne. unfold updateOrderStatus. rewrite Ho, Hgate.
    unfold statusAccepted.
    rewrite (bool_decide_eq_false_2 (st = Order.statusOf o)) by done.
    by rewrite (bool_decide_eq_false_2 (st ∈ Order.statuses)).
Qed.

Lemma updateOrderStatus_any_transition_witness :
  ∃ o', (updateOrderStatus (mkEnv "x" "y" (Sample.clock 82)) Sample.store
           (cancelOrder (mkEnv "x" "y" (Sample.clock 80)) Scenario.book
              "bob" "o1" None).2 "carol" "o1" (Some "delivered") None).1
        = ok 200 (Some "Order status updated successfully") o'
    ∧ Order.statusOf o' = "delivered"
    ∧ Order.deliveryDate o' = Some 82
    ∧ updateOrderStatus (mkEnv "x" "y" (Sample.clock 82)) Sample.store
        Scenario.book "carol" "o1" (Some "lost") None
      = (fail 500 "Server error while updating order status", Scenario.book).
Proof.
  destruct (updateOrderStatus_any_transition
              (mkEnv "x" "y" (Sample.clock 82)) Sample.store
              (cancelOrder (mkEnv "x" "y" (Sample.clock 80)) Scenario.book
                 "bob" "o1" None).2 "carol" "o1" _ "delivered" None
              eq_refl eq_refl eq_refl) as [Hok _].
  destruct (Hok ltac:(apply (bool_decide_unpack _); by vm_compute))
    as (i & o' & _ & Hres & Hst & Hdel & _).
  destruct (updateOrderStatus_any_transition
              (mkEnv "x" "y" (Sample.clock 82)) Sample.store
              Scenario.book "carol" "o1" _ "lost" None
              eq_refl eq_refl eq_refl) as [_ Hbad].
  exists o'. split; [exact (f_equal fst Hres)|]. split; [exact Hst|].
  split; [exact Hdel|].
  apply Hbad; [apply (bool_decide_unpack _); by vm_compute|done].
Defined.

End OrderFacts.

Section OrderRefundsAndAccess.
Import OrderController.



(** X22: who may do what with an order that satisfies the schema.  A
    buyer who is neither the seller nor an admin can read the order but
    is refused by
    [updateOrderStatus] and [processRefund]; an admin who is no party
    to the order passes those two but is refused by [getOrder] and
    [cancelOrder]; every refusal is a 403 that changes nothing. *)
Theorem order_access_matrix e s os id o b a bu su st notes amount reason :
  Order.findById id os = Some o →
  Order.valid o = true →
  User.findById (Order.buyer o) (Users s) = Some bu →
  User.findById (Order.seller o) (Users s) = Some su →
  Order.buyer o = b → Order.seller o ≠ b → isAdmin s b = false →
  isAdmin s a = true → Order.buyer o ≠ a → Order.seller o ≠ a →
  status (getOrder s os b id).1 = 200
  ∧ updateOrderStatus e s os b id st notes
    = (fail 403 "Only seller or admin can update order status", os)
  ∧ processRefund e s os b id amount reason
    = (fail 403 "Only seller or admin can process refunds", os)
  ∧ getOrder s os a id = (fail 403 "Access denied", os)
  ∧ cancelOrder e os a id reason = (fail 403 "Access denied", os)
  ∧ status (processRefund e s os a id amount reason).1 = 200
  ∧ (statusAccepted st o = true →
     status (updateOrderStatus e s os a id st notes).1 = 200).
Proof.
  intros Ho _ Hbu Hsu Hb Hsb Hnb Ha Hba Hsa.
  pose proof (findById_Some_id _ _ _ Hbu) as Hbid.
  pose proof (findById_Some_id _ _ _ Hsu) as Hsid.
  unfold getOrder, updateOrderStatus, processRefund, cancelOrder.
  rewrite Ho. unfold isStranger, populate, isSeller, isBuyer.
  cbn [buyerUser sellerUser]. rewrite Hbu, Hsu, Hbid, Hsid, Hnb, Ha.
  rewrite (bool_decide_eq_false_2 (Order.buyer o ≠ b)) by (by intros ?).
  rewrite (bool_decide_eq_false_2 (Order.seller o = b)) by done.
  rewrite (bool_decide_eq_true_2 (Order.buyer o ≠ a)) by done.
  rewrite (bool_decide_eq_true_2 (Order.seller o ≠ a)) by done.
  rewrite (bool_decide_eq_false_2 (Order.buyer o = a)) by done.
  rewrite (bool_decide_eq_false_2 (Order.seller o = a)) by done.
  cbn [negb andb]. do 6 (split; [done|]).
  by intros ->.
Qed.

Lemma order_access_matrix_witness :
  status (getOrder Scenario.staffed [Scenario.tent] "bob" "o1").1 = 200
  ∧ getOrder Scenario.staffed [Scenario.tent] "dave" "o1"
    = (fail 403 "Access denied", [Scenario.tent])
  ∧ status (processRefund (mkEnv "x" "y" (Sample.clock 90)) Scenario.staffed
              [Scenario.tent] "dave" "o1" None None).1 = 200
  ∧ processRefund (mkEnv "x" "y" (Sample.clock 90)) Scenario.staffed
      [Scenario.tent] "bob" "o1" None None
    = (fail 403 "Only seller or admin can process refunds", [Scenario.tent]).
Proof.
  destruct (order_access_matrix (mkEnv "x" "y" (Sample.clock 90))
              Scenario.staffed [Scenario.tent] "o1" Scenario.tent
              "bob" "dave" Sample.bob Sample.carol None None None None
              eq_refl eq_refl eq_refl eq_refl eq_refl ltac:(done) eq_refl
              eq_refl
              ltac:(done) ltac:(done))
    as (Hread & _ & Hrefund & Hdenied & _ & Hadmin & _).
  split; [exact Hread|]. split; [exact Hdenied|].
  split; [exact Hadmin|exact Hrefund].
Defined.

(** X23: [getOrder] depends on the parties' accounts: once the buyer's
    user no longer exists it answers 500 to every requester, the seller
    included; when only the seller's user is gone it still serves the
    buyer and answers 500 to everyone else. *)
Theorem getOrder_missing_party s os id o u :
  Order.findById id os = Some o →
  (User.findById (Order.buyer o) (Users s) = None →
   getOrder s os u id = (fail 500 "Server error while fetching order", os))
  ∧ (User.findById (Order.seller o) (Users s) = None →
     ∀ bu, User.findById (Order.buyer o) (Users s) = Some bu →
     (u = Order.buyer o → status (getOrder s os u id).1 = 200)
     ∧ (u ≠ Order.buyer o →
        getOrder s os u id = (fail 500 "Server error while fetching order", os))).
Proof.
  intros Ho. unfold getOrder, isStranger, populate. rewrite Ho.
  cbn [buyerUser sellerUser]. split.
  - by intros ->.
  - intros -> bu Hbu. rewrite Hbu.
    rewrite (findById_Some_id _ _ _ Hbu). split.
    + intros ->. by rewrite bool_decide_eq_false_2 by (by intros ?).
    + intros Hne. by rewrite bool_decide_eq_true_2 by congruence.
Qed.

Lemma getOrder_missing_party_witness :
  getOrder Sample.store Scenario.book "carol" "o2"
  = (fail 500 "Server error while fetching order", Scenario.book).
Proof.
  destruct (getOrder_missing_party Sample.store Scenario.book "o2"
              Scenario.orphan "carol" eq_refl) as [Hgone _].
  exact (Hgone eq_refl).
Defined.

(** What [getUserOrders] lists matches its filter and is stored. *)
Lemma orders_listed s os u page limit st o :
  o ∈ listedOrders (getUserOrders s os u page limit st).1 →
  o ∈ os ∧ ordersQuery u st o = true.
Proof.
  unfold getUserOrders, listedOrders. cbv zeta.
  destruct (Mongo.find _ _ _ _ _) as [l|] eqn:Hf;
    cbn [fst data ok fail from_option orders fmap list_fmap];
    [|by intros ?%elem_of_nil].
  intros (v & -> & (x & -> & Hx)%list_elem_of_fmap)%list_elem_of_fmap.
  apply find_sound in Hf. cbn [populate order].
  by apply (proj1 (list.Forall_forall _ _) Hf).
Qed.

(** X24: [getUserOrders] changes nothing and lists only stored orders
    in which the requester is the buyer or the seller; with a non-empty
    [status] parameter, only those stored with that status. *)
Theorem getUserOrders_own_only s os u page limit st :
  (getUserOrders s os u page limit st).2 = os
  ∧ Forall (λ o, o ∈ os
                 ∧ (Order.buyer o = u ∨ Order.seller o = u)
                 ∧ (∀ x, st = Some x → x ≠ "" → Order.status o = Some x))
      (listedOrders (getUserOrders s os u page limit st).1).
Proof.
  split.
  - unfold getUserOrders. cbv zeta. by destruct (Mongo.find _ _ _ _ _).
  - apply list.Forall_forall. intros o Ho.
    apply orders_listed in Ho as [Hin Hq]. split; [done|].
    unfold ordersQuery in Hq. apply andb_prop in Hq as [Hparty Hst]. split.
    + apply orb_prop in Hparty as [H|H]; apply bool_decide_eq_true_1 in H; auto.
    + intros x -> Hx. rewrite (bool_decide_eq_false_2 (x = "")) in Hst by done.
      by apply bool_decide_eq_true_1 in Hst.
Qed.

(** X25: an order that satisfies the schema and whose status was
    cleared by an [updateOrderStatus] without a status is still valid
    and reads as pending, and can be cancelled as such, but
    [getUserOrders] does not list it under status 'pending'. *)
Theorem cleared_status_reads_pending e e' s os u id o notes page limit reason :
  Order.findById id os = Some o →
  Order.valid o = true →
  isSeller o u = true →
  let out := updateOrderStatus e s os u id None notes in
  ∃ o',
    status out.1 = 200
    ∧ Order.findById id out.2 = Some o'
    ∧ Order.status o' = None
    ∧ Order.statusOf o' = "pending"
    ∧ Order.valid o' = true
    ∧ status (cancelOrder e' out.2 u id reason).1 = 200
    ∧ o' ∉ listedOrders
             (getUserOrders s out.2 u page limit (Some "pending")).1.
Proof.
  intros Ho Hvalid Hseller out.
  destruct (order_position _ _ _ Ho) as (Hid & i & Hi & Hu & Hx).
  set (o' := setStatus None notes (date e 0) (date e 0) o).
  assert (Hout : out = (ok 200 (Some "Order status updated successfully") o',
                        <[i := o']> os)).
  { subst out. unfold updateOrderStatus. rewrite Ho, Hseller.
    cbn [negb andb statusAccepted]. cbv zeta.
    rewrite (bool_decide_eq_false_2 (None = Some "delivered")) by done.
    by rewrite Hu. }
  assert (Hfind : Order.findById id (<[i := o']> os) = Some o')
    by (by apply Hx).
  exists o'. rewrite Hout. cbn [fst snd status ok].
  do 4 (split; [done|]). split; [|split].
  - apply (valid_restatus o); [by repeat split| |by left|done].
    apply (bool_decide_unpack _). by vm_compute.
  - unfold cancelOrder. rewrite Hfind.
    replace (isSeller o' u) with true by done.
    by rewrite andb_false_r.
  - intros Hin. apply orders_listed in Hin as [_ Hq].
    unfold ordersQuery in Hq. apply andb_prop in Hq as [_ Hst].
    by rewrite (bool_decide_eq_false_2 ("pending" = "")) in Hst.
Qed.

Lemma cleared_status_reads_pending_witness :
  ∃ o', Order.findById "o1"
          (updateOrderStatus (mkEnv "x" "y" (Sample.clock 95)) Sample.store
             Scenario.book "carol" "o1" None None).2 = Some o'
    ∧ Order.statusOf o' = "pending"
    ∧ listedOrders
        (getUserOrders Sample.store
           (updateOrderStatus (mkEnv "x" "y" (Sample.clock 95)) Sample.store
              Scenario.book "carol" "o1" None None).2
           "carol" None None (Some "pending")).1 = [].
Proof.
  destruct (cleared_status_reads_pending (mkEnv "x" "y" (Sample.clock 95))
              (mkEnv "x" "y" (Sample.clock 96)) Sample.store Scenario.book
              "carol" "o1" Scenario.tent None None None None eq_refl eq_refl
              eq_refl)
    as (o' & _ & Hfind & _ & Hst & _ & _).
  exists o'. split; [exact Hfind|]. split; [exact Hst|]. by vm_compute.
Defined.

End OrderRefundsAndAccess.
